(** * The chat router ([chatRouter]) of the mobile-first chat client

    A shallow embedding of [server/api/routers/chat.ts] and of the
    [enforceUserIsAuthed] middleware of [server/api/trpc.ts], together with
    the properties of the message dispatcher that the specification states.

    Conventions of the embedding.
    - A JavaScript string is a [string]: a sequence of code units.  The
      embedding covers the code units U+0000..U+00FF, on which
      [toLowerCase], [trim] and the two regular expressions of the router
      are modelled exactly.
    - The asynchronous calls of a handler run in sequence ([await]), so a
      handler is a function from the world it starts in to its outcome and
      the world it leaves: the tables of the store and the log of the calls
      made to the store and to the model gateway.
    - What the store and the gateway answer is not decided by the router.
      Each call site runs at most once per request, so the answers are the
      fields of an [Env] record, and the theorems quantify over it. *)

From Stdlib Require Import List String Ascii Bool Arith PeanoNat Lia.
From Stdlib Require Import Sorted Permutation DecimalString.
Import ListNotations.

Local Open Scope string_scope.
Local Open Scope list_scope.
Local Open Scope nat_scope.

(** ** JavaScript strings *)

Module JsString.

(** [WhiteSpace] and [LineTerminator] of ECMAScript below U+0100: what
    [String.prototype.trim] removes and what [\s] matches. *)
Definition is_white_space (c : ascii) : bool :=
  let n := nat_of_ascii c in
  ((9 <=? n) && (n <=? 13)) || (n =? 32) || (n =? 160).

Fixpoint trimStart (s : string) : string :=
  match s with
  | EmptyString => EmptyString
  | String c s' => if is_white_space c then trimStart s' else s
  end.

Fixpoint trimEnd (s : string) : string :=
  match s with
  | EmptyString => EmptyString
  | String c s' =>
      match trimEnd s' with
      | EmptyString => if is_white_space c then EmptyString
                       else String c EmptyString
      | t => String c t
      end
  end.

Definition trim (s : string) : string := trimEnd (trimStart s).

(** [toLowerCase] on one code unit: A-Z, and the Latin-1 capitals
    U+00C0..U+00DE without the multiplication sign U+00D7. *)
Definition lower_char (c : ascii) : ascii :=
  let n := nat_of_ascii c in
  if ((65 <=? n) && (n <=? 90))
     || ((192 <=? n) && (n <=? 222) && negb (n =? 215))
  then ascii_of_nat (n + 32) else c.

Fixpoint toLowerCase (s : string) : string :=
  match s with
  | EmptyString => EmptyString
  | String c s' => String (lower_char c) (toLowerCase s')
  end.

Definition startsWith (s searchString : string) : bool :=
  String.prefix searchString s.

(** [s.substring(0, n)]. *)
Definition substring0 (n : nat) (s : string) : string :=
  String.substring 0 n s.

(** [Canonicalize] of a case-insensitive regular expression without the
    [u] flag: the upper case of the code unit, unless that is more than one
    code unit or maps a code unit outside ASCII into ASCII.  The result can
    leave the range of [ascii], so it is a number. *)
Definition canonicalize (c : ascii) : nat :=
  let n := nat_of_ascii c in
  if (97 <=? n) && (n <=? 122) then n - 32
  else if (224 <=? n) && (n <=? 254) && negb (n =? 247) then n - 32
  else if n =? 181 then 924
  else if n =? 255 then 376
  else n.

(** Match the literal [pat] case-insensitively at the start of [s]; the
    rest of [s] after the match. *)
Fixpoint match_literal_i (pat s : string) : option string :=
  match pat with
  | EmptyString => Some s
  | String p pat' =>
      match s with
      | EmptyString => None
      | String c s' =>
          if canonicalize c =? canonicalize p then match_literal_i pat' s'
          else None
      end
  end.

(** [s.replace(/^\/image\s*/i, '')]: the expression is anchored and not
    global, so it can only match at index 0; [\s*] is greedy. *)
Definition replace_image_command (s : string) : string :=
  match match_literal_i "/image" s with
  | Some rest => trimStart rest
  | None => s
  end.

Definition is_base64_char (c : ascii) : bool :=
  let n := nat_of_ascii c in
  ((65 <=? n) && (n <=? 90)) || ((97 <=? n) && (n <=? 122))
  || ((48 <=? n) && (n <=? 57)) || (n =? 43) || (n =? 47) || (n =? 61).

Fixpoint all_chars (p : ascii -> bool) (s : string) : bool :=
  match s with
  | EmptyString => true
  | String c s' => p c && all_chars p s'
  end.

(** [/^[A-Za-z0-9+/=]+$/.test(s)]. *)
Definition test_base64 (s : string) : bool :=
  match s with
  | EmptyString => false
  | _ => all_chars is_base64_char s
  end.

(** Truthiness of a string value. *)
Definition truthy (s : string) : bool :=
  match s with EmptyString => false | _ => true end.

Definition of_nat (n : nat) : string :=
  NilEmpty.string_of_uint (Nat.to_uint n).

End JsString.

(** ** Thrown values *)

Inductive TRPCCode := UNAUTHORIZED | BAD_REQUEST | INTERNAL_SERVER_ERROR.

(** What a [throw] or a rejected promise carries. *)
#[warnings="-register-all"] Inductive Thrown :=
| ErrorObject (message : string)
    (** [new Error(message)], or the rejection of a library call *)
| ErrorValue (toString : string)
    (** a value that is not an instance of [Error], such as the [error]
        member of a storage response; [toString] is what [String(v)] gives *)
| TRPCError (code : TRPCCode) (message : string) (cause : option Thrown).

(** [error instanceof Error ? error : new Error(String(error))]. *)
Definition as_Error (error : Thrown) : Thrown :=
  match error with
  | ErrorValue s => ErrorObject s
  | _ => error
  end.

(** ** The store *)

Module Conversation.
Record t := mk {
  id : string;
  title : string;
  user_id : string;
  created_at : nat;
  updated_at : nat }.
End Conversation.

Module Message.
Record t := mk {
  id : string;
  content : string;
  role : string;
  message_type : string;
  user_id : string;
  conversation_id : string;
  created_at : nat }.
End Message.

(** The object passed to [from('messages').insert]: the store adds [id] and
    [created_at]. *)
Module NewMessage.
Record t := mk {
  content : string;
  role : string;
  message_type : string;
  user_id : string;
  conversation_id : string }.
End NewMessage.

Record Db := mkDb {
  conversations : list Conversation.t;
  messages : list Message.t }.

(** [ORDER BY]: a stable insertion sort; rows with equal keys keep the order
    of the table. *)
Section OrderBy.
Context {A : Type} (leb : A -> A -> bool).

Fixpoint insert_sorted (x : A) (l : list A) : list A :=
  match l with
  | [] => [x]
  | y :: l' => if leb x y then x :: l else y :: insert_sorted x l'
  end.

Fixpoint order_by (l : list A) : list A :=
  match l with
  | [] => []
  | x :: l' => insert_sorted x (order_by l')
  end.
End OrderBy.

(** [LIMIT]. *)
Definition limit {A : Type} (n : option nat) (l : list A) : list A :=
  match n with
  | Some k => firstn k l
  | None => l
  end.

(** [from('messages').select('*').eq('conversation_id', c).eq('user_id', u)]:
    the rows the two filters keep. *)
Definition messages_of (d : Db) (conversation_id user_id : string)
  : list Message.t :=
  filter (fun m => String.eqb (Message.conversation_id m) conversation_id
                   && String.eqb (Message.user_id m) user_id)
         (messages d).

(** The same with [.order('created_at', { ascending: true })] and an
    optional [.limit(n)]. *)
Definition select_messages (d : Db) (conversation_id user_id : string)
    (n : option nat) : list Message.t :=
  limit n
    (order_by (fun a b => Message.created_at a <=? Message.created_at b)
       (messages_of d conversation_id user_id)).

(** [from('conversations').select('*').eq('user_id', u)
      .order('created_at', { ascending: false })]. *)
Definition select_conversations (d : Db) (user_id : string)
  : list Conversation.t :=
  order_by (fun a b => Conversation.created_at b <=? Conversation.created_at a)
    (filter (fun c => String.eqb (Conversation.user_id c) user_id)
       (conversations d)).

Definition store_message (id : string) (now : nat) (m : NewMessage.t)
  : Message.t :=
  Message.mk id (NewMessage.content m) (NewMessage.role m)
    (NewMessage.message_type m) (NewMessage.user_id m)
    (NewMessage.conversation_id m) now.

(** ** The model gateway *)

(** One turn of a dialogue, [{ role, parts: [{ text }, ...] }]; a part is
    given by its text. *)
Module Content.
Record t := mk {
  role : string;
  parts : list string }.
End Content.

(** The JSON body of an image-generation response, as far as the router
    probes it; an absent member is [None]. *)
Module InlineData.
Record t := mk {
  mimeType : option string;
  data : option string }.
End InlineData.

Module Part.
Record t := mk {
  inlineData : option InlineData.t;
  text : option string }.
End Part.

Module CandidateContent.
Record t := mk {
  parts : option (list Part.t) }.
End CandidateContent.

Module Candidate.
Record t := mk {
  content : option CandidateContent.t }.
End Candidate.

Module ResponseData.
Record t := mk {
  candidates : option (list Candidate.t) }.
End ResponseData.

(** ** What the outside answers *)

(** The settlement of a promise. *)
Inductive Awaited (A : Type) :=
| Fulfilled (a : A)
| Rejected (e : Thrown).
Arguments Fulfilled {A} a.
Arguments Rejected {A} e.

(** The answer of the store to an insert. *)
Inductive InsertAnswer :=
| Stored (id : string) (now : nat)
    (** the row is written; the store chose its [id] and [created_at] *)
| Refused (error : Thrown)
    (** the response carries an [error]; nothing is written *)
| NoRow
    (** neither [error] nor [data] *)
| InsertRejected (e : Thrown).

(** The answer of the store to a select; [Rows] stands for the rows the
    query selects in the tables. *)
Inductive SelectAnswer :=
| Rows
| SelectRefused (error : Thrown)
| NoData
| SelectRejected (e : Thrown).

(** The answer to the [fetch] of the image-generation endpoint.  The body of
    a failed request is given as [JSON.stringify] prints it. *)
Inductive FetchAnswer :=
| FetchRejected (e : Thrown)
| NotOk (status : nat) (json : Awaited string)
| Ok (json : Awaited ResponseData.t).

Record Env := mkEnv {
  insert_conversation : InsertAnswer;
  select_history : SelectAnswer;
  insert_user_message : InsertAnswer;
  insert_ai_message : InsertAnswer;
  select_all_conversations : SelectAnswer;
  select_all_messages : SelectAnswer;
  fetch_image_generation : FetchAnswer;
  generate_fallback : Awaited string;
  generate_image_query : Awaited string;
  generate_chat : Awaited string }.

(** ** Handlers as state transformers *)

(** A call that left the process. *)
Inductive Call :=
| InsertConversation (user_id title : string)
| SelectConversations (user_id : string)
| SelectMessages (conversation_id user_id : string) (n : option nat)
| InsertMessage (m : NewMessage.t)
| FetchImageGeneration (prompt : string)
| GenerateContentPrompt (prompt : string)
| GenerateContentImage (prompt data mimeType : string)
| GenerateContentChat (contents : list Content.t).

Record World := mkWorld {
  db : Db;
  log : list Call }.

Inductive Completion (A : Type) :=
| Return (a : A)
| Throw (e : Thrown).
Arguments Return {A} a.
Arguments Throw {A} e.

Definition Async (A : Type) : Type := World -> Completion A * World.

Definition ret {A} (a : A) : Async A := fun w => (Return a, w).

Definition throw {A} (e : Thrown) : Async A := fun w => (Throw e, w).

Definition bind {A B} (m : Async A) (k : A -> Async B) : Async B :=
  fun w =>
    match m w with
    | (Return a, w') => k a w'
    | (Throw e, w') => (Throw e, w')
    end.

(** [try { m } catch (error) { h error }]. *)
Definition try_catch {A} (m : Async A) (h : Thrown -> Async A) : Async A :=
  fun w =>
    match m w with
    | (Return a, w') => (Return a, w')
    | (Throw e, w') => h e w'
    end.

Definition call (c : Call) : Async unit :=
  fun w => (Return tt, mkWorld (db w) (log w ++ [c])).

Definition read_db : Async Db := fun w => (Return (db w), w).

Definition write_db (d : Db) : Async unit :=
  fun w => (Return tt, mkWorld d (log w)).

(** [await p]. *)
Definition await {A} (p : Awaited A) : Async A :=
  match p with
  | Fulfilled a => ret a
  | Rejected e => throw e
  end.

Declare Scope async_scope.
Delimit Scope async_scope with async.
Notation "x <- m ;; k" := (bind m (fun x => k))
  (at level 100, m at next level, right associativity) : async_scope.
Notation "m ;;; k" := (bind m (fun _ => k))
  (at level 100, right associativity) : async_scope.
Local Open Scope async_scope.

(** ** The storage client and the gateway clients *)

Module PostgrestResponse.
Record t (A : Type) := mk {
  data : option A;
  error : option Thrown }.
Arguments mk {A} data error.
Arguments data {A} t.
Arguments error {A} t.
End PostgrestResponse.

(** [ctx.supabase.from('conversations').insert({ user_id, title })
      .select().single()]. *)
Definition supabase_insert_conversation (answer : InsertAnswer)
    (user_id title : string)
  : Async (PostgrestResponse.t Conversation.t) :=
  call (InsertConversation user_id title) ;;;
  match answer with
  | Stored id now =>
      d <- read_db ;;
      let row := Conversation.mk id title user_id now now in
      write_db (mkDb (conversations d ++ [row]) (messages d)) ;;;
      ret (PostgrestResponse.mk (Some row) None)
  | Refused e => ret (PostgrestResponse.mk None (Some e))
  | NoRow => ret (PostgrestResponse.mk None None)
  | InsertRejected e => throw e
  end.

(** [ctx.supabase.from('messages').insert(m)], followed by
    [.select().single()] when [returning] is set; without it the response
    carries no [data]. *)
Definition supabase_insert_message (answer : InsertAnswer) (returning : bool)
    (m : NewMessage.t)
  : Async (PostgrestResponse.t Message.t) :=
  call (InsertMessage m) ;;;
  match answer with
  | Stored id now =>
      d <- read_db ;;
      let row := store_message id now m in
      write_db (mkDb (conversations d) (messages d ++ [row])) ;;;
      ret (PostgrestResponse.mk (if returning then Some row else None) None)
  | Refused e => ret (PostgrestResponse.mk None (Some e))
  | NoRow => ret (PostgrestResponse.mk None None)
  | InsertRejected e => throw e
  end.

(** [ctx.supabase.from('messages').select('*').eq(...).eq(...).order(...)],
    with [.limit(n)] when [n] is given. *)
Definition supabase_select_messages (answer : SelectAnswer)
    (conversation_id user_id : string) (n : option nat)
  : Async (PostgrestResponse.t (list Message.t)) :=
  call (SelectMessages conversation_id user_id n) ;;;
  match answer with
  | Rows =>
      d <- read_db ;;
      ret (PostgrestResponse.mk
             (Some (select_messages d conversation_id user_id n)) None)
  | SelectRefused e => ret (PostgrestResponse.mk None (Some e))
  | NoData => ret (PostgrestResponse.mk None None)
  | SelectRejected e => throw e
  end.

Definition supabase_select_conversations (answer : SelectAnswer)
    (user_id : string)
  : Async (PostgrestResponse.t (list Conversation.t)) :=
  call (SelectConversations user_id) ;;;
  match answer with
  | Rows =>
      d <- read_db ;;
      ret (PostgrestResponse.mk (Some (select_conversations d user_id)) None)
  | SelectRefused e => ret (PostgrestResponse.mk None (Some e))
  | NoData => ret (PostgrestResponse.mk None None)
  | SelectRejected e => throw e
  end.

(** [(await model.generateContent(request)).response.text()]. *)
Definition generateContent (request : Call) (answer : Awaited string)
  : Async string :=
  call request ;;; await answer.

(** ** The request context *)

Module User.
Record t := mk {
  sub : option string }.
End User.

Module Session.
Record t := mk {
  user : option User.t }.
End Session.

Record Ctx := mkCtx {
  session : option Session.t }.

(** [ctx.session?.user?.sub]. *)
Definition session_user_sub (ctx : Ctx) : option string :=
  match session ctx with
  | Some s =>
      match Session.user s with
      | Some u => User.sub u
      | None => None
      end
  | None => None
  end.

(** Truthiness of an optional string. *)
Definition truthy (v : option string) : bool :=
  match v with
  | Some s => JsString.truthy s
  | None => false
  end.

(** The caller identity the handlers work with: a truthy
    [ctx.session.user.sub]. *)
Definition caller_identity (ctx : Ctx) : option string :=
  if truthy (session_user_sub ctx) then session_user_sub ctx else None.

(** [enforceUserIsAuthed]: the middleware of [protectedProcedure]. *)
Definition enforceUserIsAuthed {A} (ctx : Ctx) (next : Ctx -> Async A)
  : Async A :=
  match session ctx with
  | None => throw (TRPCError UNAUTHORIZED "UNAUTHORIZED" None)
  | Some s =>
      match Session.user s with
      | None => throw (TRPCError UNAUTHORIZED "UNAUTHORIZED" None)
      | Some u => next (mkCtx (Some (Session.mk (Some u))))
      end
  end.

(** ** Input validation *)

(** The values a JSON input member can have, as far as the schemas of the
    router tell them apart. *)
Inductive Json :=
| JUndefined
| JNull
| JBoolean (b : bool)
| JNumber (n : nat)
| JString (s : string).

(** [z.string()]. *)
Definition z_string (v : Json) : option string :=
  match v with
  | JString s => Some s
  | _ => None
  end.

(** [z.string().optional()]. *)
Definition z_string_optional (v : Json) : option (option string) :=
  match v with
  | JString s => Some (Some s)
  | JUndefined => Some None
  | _ => None
  end.

(** The issues of a failed parse are rendered by the validation library;
    the text is not modelled. *)
Definition zod_issues : string := "Input validation failed".

(** [protectedProcedure.input(schema)]: the middleware runs first, then the
    parser, then the resolver. *)
Definition protectedProcedure {Raw I O} (schema : Raw -> option I)
    (resolver : I -> Ctx -> Async O) (raw : Raw) (ctx : Ctx) : Async O :=
  enforceUserIsAuthed ctx (fun ctx' =>
    match schema raw with
    | None => throw (TRPCError BAD_REQUEST zod_issues None)
    | Some input => resolver input ctx'
    end).

(** ** [chatRouter.sendMessage] *)

Module SendMessageRaw.
Record t := mk {
  message : Json;
  conversationId : Json;
  imageBase64 : Json;
  mimeType : Json }.
End SendMessageRaw.

Module SendMessageInput.
Record t := mk {
  message : string;
  conversationId : option string;
  imageBase64 : option string;
  mimeType : option string }.
End SendMessageInput.

Module SendMessageOutput.
Record t := mk {
  aiMessage : option Message.t;
  conversationId : string }.
End SendMessageOutput.

(** [z.object({ message: z.string(), conversationId: z.string().optional(),
      imageBase64: z.string().optional(), mimeType: z.string().optional() })]. *)
Definition sendMessage_input (raw : SendMessageRaw.t)
  : option SendMessageInput.t :=
  match z_string (SendMessageRaw.message raw),
        z_string_optional (SendMessageRaw.conversationId raw),
        z_string_optional (SendMessageRaw.imageBase64 raw),
        z_string_optional (SendMessageRaw.mimeType raw) with
  | Some m, Some c, Some i, Some t => Some (SendMessageInput.mk m c i t)
  | _, _, _, _ => None
  end.

Definition not_authenticated : Thrown :=
  TRPCError UNAUTHORIZED "User not authenticated or missing user ID" None.

(** Lines 36-53: the conversation the request works on. *)
Definition resolve_conversation (env : Env) (userId message : string)
    (conversationId : option string) : Async string :=
  match (if truthy conversationId then conversationId else None) with
  | Some currentConversationId => ret currentConversationId
  | None =>
      let title := JsString.substring0 50 message in
      try_catch
        (r <- supabase_insert_conversation (insert_conversation env)
                userId title ;;
         match PostgrestResponse.error r with
         | Some error => throw error
         | None =>
             match PostgrestResponse.data r with
             | None =>
                 throw (ErrorObject
                   "No conversation data returned from Supabase after creation")
             | Some conversation => ret (Conversation.id conversation)
             end
         end)
        (fun error =>
           throw (TRPCError INTERNAL_SERVER_ERROR
                    "Failed to create conversation" (Some (as_Error error))))
  end.

(** Line 60. *)
Definition isImageGenerationRequest (message : string) : bool :=
  JsString.startsWith (JsString.toLowerCase (JsString.trim message)) "/image".

(** Line 61. *)
Definition hasUploadedImage (imageBase64 mimeType : option string) : bool :=
  truthy imageBase64 && truthy mimeType.

(** Line 65. *)
Definition image_prompt (message : string) : string :=
  JsString.trim (JsString.replace_image_command message).

(** [responseData.candidates?.[0]?.content?.parts]. *)
Definition first_candidate_parts (responseData : ResponseData.t)
  : option (list Part.t) :=
  match ResponseData.candidates responseData with
  | Some (c :: _) =>
      match Candidate.content c with
      | Some k => CandidateContent.parts k
      | None => None
      end
  | _ => None
  end.

(** [part.inlineData?.mimeType?.startsWith('image/')]. *)
Definition is_image_part (part : Part.t) : bool :=
  match Part.inlineData part with
  | Some i =>
      match InlineData.mimeType i with
      | Some m => JsString.startsWith m "image/"
      | None => false
      end
  | None => false
  end.

(** A value inside a template literal. *)
Definition interpolate (v : option string) : string :=
  match v with
  | Some s => s
  | None => "undefined"
  end.

Definition unable_to_generate : string :=
  "I was unable to generate an image. The prompt may have been rejected. Please try again with a different prompt.".

(** Lines 98-124: [aiResponseContent] and [aiMessageType] for the body of a
    successful image-generation response. *)
Definition read_image_response (responseData : ResponseData.t)
  : string * string :=
  let parts := first_candidate_parts responseData in
  let imagePart :=
    match parts with
    | Some ps => find is_image_part ps
    | None => None
    end in
  match (match imagePart with
         | Some part => Part.inlineData part
         | None => None
         end) with
  | Some i =>
      (("data:" ++ interpolate (InlineData.mimeType i) ++ ";base64,"
          ++ interpolate (InlineData.data i))%string, "image")
  | None =>
      let textContent :=
        match parts with
        | Some ps =>
            match find (fun part => truthy (Part.text part)) ps with
            | Some part => Part.text part
            | None => None
            end
        | None => None
        end in
      match textContent with
      | Some t =>
          if JsString.truthy t && (1000 <? String.length t)
             && JsString.test_base64 (JsString.trim t)
          then (("data:image/png;base64," ++ JsString.trim t)%string, "image")
          else if JsString.truthy t then (t, "text")
          else (unable_to_generate, "text")
      | None => (unable_to_generate, "text")
      end
  end.

Definition fallback_prompt (prompt : string) : string :=
  ("I'm unable to generate an image right now. Here's a response to your prompt: "
     ++ prompt)%string.

(** Lines 68-134: the image-generation request and its fallback. *)
Definition generate_image (env : Env) (prompt : string)
  : Async (string * string) :=
  try_catch
    (call (FetchImageGeneration prompt) ;;;
     match fetch_image_generation env with
     | FetchRejected e => throw e
     | NotOk status json =>
         errorData <- await json ;;
         throw (ErrorObject
                  ("API request failed with status " ++ JsString.of_nat status
                     ++ ": " ++ errorData)%string)
     | Ok json =>
         responseData <- await json ;;
         ret (read_image_response responseData)
     end)
    (fun error =>
       text <- generateContent (GenerateContentPrompt (fallback_prompt prompt))
                 (generate_fallback env) ;;
       ret (text, "text")).

(** Lines 154-167. *)
Definition load_history (env : Env) (currentConversationId userId : string)
  : Async (list Message.t) :=
  if JsString.truthy currentConversationId then
    r <- supabase_select_messages (select_history env)
           currentConversationId userId (Some 20) ;;
    match PostgrestResponse.error r, PostgrestResponse.data r with
    | None, Some messages => ret messages
    | _, _ => ret []
    end
  else ret [].

(** Lines 170-186: the loop pushes one turn per message of kind [text], and
    the current message is pushed last. *)
Definition conversationParts (conversationHistory : list Message.t)
    (message : string) : list Content.t :=
  fold_left
    (fun parts msg =>
       if String.eqb (Message.message_type msg) "text"
       then parts ++ [Content.mk
                        (if String.eqb (Message.role msg) "user"
                         then "user" else "model")
                        [Message.content msg]]
       else parts)
    conversationHistory []
  ++ [Content.mk "user" [message]].

Module Generated.
Record t := mk {
  aiResponseContent : string;
  aiMessageType : string;
  userMessageType : string }.
End Generated.

(** Lines 59-202: the branch on the kind of request. *)
Definition generate_response (env : Env) (input : SendMessageInput.t)
    (userId currentConversationId : string) : Async Generated.t :=
  let message := SendMessageInput.message input in
  try_catch
    (if isImageGenerationRequest message then
       let prompt := image_prompt message in
       r <- generate_image env prompt ;;
       ret (Generated.mk (fst r) (snd r) "image_prompt")
     else if hasUploadedImage (SendMessageInput.imageBase64 input)
                              (SendMessageInput.mimeType input) then
       text <- generateContent
                 (GenerateContentImage message
                    (interpolate (SendMessageInput.imageBase64 input))
                    (interpolate (SendMessageInput.mimeType input)))
                 (generate_image_query env) ;;
       ret (Generated.mk text "text" "image_query")
     else
       conversationHistory <- load_history env currentConversationId userId ;;
       text <- generateContent
                 (GenerateContentChat
                    (conversationParts conversationHistory message))
                 (generate_chat env) ;;
       ret (Generated.mk text "text" "text"))
    (fun error =>
       throw (TRPCError INTERNAL_SERVER_ERROR
                "Failed to generate AI response" (Some error))).

(** Lines 204-228. *)
Definition save_messages (env : Env) (message userId
    currentConversationId : string) (g : Generated.t)
  : Async SendMessageOutput.t :=
  try_catch
    (supabase_insert_message (insert_user_message env) false
       (NewMessage.mk message "user" (Generated.userMessageType g)
          userId currentConversationId) ;;;
     r <- supabase_insert_message (insert_ai_message env) true
            (NewMessage.mk (Generated.aiResponseContent g) "assistant"
               (Generated.aiMessageType g) userId currentConversationId) ;;
     match PostgrestResponse.error r with
     | Some aiMessageError => throw aiMessageError
     | None =>
         ret (SendMessageOutput.mk (PostgrestResponse.data r)
                currentConversationId)
     end)
    (fun error =>
       throw (TRPCError INTERNAL_SERVER_ERROR
                "Failed to save messages to the database." (Some error))).

(** The resolver of [sendMessage]. *)
Definition sendMessage_resolver (env : Env) (input : SendMessageInput.t)
    (ctx : Ctx) : Async SendMessageOutput.t :=
  match caller_identity ctx with
  | None => throw not_authenticated
  | Some userId =>
      let message := SendMessageInput.message input in
      currentConversationId <-
        resolve_conversation env userId message
          (SendMessageInput.conversationId input) ;;
      g <- generate_response env input userId currentConversationId ;;
      save_messages env message userId currentConversationId g
  end.

Definition sendMessage (env : Env)
  : SendMessageRaw.t -> Ctx -> Async SendMessageOutput.t :=
  protectedProcedure sendMessage_input (sendMessage_resolver env).

(** ** [chatRouter.getConversations] and [chatRouter.getMessages] *)

Definition getConversations_resolver (env : Env) (_ : unit) (ctx : Ctx)
  : Async (list Conversation.t) :=
  match caller_identity ctx with
  | None => throw not_authenticated
  | Some userId =>
      r <- supabase_select_conversations (select_all_conversations env)
             userId ;;
      match PostgrestResponse.error r with
      | Some _ =>
          throw (TRPCError INTERNAL_SERVER_ERROR
                   "Could not fetch conversations." None)
      | None =>
          ret (match PostgrestResponse.data r with
               | Some conversations => conversations
               | None => []
               end)
      end
  end.

Definition getConversations (env : Env) : unit -> Ctx -> Async (list Conversation.t) :=
  protectedProcedure (fun raw : unit => Some raw)
    (getConversations_resolver env).

(** [z.object({ conversationId: z.string() })]. *)
Definition getMessages_input (conversationId : Json) : option string :=
  z_string conversationId.

Definition getMessages_resolver (env : Env) (conversationId : string)
    (ctx : Ctx) : Async (list Message.t) :=
  match caller_identity ctx with
  | None => throw not_authenticated
  | Some userId =>
      r <- supabase_select_messages (select_all_messages env)
             conversationId userId None ;;
      match PostgrestResponse.error r with
      | Some _ =>
          throw (TRPCError INTERNAL_SERVER_ERROR
                   "Could not fetch messages." None)
      | None =>
          ret (match PostgrestResponse.data r with
               | Some messages => messages
               | None => []
               end)
      end
  end.

Definition getMessages (env : Env) : Json -> Ctx -> Async (list Message.t) :=
  protectedProcedure getMessages_input (getMessages_resolver env).

(** ** Observing a request *)

(** A request of the declared shape, as it arrives. *)
Definition optional (v : option string) : Json :=
  match v with
  | Some s => JString s
  | None => JUndefined
  end.

Definition request (input : SendMessageInput.t) : SendMessageRaw.t :=
  SendMessageRaw.mk
    (JString (SendMessageInput.message input))
    (optional (SendMessageInput.conversationId input))
    (optional (SendMessageInput.imageBase64 input))
    (optional (SendMessageInput.mimeType input)).

(** A handler run on tables [d], with an empty log. *)
Definition run {A} (m : Async A) (d : Db) : Completion A * World :=
  m (mkWorld d []).

Definition outcome {A} (m : Async A) (d : Db) : Completion A :=
  fst (run m d).

Definition calls {A} (m : Async A) (d : Db) : list Call :=
  log (snd (run m d)).

Definition db_after {A} (m : Async A) (d : Db) : Db :=
  db (snd (run m d)).

Definition is_write (c : Call) : bool :=
  match c with
  | InsertConversation _ _ | InsertMessage _ => true
  | _ => false
  end.

Definition is_gateway_call (c : Call) : bool :=
  match c with
  | FetchImageGeneration _ | GenerateContentPrompt _
  | GenerateContentImage _ _ _ | GenerateContentChat _ => true
  | _ => false
  end.

Definition inserted_messages (l : list Call) : list NewMessage.t :=
  flat_map (fun c => match c with InsertMessage m => [m] | _ => [] end) l.

Definition inserted_conversations (l : list Call) : list (string * string) :=
  flat_map (fun c => match c with
                     | InsertConversation u t => [(u, t)]
                     | _ => []
                     end) l.

Definition chat_requests (l : list Call) : list (list Content.t) :=
  flat_map (fun c => match c with
                     | GenerateContentChat cs => [cs]
                     | _ => []
                     end) l.

Definition image_requests (l : list Call) : list string :=
  flat_map (fun c => match c with
                     | FetchImageGeneration p => [p]
                     | _ => []
                     end) l.

(** The code of the error a handler failed with. *)
Definition failure_code {A} (c : Completion A) : option TRPCCode :=
  match c with
  | Throw (TRPCError code _ _) => Some code
  | _ => None
  end.

Definition failure_message {A} (c : Completion A) : option string :=
  match c with
  | Throw (TRPCError _ message _) => Some message
  | _ => None
  end.

Definition failure_cause {A} (c : Completion A) : option Thrown :=
  match c with
  | Throw (TRPCError _ _ cause) => cause
  | _ => None
  end.

Definition succeeded {A} (c : Completion A) : bool :=
  match c with
  | Return _ => true
  | Throw _ => false
  end.

(** The calls a stage adds to the log, none of which writes. *)
Definition reads_only (l : list Call) : Prop :=
  Forall (fun c => is_write c = false) l.

(** The image-generation request raises an error: the [fetch] rejects, the
    response is not [ok], or its body cannot be read. *)
Definition image_generation_raises (a : FetchAnswer) : bool :=
  match a with
  | Ok (Fulfilled _) => false
  | _ => true
  end.

Definition insert_rejects (a : InsertAnswer) : bool :=
  match a with
  | InsertRejected _ => true
  | _ => false
  end.

(** The conversation of the request is at hand: it was supplied, or the
    store creates it. *)
Definition conversation_resolves (env : Env) (input : SendMessageInput.t)
  : option string :=
  if truthy (SendMessageInput.conversationId input)
  then SendMessageInput.conversationId input
  else match insert_conversation env with
       | Stored id _ => Some id
       | _ => None
       end.

(** ** Sample data *)

Definition alice : Ctx :=
  mkCtx (Some (Session.mk (Some (User.mk (Some "auth0|alice"))))).

Definition anonymous : Ctx := mkCtx None.

(** A session whose user carries no [sub]. *)
Definition nameless : Ctx := mkCtx (Some (Session.mk (Some (User.mk None)))).

Definition png_response : ResponseData.t :=
  ResponseData.mk (Some [Candidate.mk (Some (CandidateContent.mk (Some
    [Part.mk None (Some "Here is your picture.");
     Part.mk (Some (InlineData.mk (Some "image/png") (Some "iVBORw0KGgo=")))
       None])))]).

(** An environment in which every call succeeds. *)
Definition fair_weather : Env :=
  mkEnv (Stored "conv-9" 100) Rows (Stored "msg-u" 101) (Stored "msg-a" 102)
    Rows Rows (Ok (Fulfilled png_response)) (Fulfilled "Sorry, no picture.")
    (Fulfilled "It shows a cat.") (Fulfilled "Hello!").

Definition empty_db : Db := mkDb [] [].

Definition hello : SendMessageInput.t :=
  SendMessageInput.mk "Hello, AI!" (Some "conv-1") None None.

(** The request the page sends to open a new chat, with a longer message. *)
Definition new_chat : SendMessageInput.t :=
  SendMessageInput.mk
    "Tell me a long story about a cat who sails across the ocean."
    None None None.

(** ** The conversation as the specification speaks of it *)

(** The messages of a conversation that the caller owns, oldest first. *)
Definition prior_messages (d : Db) (conversation_id user_id : string)
  : list Message.t :=
  order_by (fun a b => Message.created_at a <=? Message.created_at b)
    (messages_of d conversation_id user_id).

Definition is_text (m : Message.t) : bool :=
  String.eqb (Message.message_type m) "text".

Definition prior_text_messages (d : Db) (conversation_id user_id : string)
  : list Message.t :=
  filter is_text (prior_messages d conversation_id user_id).

(** The [n] last elements of a list, in the order of the list. *)
Definition most_recent {A} (n : nat) (l : list A) : list A :=
  skipn (List.length l - n) l.

(** The dialogue turn that stands for a stored message. *)
Definition turn_for (m : Message.t) (c : Content.t) : Prop :=
  Content.parts c = [Message.content m]
  /\ (Message.role m = "user" -> Content.role c = "user")
  /\ (Message.role m = "assistant" -> Content.role c = "model").

(** The turn the loop of [conversationParts] pushes for a message. *)
Definition turn_of (m : Message.t) : Content.t :=
  Content.mk (if String.eqb (Message.role m) "user" then "user" else "model")
    [Message.content m].

Definition only_conversation_inserts (l : list Call) : Prop :=
  Forall (fun c => match c with
                   | InsertConversation _ _ => True
                   | _ => False
                   end) l.

(** A message of kind [text] in conversation [conv-1] of [alice], created at
    time [n]; the roles alternate. *)
Definition text_message (n : nat) : Message.t :=
  Message.mk ("msg-" ++ JsString.of_nat n)%string
    ("turn " ++ JsString.of_nat n)%string
    (if Nat.odd n then "user" else "assistant") "text"
    "auth0|alice" "conv-1" n.

(** A conversation of 21 text messages, the table holding the newest first. *)
Definition long_conversation : Db :=
  mkDb [Conversation.mk "conv-1" "turn 1" "auth0|alice" 1 1]
       (rev (map text_message (seq 1 21))).

(** A conversation of three messages, one of them an image, and a message of
    somebody else. *)
Definition short_conversation : Db :=
  mkDb [Conversation.mk "conv-1" "What is 2+2?" "auth0|alice" 1 1]
       [Message.mk "msg-3" "data:image/png;base64,AAAA" "assistant" "image"
          "auth0|alice" "conv-1" 3;
        Message.mk "msg-1" "What is 2+2?" "user" "text"
          "auth0|alice" "conv-1" 1;
        Message.mk "msg-9" "Not yours" "user" "text" "auth0|bob" "conv-2" 2;
        Message.mk "msg-2" "2+2 equals 4." "assistant" "text"
          "auth0|alice" "conv-1" 2].

(** The store answers the read of the history with an error. *)
Definition history_unreadable : Env :=
  mkEnv (Stored "conv-9" 100) (SelectRefused (ErrorValue "PGRST301"))
    (Stored "msg-u" 101) (Stored "msg-a" 102)
    Rows Rows (Ok (Fulfilled png_response)) (Fulfilled "Sorry, no picture.")
    (Fulfilled "It shows a cat.") (Fulfilled "Hello!").

(** The rows an [/image] request sends to the store, and what it returns
    once the store has taken the assistant row: the user row of kind
    [image_prompt] and the assistant row with the given content and kind. *)
Definition image_request_persists (env : Env) (ctx : Ctx) (userId : string)
    (input : SendMessageInput.t) (cid : string) (d : Db)
    (content kind : string) : Prop :=
  inserted_messages (calls (sendMessage env (request input) ctx) d)
  = [NewMessage.mk (SendMessageInput.message input) "user" "image_prompt"
       userId cid;
     NewMessage.mk content "assistant" kind userId cid]
  /\ (forall id now,
        insert_ai_message env = Stored id now ->
        outcome (sendMessage env (request input) ctx) d
        = Return (SendMessageOutput.mk
                    (Some (Message.mk id content "assistant" kind userId cid
                             now))
                    cid)).

Definition cat_picture : SendMessageInput.t :=
  SendMessageInput.mk "/image a cat" (Some "conv-1") None None.

(** 1001 code units of the base64 alphabet. *)
Definition raw_base64 : string := String.concat "" (repeat "A" 1001).

Definition raw_base64_response : ResponseData.t :=
  ResponseData.mk (Some [Candidate.mk (Some (CandidateContent.mk (Some
    [Part.mk None (Some raw_base64)])))]).

Definition answers_raw_base64 : Env :=
  mkEnv (Stored "conv-9" 100) Rows (Stored "msg-u" 101) (Stored "msg-a" 102)
    Rows Rows (Ok (Fulfilled raw_base64_response))
    (Fulfilled "Sorry, no picture.") (Fulfilled "It shows a cat.")
    (Fulfilled "Hello!").

(** The image endpoint answers 503; the fallback answers. *)
Definition image_endpoint_down : Env :=
  mkEnv (Stored "conv-9" 100) Rows (Stored "msg-u" 101) (Stored "msg-a" 102)
    Rows Rows (NotOk 503 (Fulfilled "{}"))
    (Fulfilled "Sorry, no picture.") (Fulfilled "It shows a cat.")
    (Fulfilled "Hello!").

(** The image endpoint and the fallback both fail. *)
Definition gateway_down : Env :=
  mkEnv (Stored "conv-9" 100) Rows (Stored "msg-u" 101) (Stored "msg-a" 102)
    Rows Rows (FetchRejected (ErrorObject "fetch failed"))
    (Rejected (ErrorObject "AI service error"))
    (Fulfilled "It shows a cat.") (Fulfilled "Hello!").

(** The [/image] command after two spaces. *)
Definition indented_cat_picture : SendMessageInput.t :=
  SendMessageInput.mk "  /image a cat" (Some "conv-1") None None.

(** The store refuses the user row, as the [CHECK] constraint on
    [message_type] of the schema file does for [image_prompt], and takes the
    assistant row. *)
Definition user_row_refused : Env :=
  mkEnv (Stored "conv-9" 100) Rows
    (Refused (ErrorValue "violates check constraint messages_message_type_check"))
    (Stored "msg-a" 102)
    Rows Rows (Ok (Fulfilled png_response)) (Fulfilled "Sorry, no picture.")
    (Fulfilled "It shows a cat.") (Fulfilled "Hello!").

(** The request of the test [should handle malformed input data]. *)
Definition empty_message : SendMessageInput.t :=
  SendMessageInput.mk "" None None None.

(** The code units of the command [/image]. *)
Definition command_chars : list ascii := list_ascii_of_string "/image".

(** ** The rest of the router, as the code has it *)

(** Lines 135, 149 and 197: the kind of the user row, by branch. *)
Definition userMessageType_of (input : SendMessageInput.t) : string :=
  if isImageGenerationRequest (SendMessageInput.message input)
  then "image_prompt"
  else if hasUploadedImage (SendMessageInput.imageBase64 input)
                           (SendMessageInput.mimeType input)
       then "image_query"
       else "text".

(** The request without its attachment. *)
Definition without_attachment (input : SendMessageInput.t)
  : SendMessageInput.t :=
  SendMessageInput.mk (SendMessageInput.message input)
    (SendMessageInput.conversationId input) None None.

Definition is_history_read (c : Call) : bool :=
  match c with
  | SelectMessages _ _ _ => true
  | _ => false
  end.

(** A question about an uploaded picture. *)
Definition what_is_this : SendMessageInput.t :=
  SendMessageInput.mk "What is in this picture?" (Some "conv-1")
    (Some "iVBORw0KGgo=") (Some "image/png").

(** The [/image] command sent along with an upload. *)
Definition cat_picture_with_upload : SendMessageInput.t :=
  SendMessageInput.mk "/image a cat" (Some "conv-1")
    (Some "iVBORw0KGgo=") (Some "image/png").

(** [textContent]: the text of the first part with a non-empty text. *)
Definition first_text (parts : option (list Part.t)) : option string :=
  match parts with
  | Some ps =>
      match find (fun part => truthy (Part.text part)) ps with
      | Some part => Part.text part
      | None => None
      end
  | None => None
  end.

(** [imagePart]: the first part with an inline image. *)
Definition first_image (parts : option (list Part.t)) : option Part.t :=
  match parts with
  | Some ps => find is_image_part ps
  | None => None
  end.

(** An answer without a picture: the model explains itself. *)
Definition refusal_response : ResponseData.t :=
  ResponseData.mk (Some [Candidate.mk (Some (CandidateContent.mk (Some
    [Part.mk None (Some "I cannot draw that.")])))]).

Definition answers_with_refusal : Env :=
  mkEnv (Stored "conv-9" 100) Rows (Stored "msg-u" 101) (Stored "msg-a" 102)
    Rows Rows (Ok (Fulfilled refusal_response))
    (Fulfilled "Sorry, no picture.") (Fulfilled "It shows a cat.")
    (Fulfilled "Hello!").

(** An answer with no candidate at all. *)
Definition answers_nothing : Env :=
  mkEnv (Stored "conv-9" 100) Rows (Stored "msg-u" 101) (Stored "msg-a" 102)
    Rows Rows (Ok (Fulfilled (ResponseData.mk None)))
    (Fulfilled "Sorry, no picture.") (Fulfilled "It shows a cat.")
    (Fulfilled "Hello!").

(** Conversations of two callers, in no particular order. *)
Definition two_callers : Db :=
  mkDb [Conversation.mk "conv-1" "What is 2+2?" "auth0|alice" 1 1;
        Conversation.mk "conv-2" "Not yours" "auth0|bob" 2 2;
        Conversation.mk "conv-3" "A cat" "auth0|alice" 5 5;
        Conversation.mk "conv-4" "A dog" "auth0|alice" 3 3]
       (messages short_conversation).


Definition is_conversation_call (c : Call) : bool :=
  match c with
  | InsertConversation _ _ | SelectConversations _ => true
  | _ => false
  end.

(** The text model fails. *)
Definition chat_down : Env :=
  mkEnv (Stored "conv-9" 100) Rows (Stored "msg-u" 101) (Stored "msg-a" 102)
    Rows Rows (Ok (Fulfilled png_response)) (Fulfilled "Sorry, no picture.")
    (Fulfilled "It shows a cat.") (Rejected (ErrorObject "AI service error")).

(** The store refuses the new conversation. *)
Definition conversation_refused : Env :=
  mkEnv (Refused (ErrorValue "42501: row-level security")) Rows
    (Stored "msg-u" 101) (Stored "msg-a" 102)
    Rows Rows (Ok (Fulfilled png_response)) (Fulfilled "Sorry, no picture.")
    (Fulfilled "It shows a cat.") (Fulfilled "Hello!").


(** The read of the history rejects. *)
Definition history_read_rejects : Env :=
  mkEnv (Stored "conv-9" 100) (SelectRejected (ErrorObject "fetch failed"))
    (Stored "msg-u" 101) (Stored "msg-a" 102)
    Rows Rows (Ok (Fulfilled png_response)) (Fulfilled "Sorry, no picture.")
    (Fulfilled "It shows a cat.") (Fulfilled "Hello!").

(** ** Building the request context: [auth0.config.ts] and [createTRPCContext] *)

(** The session with its tokens, as [getSession] gives it; the router reads
    only [user]. *)
Module ExtendedSession.
Record t := mk {
  user : option User.t;
  idToken : option string;
  accessToken : option string;
  refreshToken : option string }.
End ExtendedSession.

(** The options a storage client is created with: the [auth] member and the
    [Authorization] header of [global.headers], if any. *)
Module ClientOptions.
Record t := mk {
  autoRefreshToken : bool;
  persistSession : bool;
  detectSessionInUrl : bool;
  Authorization : option string }.
End ClientOptions.

(** The body of an answer of the token endpoint. *)
Module TokenData.
Record t := mk {
  id_token : option string;
  access_token : option string;
  refresh_token : option string }.
End TokenData.

Module Context.
Record t := mk {
  session : option ExtendedSession.t;
  supabase : ClientOptions.t }.
End Context.

(** The answer to the connection test: no error, an error with its [code],
    or a rejected promise. *)
Inductive ConnectionAnswer :=
| Reachable
| Unreachable (code : option string)
| ConnectionRejected (e : Thrown).

Inductive TokenAnswer :=
| TokenRejected (e : Thrown)
| TokenNotOk (text : Awaited string)
| TokenOk (json : Awaited TokenData.t).

(** What the identity provider and the store answer while a context is
    built; the session is read once by [createTRPCContext] and once more by
    [refreshSession]. *)
Record Auth := mkAuth {
  auth0_session : Awaited (option ExtendedSession.t);
  connection_test : ConnectionAnswer;
  auth0_session_again : Awaited (option ExtendedSession.t);
  token_endpoint : TokenAnswer }.

Inductive SetupCall :=
| GetAuth0Session
| SelectOneConversation (client : ClientOptions.t)
| PostRefreshToken (refresh_token : string).

(** The functions that build the context, as transformers of the log of
    their calls. *)
Module Setup.

Definition M (A : Type) : Type :=
  list SetupCall -> Completion A * list SetupCall.

Definition ret {A} (a : A) : M A := fun l => (Return a, l).

Definition throw {A} (e : Thrown) : M A := fun l => (Throw e, l).

Definition bind {A B} (m : M A) (k : A -> M B) : M B :=
  fun l =>
    match m l with
    | (Return a, l') => k a l'
    | (Throw e, l') => (Throw e, l')
    end.

Definition try_catch {A} (m : M A) (h : Thrown -> M A) : M A :=
  fun l =>
    match m l with
    | (Return a, l') => (Return a, l')
    | (Throw e, l') => h e l'
    end.

Definition call (c : SetupCall) : M unit := fun l => (Return tt, l ++ [c]).

Definition await {A} (p : Awaited A) : M A :=
  match p with
  | Fulfilled a => ret a
  | Rejected e => throw e
  end.

End Setup.

Declare Scope setup_scope.
Delimit Scope setup_scope with setup.
Notation "x <- m ;; k" := (Setup.bind m (fun x => k))
  (at level 100, m at next level, right associativity) : setup_scope.
Notation "m ;;; k" := (Setup.bind m (fun _ => k))
  (at level 100, right associativity) : setup_scope.

(** [getSession] of [auth0.config.ts]: an error of the provider is no
    session. *)
Definition getSession (answer : Awaited (option ExtendedSession.t))
  : Setup.M (option ExtendedSession.t) :=
  Setup.try_catch
    (Setup.call GetAuth0Session ;;;
     session <- Setup.await answer ;;
     Setup.ret session)%setup
    (fun _ => Setup.ret None).

(** [session?.idToken] and [session?.refreshToken]. *)
Definition session_idToken (session : option ExtendedSession.t)
  : option string :=
  match session with
  | Some s => ExtendedSession.idToken s
  | None => None
  end.

Definition session_refreshToken (session : option ExtendedSession.t)
  : option string :=
  match session with
  | Some s => ExtendedSession.refreshToken s
  | None => None
  end.

(** [a || b] on optional strings. *)
Definition or_else (a b : option string) : option string :=
  if truthy a then a else b.

(** [refreshSession] of [auth0.config.ts]. *)
Definition refreshSession (auth : Auth)
  : Setup.M (option ExtendedSession.t) :=
  Setup.try_catch
    (session <- getSession (auth0_session_again auth) ;;
     match session with
     | None => Setup.ret None
     | Some s =>
         match ExtendedSession.refreshToken s with
         | None => Setup.ret None
         | Some token =>
             if JsString.truthy token then
               Setup.call (PostRefreshToken token) ;;;
               match token_endpoint auth with
               | TokenRejected e => Setup.throw e
               | TokenNotOk text =>
                   _ <- Setup.await text ;; Setup.ret None
               | TokenOk json =>
                   data <- Setup.await json ;;
                   Setup.ret
                     (Some (ExtendedSession.mk
                              (ExtendedSession.user s)
                              (TokenData.id_token data)
                              (TokenData.access_token data)
                              (or_else (TokenData.refresh_token data)
                                 (ExtendedSession.refreshToken s))))
               end
             else Setup.ret None
         end
     end)%setup
    (fun _ => Setup.ret None).

(** The options [createSupabaseClient] passes to [createClient]. *)
Definition client_options (session : option ExtendedSession.t)
  : ClientOptions.t :=
  match session_idToken session with
  | Some token =>
      if JsString.truthy token
      then ClientOptions.mk true false false (Some ("Bearer " ++ token)%string)
      else ClientOptions.mk false false false None
  | None => ClientOptions.mk false false false None
  end.

Definition createSupabaseClient (session : option ExtendedSession.t)
  : Setup.M ClientOptions.t :=
  Setup.ret (client_options session).

(** [error.code === 'PGRST301']. *)
Definition is_expired_token (code : option string) : bool :=
  match code with
  | Some c => String.eqb c "PGRST301"
  | None => false
  end.

(** [testSupabaseConnection]: [Some] is a [return] from inside the [try]
    block, [None] is falling through to the last [return]. *)
Definition testSupabaseConnection (auth : Auth) (client : ClientOptions.t)
    (session : option ExtendedSession.t)
  : Setup.M (ClientOptions.t * option ExtendedSession.t) :=
  if negb (truthy (session_idToken session)) then Setup.ret (client, session)
  else
    (returned <-
       Setup.try_catch
         (Setup.call (SelectOneConversation client) ;;;
          match connection_test auth with
          | ConnectionRejected e => Setup.throw e
          | Reachable => Setup.ret None
          | Unreachable code =>
              if is_expired_token code
                 && truthy (session_refreshToken session)
              then
                newSession <- refreshSession auth ;;
                if truthy (session_idToken newSession) then
                  newClient <- createSupabaseClient newSession ;;
                  Setup.ret (Some (newClient, newSession))
                else Setup.ret None
              else Setup.ret None
          end)
         (fun _ => Setup.ret None) ;;
     Setup.ret (match returned with
                | Some r => r
                | None => (client, session)
                end))%setup.

(** [createTRPCContext]. *)
Definition createTRPCContext (auth : Auth) : Setup.M Context.t :=
  (session <- getSession (auth0_session auth) ;;
   client <- createSupabaseClient session ;;
   r <- testSupabaseConnection auth client session ;;
   Setup.ret (Context.mk (snd r) (fst r)))%setup.

(** The context as the procedures of the router see it. *)
Definition router_context (c : Context.t) : Ctx :=
  mkCtx (option_map (fun s => Session.mk (ExtendedSession.user s))
           (Context.session c)).

Definition context_of (auth : Auth) : Completion Context.t :=
  fst (createTRPCContext auth []).

Definition setup_calls (auth : Auth) : list SetupCall :=
  snd (createTRPCContext auth []).

(** A session of [alice] whose id token has expired. *)
Definition expired_session : ExtendedSession.t :=
  ExtendedSession.mk (Some (User.mk (Some "auth0|alice")))
    (Some "expired-token") (Some "access-1") (Some "refresh-1").

(** The store reports the expired token and the provider issues a new one. *)
Definition token_renewed : Auth :=
  mkAuth (Fulfilled (Some expired_session))
    (Unreachable (Some "PGRST301"))
    (Fulfilled (Some expired_session))
    (TokenOk (Fulfilled (TokenData.mk (Some "new-token") (Some "access-2")
                           None))).

(** The provider fails. *)
Definition provider_down : Auth :=
  mkAuth (Rejected (ErrorObject "Auth0 error")) Reachable
    (Rejected (ErrorObject "Auth0 error"))
    (TokenRejected (ErrorObject "fetch failed")).

(** The store is unreachable for another reason. *)
Definition store_unreachable : Auth :=
  mkAuth (Fulfilled (Some expired_session))
    (Unreachable (Some "PGRST000"))
    (Fulfilled (Some expired_session))
    (TokenOk (Fulfilled (TokenData.mk (Some "new-token") (Some "access-2")
                           None))).

(** The session [createTRPCContext] reads first. *)
Definition first_session (auth : Auth) : option ExtendedSession.t :=
  match auth0_session auth with
  | Fulfilled s => s
  | Rejected _ => None
  end.

(** The store reports the expired token and the provider refuses to renew
    it. *)
Definition renewal_refused : Auth :=
  mkAuth (Fulfilled (Some expired_session))
    (Unreachable (Some "PGRST301"))
    (Fulfilled (Some expired_session))
    (TokenNotOk (Fulfilled "invalid_grant")).

(** ** The page: the handlers that send a message ([app/page.tsx]) *)

Module Page.

(** A message as the page shows it. *)
Module Message.
Record t := mk {
  id : string;
  content : string;
  role : string;
  message_type : string;
  created_at : string }.
End Message.

(** The state of [HomeContent] the handlers read and set. *)
Record State := mkState {
  messages : list Message.t;
  currentConversationId : option string;
  inputMessage : string;
  isGenerating : bool;
  sidebarOpen : bool }.

(** The argument of [sendMessageMutation.mutate]. *)
Record Mutation := mkMutation {
  message : string;
  conversationId : option string }.

(** The clock: [Date.now()] and [new Date().toISOString()]. *)
Record Clock := mkClock {
  now : nat;
  iso : string }.

(** [generateImage]. *)
Definition generateImage (st : State) (prompt : string)
    (conversationId : option string) : Mutation :=
  mkMutation ("/image " ++ prompt)%string
    (or_else conversationId (or_else (currentConversationId st) None)).

(** [createNewChat]. *)
Definition createNewChat : Mutation :=
  mkMutation "New chat started" None.

(** [selectConversation]. *)
Definition selectConversation (st : State) (conversationId : string) : State :=
  mkState (messages st) (Some conversationId) (inputMessage st)
    (isGenerating st) false.

(** The state after the handler has queued its updates, with the message
    shown at once. *)
Definition sending (clock : Clock) (st : State) (kind : string) : State :=
  mkState
    (messages st
       ++ [Message.mk ("temp-" ++ JsString.of_nat (now clock))%string
             (inputMessage st) "user" kind (iso clock)])
    (currentConversationId st) "" true (sidebarOpen st).

(** The guard of both handlers:
    [!inputMessage.trim() || isGenerating]. *)
Definition nothing_to_send (st : State) : bool :=
  negb (JsString.truthy (JsString.trim (inputMessage st))) || isGenerating st.

(** [handleSendMessage]: the new state and the mutation, if one is sent. *)
Definition handleSendMessage (clock : Clock) (st : State)
  : State * option Mutation :=
  if nothing_to_send st then (st, None)
  else (sending clock st "text",
        Some (mkMutation (inputMessage st)
                (or_else (currentConversationId st) None))).

(** [handleGenerateImage]. *)
Definition handleGenerateImage (clock : Clock) (st : State)
  : State * option Mutation :=
  if nothing_to_send st then (st, None)
  else (sending clock st "image_prompt",
        Some (generateImage st (inputMessage st)
                (or_else (currentConversationId st) None))).

(** [handleKeyPress]: Enter without Shift sends. *)
Definition handleKeyPress (clock : Clock) (key : string) (shiftKey : bool)
    (st : State) : State * option Mutation :=
  if String.eqb key "Enter" && negb shiftKey
  then handleSendMessage clock st
  else (st, None).

(** The input of the procedure a mutation calls. *)
Definition input_of (m : Mutation) : SendMessageInput.t :=
  SendMessageInput.mk (message m) (conversationId m) None None.

End Page.

(** The page with a prompt typed in, in conversation [conv-1]. *)
Definition typing_a_prompt : Page.State :=
  Page.mkState [] (Some "conv-1") "  a cat on a boat " false false.

Definition noon : Page.Clock :=
  Page.mkClock 1700 "1970-01-01T00:00:01.700Z".

(** * Properties *)

(** ** The string functions on examples *)

Example trim_ex : JsString.trim "  /Image  a cat " = "/Image  a cat".
Proof. reflexivity. Qed.

Example replace_command_ex :
  JsString.replace_image_command "/IMAGE   a cat " = "a cat ".
Proof. reflexivity. Qed.

Example replace_not_anchored_ex :
  JsString.replace_image_command " /image a cat" = " /image a cat".
Proof. reflexivity. Qed.

Example toLowerCase_ex : JsString.toLowerCase "/ImAgE Z" = "/image z".
Proof. reflexivity. Qed.

Example test_base64_ex :
  JsString.test_base64 "iVBORw0KGgo=" = true
  /\ JsString.test_base64 "a b" = false
  /\ JsString.test_base64 "" = false.
Proof. repeat split. Qed.

Example of_nat_ex : JsString.of_nat 503 = "503".
Proof. reflexivity. Qed.

(** ** Requests of the declared shape pass the parser *)

Lemma sendMessage_input_request (input : SendMessageInput.t) :
  sendMessage_input (request input) = Some input.
Proof.
  destruct input as [m [c|] [i|] [t|]]; reflexivity.
Qed.

Lemma caller_identity_truthy (ctx : Ctx) (userId : string) :
  caller_identity ctx = Some userId ->
  session_user_sub ctx = Some userId /\ JsString.truthy userId = true.
Proof.
  unfold caller_identity.
  destruct (truthy (session_user_sub ctx)) eqn:T; [|discriminate].
  intros E. rewrite E in T. split; [exact E | exact T].
Qed.

(** With a caller identity the middleware lets the request through. *)
Lemma enforceUserIsAuthed_pass {A} (ctx : Ctx) (userId : string)
    (next : Ctx -> Async A) :
  caller_identity ctx = Some userId ->
  enforceUserIsAuthed ctx next = next ctx.
Proof.
  intros H. apply caller_identity_truthy in H as [H _].
  destruct ctx as [[[[u|]]|]]; try discriminate; reflexivity.
Qed.

Lemma sendMessage_authenticated (env : Env) (input : SendMessageInput.t)
    (ctx : Ctx) (userId : string) :
  caller_identity ctx = Some userId ->
  sendMessage env (request input) ctx =
    (currentConversationId <-
       resolve_conversation env userId (SendMessageInput.message input)
         (SendMessageInput.conversationId input) ;;
     g <- generate_response env input userId currentConversationId ;;
     save_messages env (SendMessageInput.message input) userId
       currentConversationId g).
Proof.
  intros H. unfold sendMessage, protectedProcedure.
  rewrite (enforceUserIsAuthed_pass ctx userId _ H).
  rewrite sendMessage_input_request.
  unfold sendMessage_resolver. rewrite H. reflexivity.
Qed.

(** ** Authentication *)

(** C4: with no valid caller identity, [sendMessage], [getConversations] and
    [getMessages] fail and leave the world as it was: no call reaches the
    store or the gateway, so nothing is written.  The failure is
    [UNAUTHORIZED] for every request of the declared shape. *)
Theorem unauthenticated_calls_are_rejected (env : Env) (ctx : Ctx) (w : World) :
  caller_identity ctx = None ->
  (forall raw,
      snd (sendMessage env raw ctx w) = w
      /\ succeeded (fst (sendMessage env raw ctx w)) = false
      /\ (sendMessage_input raw <> None ->
          failure_code (fst (sendMessage env raw ctx w)) = Some UNAUTHORIZED))
  /\ (snd (getConversations env tt ctx w) = w
      /\ failure_code (fst (getConversations env tt ctx w)) = Some UNAUTHORIZED)
  /\ (forall raw,
      snd (getMessages env raw ctx w) = w
      /\ succeeded (fst (getMessages env raw ctx w)) = false
      /\ (getMessages_input raw <> None ->
          failure_code (fst (getMessages env raw ctx w)) = Some UNAUTHORIZED)).
Proof.
  intros H.
  unfold sendMessage, getConversations, getMessages, protectedProcedure,
    enforceUserIsAuthed.
  destruct ctx as [[[[[u]|]]|]]; cbn [session Session.user].
  - (* a session with a user: the resolver is reached and rejects *)
    assert (C : caller_identity (mkCtx (Some (Session.mk (Some (User.mk u)))))
                = None) by exact H.
    unfold sendMessage_resolver, getConversations_resolver,
      getMessages_resolver.
    rewrite C.
    repeat split.
    + destruct (sendMessage_input raw); reflexivity.
    + destruct (sendMessage_input raw); reflexivity.
    + destruct (sendMessage_input raw); [reflexivity | congruence].
    + destruct (getMessages_input raw); reflexivity.
    + destruct (getMessages_input raw); reflexivity.
    + destruct (getMessages_input raw); [reflexivity | congruence].
  - repeat split; reflexivity.
  - repeat split; reflexivity.
Qed.

Lemma unauthenticated_calls_are_rejected_witness :
  failure_code (fst (sendMessage fair_weather (request hello) anonymous
                       (mkWorld empty_db [])))
    = Some UNAUTHORIZED
  /\ snd (getConversations fair_weather tt nameless (mkWorld empty_db []))
     = mkWorld empty_db [].
Proof.
  split.
  - apply (proj1 (unauthenticated_calls_are_rejected fair_weather anonymous
                    (mkWorld empty_db []) eq_refl) (request hello)).
    simpl. discriminate.
  - apply (proj1 (proj2 (unauthenticated_calls_are_rejected fair_weather
                           nameless (mkWorld empty_db []) eq_refl))).
Defined.

(** ** The stages of [sendMessage] *)

Lemma resolve_conversation_supplied (env : Env) (userId message : string)
    (conversationId : option string) (w : World) :
  truthy conversationId = true ->
  exists cid, conversationId = Some cid
    /\ resolve_conversation env userId message conversationId w
       = (Return cid, w).
Proof.
  intros T. unfold resolve_conversation. rewrite T.
  destruct conversationId as [cid|]; [|discriminate].
  exists cid. split; reflexivity.
Qed.

Lemma resolve_conversation_created (env : Env) (userId message : string)
    (conversationId : option string) (id : string) (now : nat) (w : World) :
  truthy conversationId = false ->
  insert_conversation env = Stored id now ->
  resolve_conversation env userId message conversationId w
  = (Return id,
     mkWorld
       (mkDb (conversations (db w)
                ++ [Conversation.mk id (JsString.substring0 50 message)
                      userId now now])
             (messages (db w)))
       (log w ++ [InsertConversation userId
                    (JsString.substring0 50 message)])).
Proof.
  intros T S. unfold resolve_conversation. rewrite T.
  unfold try_catch, bind, supabase_insert_conversation. rewrite S.
  reflexivity.
Qed.

Lemma resolve_conversation_failed (env : Env) (userId message : string)
    (conversationId : option string) (w : World) :
  truthy conversationId = false ->
  (forall id now, insert_conversation env <> Stored id now) ->
  exists cause,
    resolve_conversation env userId message conversationId w
    = (Throw (TRPCError INTERNAL_SERVER_ERROR "Failed to create conversation"
                (Some cause)),
       mkWorld (db w)
         (log w ++ [InsertConversation userId
                      (JsString.substring0 50 message)])).
Proof.
  intros T S. unfold resolve_conversation. rewrite T.
  unfold try_catch, bind, supabase_insert_conversation.
  destruct (insert_conversation env) as [id now|e| |e].
  - exfalso. apply (S id now). reflexivity.
  - eexists. reflexivity.
  - eexists. reflexivity.
  - eexists. reflexivity.
Qed.

Lemma generate_image_effects (env : Env) (prompt : string) (w : World) :
  exists l,
    snd (generate_image env prompt w) = mkWorld (db w) (log w ++ l)
    /\ reads_only l.
Proof.
  unfold generate_image, try_catch, bind, call, generateContent, await.
  destruct (fetch_image_generation env) as [e|status [body|e]|[rd|e]];
    cbn; (destruct (generate_fallback env) as [t|e']; cbn) || idtac;
    eexists; (split; [rewrite <- ?app_assoc; reflexivity
                     | repeat constructor]).
Qed.

Lemma load_history_effects (env : Env) (cid userId : string) (w : World) :
  exists l,
    snd (load_history env cid userId w) = mkWorld (db w) (log w ++ l)
    /\ reads_only l.
Proof.
  unfold load_history, bind, supabase_select_messages, call.
  destruct (JsString.truthy cid).
  - destruct (select_history env); cbn;
      eexists; (split; [reflexivity | repeat constructor]).
  - exists []. cbn. rewrite app_nil_r. destruct w. split; [reflexivity|constructor].
Qed.

(** The generation stage calls the gateway and reads the store; it writes
    nothing. *)
Lemma generate_response_effects (env : Env) (input : SendMessageInput.t)
    (userId cid : string) (w : World) :
  exists l,
    snd (generate_response env input userId cid w)
    = mkWorld (db w) (log w ++ l)
    /\ reads_only l.
Proof.
  unfold generate_response, try_catch.
  destruct (isImageGenerationRequest (SendMessageInput.message input)).
  - unfold bind.
    destruct (generate_image_effects env
                (image_prompt (SendMessageInput.message input)) w)
      as (l & E & R).
    destruct (generate_image env _ w) as [[r|e] w1]; cbn in E |- *;
      subst w1; exists l; split; auto.
  - destruct (hasUploadedImage _ _).
    + unfold bind, generateContent, call, await.
      destruct (generate_image_query env); cbn;
        eexists; (split; [reflexivity | repeat constructor]).
    + unfold bind at 1.
      destruct (load_history_effects env cid userId w) as (l & E & R).
      destruct (load_history env cid userId w) as [[h|e] w1]; cbn in E;
        subst w1.
      * unfold bind, generateContent, call, await.
        destruct (generate_chat env); cbn;
          (eexists; split; [rewrite <- app_assoc; reflexivity|]);
          apply Forall_app; split; auto; repeat constructor.
      * cbn. exists l. split; auto.
Qed.

Lemma reads_only_no_inserts (l : list Call) :
  reads_only l -> inserted_conversations l = [] /\ inserted_messages l = [].
Proof.
  induction 1 as [|c l Hc _ [IHc IHm]]; [split; reflexivity|].
  destruct c; try discriminate; cbn; auto.
Qed.

Lemma inserted_conversations_app (l1 l2 : list Call) :
  inserted_conversations (l1 ++ l2)
  = inserted_conversations l1 ++ inserted_conversations l2.
Proof. apply flat_map_app. Qed.

Lemma inserted_messages_app (l1 l2 : list Call) :
  inserted_messages (l1 ++ l2) = inserted_messages l1 ++ inserted_messages l2.
Proof. apply flat_map_app. Qed.

(** The two rows [save_messages] sends to the store. *)
Lemma save_messages_effects (env : Env) (message userId cid : string)
    (g : Generated.t) (w : World) :
  let user_row := NewMessage.mk message "user" (Generated.userMessageType g)
                    userId cid in
  let ai_row := NewMessage.mk (Generated.aiResponseContent g) "assistant"
                  (Generated.aiMessageType g) userId cid in
  log (snd (save_messages env message userId cid g w))
  = log w ++ InsertMessage user_row
        :: (if insert_rejects (insert_user_message env) then []
            else [InsertMessage ai_row])
  /\ conversations (db (snd (save_messages env message userId cid g w)))
     = conversations (db w).
Proof.
  unfold save_messages, try_catch, bind, supabase_insert_message, call.
  destruct (insert_user_message env); cbn;
    try (destruct (insert_ai_message env); cbn);
    rewrite <- ?app_assoc; split; reflexivity.
Qed.

(** ** Creating the conversation *)

Lemma stored_or_not (a : InsertAnswer) :
  (exists id now, a = Stored id now) \/ (forall id now, a <> Stored id now).
Proof.
  destruct a as [id now|e| |e];
    [left; exists id, now; reflexivity | right; discriminate ..].
Qed.

(** The store takes the new conversation: the request goes on to the
    generation stage and the writes, all with the new id. *)
Lemma new_conversation_stored (env : Env) (ctx : Ctx) (userId : string)
    (input : SendMessageInput.t) (d : Db) (id : string) (now : nat) :
  caller_identity ctx = Some userId ->
  SendMessageInput.conversationId input = None ->
  insert_conversation env = Stored id now ->
  let title := JsString.substring0 50 (SendMessageInput.message input) in
  exists rest,
    calls (sendMessage env (request input) ctx) d
    = InsertConversation userId title :: rest
    /\ inserted_conversations rest = []
    /\ Forall (fun m => NewMessage.conversation_id m = id)
         (inserted_messages rest)
    /\ conversations (db_after (sendMessage env (request input) ctx) d)
       = conversations d ++ [Conversation.mk id title userId now now].
Proof.
  intros A N S title. unfold calls, db_after, run.
  rewrite (sendMessage_authenticated env input ctx userId A), N.
  unfold bind.
  rewrite (resolve_conversation_created env userId _ None id now _
             eq_refl S).
  cbn [db log app]. fold title.
  match goal with
  | |- context [generate_response env input userId id ?w] =>
      destruct (generate_response_effects env input userId id w)
        as (l & E & R);
      destruct (generate_response env input userId id w) as [[g|e] w1]
  end; cbn in E; subst w1;
    destruct (reads_only_no_inserts l R) as [RC RM].
  - match goal with
    | |- context [save_messages env ?m userId id g ?w] =>
        destruct (save_messages_effects env m userId id g w) as [L C]
    end.
    cbn [log db conversations] in L, C. rewrite L, C.
    eexists. split; [reflexivity|].
    rewrite inserted_conversations_app, inserted_messages_app, RC, RM.
    cbn. destruct (insert_rejects _); repeat constructor.
  - cbn [snd log db conversations].
    exists l. rewrite RC, RM. repeat constructor.
Qed.

(** The store does not take it: the request ends there. *)
Lemma new_conversation_not_stored (env : Env) (ctx : Ctx) (userId : string)
    (input : SendMessageInput.t) (d : Db) :
  caller_identity ctx = Some userId ->
  SendMessageInput.conversationId input = None ->
  (forall id now, insert_conversation env <> Stored id now) ->
  calls (sendMessage env (request input) ctx) d
  = [InsertConversation userId
       (JsString.substring0 50 (SendMessageInput.message input))]
  /\ db_after (sendMessage env (request input) ctx) d = d.
Proof.
  intros A N S. unfold calls, db_after, run.
  rewrite (sendMessage_authenticated env input ctx userId A), N.
  unfold bind.
  destruct (resolve_conversation_failed env userId
              (SendMessageInput.message input) None (mkWorld d [])
              eq_refl S) as (cause & ->).
  split; reflexivity.
Qed.

(** C6: a request without [conversationId] starts with the one insert into
    [conversations] it makes, for the caller and titled with the first 50
    code units of the message.  When the store accepts it, that row is the
    only new conversation and every message row the request then writes
    carries the new id; when it does not, no message row is written. *)
Theorem new_conversation_is_created_first (env : Env) (ctx : Ctx)
    (userId : string) (input : SendMessageInput.t) (d : Db) :
  caller_identity ctx = Some userId ->
  SendMessageInput.conversationId input = None ->
  let title := JsString.substring0 50 (SendMessageInput.message input) in
  let l := calls (sendMessage env (request input) ctx) d in
  let d' := db_after (sendMessage env (request input) ctx) d in
  (exists rest,
      l = InsertConversation userId title :: rest
      /\ inserted_conversations rest = [])
  /\ (forall id now,
        insert_conversation env = Stored id now ->
        conversations d'
        = conversations d ++ [Conversation.mk id title userId now now]
        /\ Forall (fun m => NewMessage.conversation_id m = id)
             (inserted_messages l))
  /\ ((forall id now, insert_conversation env <> Stored id now) ->
      inserted_messages l = [] /\ conversations d' = conversations d).
Proof.
  intros A N title l d'.
  destruct (stored_or_not (insert_conversation env)) as [(id & now & S)|S].
  - destruct (new_conversation_stored env ctx userId input d id now A N S)
      as (rest & L & C & M & D).
    fold title l d' in L, D.
    split; [|split].
    + exists rest. split; assumption.
    + intros id' now' S'. rewrite S in S'. injection S' as <- <-.
      split; [exact D|]. rewrite L. exact M.
    + intros F. exfalso. apply (F id now S).
  - destruct (new_conversation_not_stored env ctx userId input d A N S)
      as [L D].
    fold title l in L. fold d' in D.
    split; [|split].
    + exists []. split; [exact L | reflexivity].
    + intros id now S'. exfalso. apply (S id now S').
    + intros _. rewrite L, D. split; reflexivity.
Qed.

Lemma new_conversation_is_created_first_witness :
  conversations
    (db_after (sendMessage fair_weather (request new_chat) alice) empty_db)
  = [Conversation.mk "conv-9"
       "Tell me a long story about a cat who sails across "
       "auth0|alice" 100 100]
  /\ Forall (fun m => NewMessage.conversation_id m = "conv-9")
       (inserted_messages
          (calls (sendMessage fair_weather (request new_chat) alice)
             empty_db)).
Proof.
  destruct (new_conversation_is_created_first fair_weather alice
              "auth0|alice" new_chat empty_db eq_refl eq_refl)
    as (_ & H & _).
  exact (H "conv-9" 100 eq_refl).
Defined.

(** ** [ORDER BY] sorts *)

Section OrderByKey.
Context {A : Type} (key : A -> nat).

Let leb (a b : A) : bool := key a <=? key b.

Lemma insert_sorted_perm (x : A) (l : list A) :
  Permutation (x :: l) (insert_sorted leb x l).
Proof.
  induction l as [|y l IH]; cbn; [reflexivity|].
  destruct (leb x y); [reflexivity|].
  rewrite perm_swap. constructor. exact IH.
Qed.

Lemma order_by_perm (l : list A) : Permutation l (order_by leb l).
Proof.
  induction l as [|x l IH]; cbn; [constructor|].
  rewrite <- insert_sorted_perm. constructor. exact IH.
Qed.

Lemma order_by_length (l : list A) :
  List.length (order_by leb l) = List.length l.
Proof. symmetry. apply Permutation_length, order_by_perm. Qed.

Lemma insert_sorted_sorted (x : A) (l : list A) :
  Sorted (fun a b => key a <= key b) l ->
  Sorted (fun a b => key a <= key b) (insert_sorted leb x l).
Proof.
  induction 1 as [|y l S IH H]; cbn.
  - repeat constructor.
  - unfold leb at 1. destruct (Nat.leb_spec (key x) (key y)) as [L|L].
    + constructor; [constructor; assumption|].
      constructor. exact L.
    + constructor; [exact IH|].
      destruct l as [|z l]; cbn.
      * constructor. lia.
      * unfold leb. destruct (Nat.leb_spec (key x) (key z)).
        -- constructor. lia.
        -- constructor. inversion H. assumption.
Qed.

Lemma order_by_sorted (l : list A) :
  Sorted (fun a b => key a <= key b) (order_by leb l).
Proof.
  induction l as [|x l IH]; cbn; [constructor|].
  apply insert_sorted_sorted. exact IH.
Qed.

End OrderByKey.

(** The rows a conversation is read from are its messages, in ascending
    order of creation. *)
Lemma prior_messages_sorted (d : Db) (cid userId : string) :
  Sorted (fun a b => Message.created_at a <= Message.created_at b)
    (prior_messages d cid userId)
  /\ Permutation (messages_of d cid userId) (prior_messages d cid userId).
Proof.
  split; [apply (order_by_sorted Message.created_at)
         | apply (order_by_perm Message.created_at)].
Qed.

Lemma select_messages_limit (d : Db) (cid userId : string) (n : nat) :
  select_messages d cid userId (Some n)
  = firstn n (prior_messages d cid userId).
Proof. reflexivity. Qed.

Lemma select_messages_same_rows (d d' : Db) (cid userId : string)
    (n : option nat) :
  messages d' = messages d ->
  select_messages d' cid userId n = select_messages d cid userId n.
Proof.
  intros E. unfold select_messages, messages_of. rewrite E. reflexivity.
Qed.

(** ** The dialogue *)

Lemma conversationParts_loop (h : list Message.t) (acc : list Content.t) :
  fold_left
    (fun parts msg =>
       if String.eqb (Message.message_type msg) "text"
       then parts ++ [Content.mk
                        (if String.eqb (Message.role msg) "user"
                         then "user" else "model")
                        [Message.content msg]]
       else parts) h acc
  = acc ++ map turn_of (filter is_text h).
Proof.
  revert acc. induction h as [|m h IH]; intros acc; cbn.
  - rewrite app_nil_r. reflexivity.
  - rewrite IH. unfold is_text. destruct (String.eqb _ "text"); cbn.
    + rewrite <- app_assoc. reflexivity.
    + reflexivity.
Qed.

(** The loop keeps the messages of kind [text], in order, one turn each. *)
Lemma conversationParts_turns (h : list Message.t) (message : string) :
  conversationParts h message
  = map turn_of (filter is_text h) ++ [Content.mk "user" [message]].
Proof.
  unfold conversationParts. rewrite conversationParts_loop. reflexivity.
Qed.

Lemma turn_of_turn_for (l : list Message.t) :
  Forall2 turn_for l (map turn_of l).
Proof.
  induction l as [|m l IH]; cbn; constructor; [|exact IH].
  unfold turn_for, turn_of. cbn. repeat split.
  - intros E. rewrite E. reflexivity.
  - intros E. rewrite E. reflexivity.
Qed.

(** ** From the request to the generation stage *)

Lemma only_conversation_inserts_unseen (l : list Call) :
  only_conversation_inserts l ->
  chat_requests l = [] /\ image_requests l = [] /\ inserted_messages l = []
  /\ filter is_gateway_call l = [].
Proof.
  induction 1 as [|c l Hc _ (IH1 & IH2 & IH3 & IH4)]; [repeat split|].
  destruct c; try contradiction. cbn. auto.
Qed.

(** When the conversation is at hand, the request reaches the generation
    stage with the messages table untouched and at most the insert of the
    conversation in the log. *)
Lemma sendMessage_reaches_generation (env : Env) (ctx : Ctx)
    (userId : string) (input : SendMessageInput.t) (cid : string) (d : Db) :
  caller_identity ctx = Some userId ->
  conversation_resolves env input = Some cid ->
  exists d1 l0,
    messages d1 = messages d
    /\ only_conversation_inserts l0
    /\ run (sendMessage env (request input) ctx) d
       = (g <- generate_response env input userId cid ;;
          save_messages env (SendMessageInput.message input) userId cid g)
           (mkWorld d1 l0).
Proof.
  intros A R. unfold run.
  rewrite (sendMessage_authenticated env input ctx userId A).
  unfold conversation_resolves in R. unfold bind at 1.
  destruct (truthy (SendMessageInput.conversationId input)) eqn:T.
  - destruct (resolve_conversation_supplied env userId
                (SendMessageInput.message input) _ (mkWorld d []) T)
      as (cid' & E & ->).
    rewrite E in R. injection R as ->.
    exists d, []. repeat split. constructor.
  - destruct (insert_conversation env) as [id now|e| |e] eqn:S;
      try discriminate.
    injection R as ->.
    rewrite (resolve_conversation_created env userId _ _ cid now _ T S).
    cbn [db log app].
    exists (mkDb (conversations d
                    ++ [Conversation.mk cid
                          (JsString.substring0 50
                             (SendMessageInput.message input))
                          userId now now])
                 (messages d)),
      [InsertConversation userId
         (JsString.substring0 50 (SendMessageInput.message input))].
    repeat split. repeat constructor.
Qed.

Lemma load_history_rows (env : Env) (cid userId : string) (w : World) :
  JsString.truthy cid = true ->
  select_history env = Rows ->
  load_history env cid userId w
  = (Return (select_messages (db w) cid userId (Some 20)),
     mkWorld (db w) (log w ++ [SelectMessages cid userId (Some 20)])).
Proof.
  intros T S. unfold load_history, bind, supabase_select_messages.
  rewrite T, S. reflexivity.
Qed.

Lemma load_history_refused (env : Env) (cid userId : string) (w : World)
    (error : Thrown) :
  JsString.truthy cid = true ->
  select_history env = SelectRefused error ->
  load_history env cid userId w
  = (Return [],
     mkWorld (db w) (log w ++ [SelectMessages cid userId (Some 20)])).
Proof.
  intros T S. unfold load_history, bind, supabase_select_messages.
  rewrite T, S. reflexivity.
Qed.

(** The plain-text branch, once the history is loaded. *)
Lemma generate_response_text (env : Env) (input : SendMessageInput.t)
    (userId cid : string) (w w1 : World) (h : list Message.t) :
  isImageGenerationRequest (SendMessageInput.message input) = false ->
  hasUploadedImage (SendMessageInput.imageBase64 input)
    (SendMessageInput.mimeType input) = false ->
  load_history env cid userId w = (Return h, w1) ->
  generate_response env input userId cid w
  = (match generate_chat env with
     | Fulfilled text => Return (Generated.mk text "text" "text")
     | Rejected e =>
         Throw (TRPCError INTERNAL_SERVER_ERROR
                  "Failed to generate AI response" (Some e))
     end,
     mkWorld (db w1)
       (log w1 ++ [GenerateContentChat
                     (conversationParts h (SendMessageInput.message input))])).
Proof.
  intros I U L. unfold generate_response, try_catch. rewrite I, U.
  unfold bind at 1. rewrite L.
  unfold bind, generateContent, call, await.
  destruct (generate_chat env); reflexivity.
Qed.

(** The calls of a request whose generation stage ended in [w2]. *)
Lemma calls_after_generation (env : Env) (input : SendMessageInput.t)
    (userId cid : string) (w w2 : World) (c : Completion Generated.t) :
  generate_response env input userId cid w = (c, w2) ->
  exists l,
    log (snd ((g <- generate_response env input userId cid ;;
               save_messages env (SendMessageInput.message input) userId cid g)
                w))
    = log w2 ++ l
    /\ chat_requests l = [] /\ image_requests l = []
    /\ filter is_gateway_call l = [].
Proof.
  intros G. unfold bind. rewrite G. destruct c as [g|e].
  - destruct (save_messages_effects env (SendMessageInput.message input)
                userId cid g w2) as [L _].
    rewrite L. eexists. split; [reflexivity|].
    cbn. destruct (insert_rejects _); repeat split.
  - exists []. cbn. rewrite app_nil_r. repeat split.
Qed.

(** The one gateway call of a plain-text request whose history read gives
    [h]. *)
Lemma text_request_dialogue (env : Env) (ctx : Ctx) (userId : string)
    (input : SendMessageInput.t) (cid : string) (d : Db)
    (h : list Message.t) :
  caller_identity ctx = Some userId ->
  conversation_resolves env input = Some cid ->
  isImageGenerationRequest (SendMessageInput.message input) = false ->
  hasUploadedImage (SendMessageInput.imageBase64 input)
    (SendMessageInput.mimeType input) = false ->
  (forall w, messages (db w) = messages d ->
             load_history env cid userId w
             = (Return h,
                mkWorld (db w)
                  (log w ++ [SelectMessages cid userId (Some 20)]))) ->
  let dialogue := conversationParts h (SendMessageInput.message input) in
  chat_requests (calls (sendMessage env (request input) ctx) d) = [dialogue]
  /\ filter is_gateway_call (calls (sendMessage env (request input) ctx) d)
     = [GenerateContentChat dialogue].
Proof.
  intros A R I U L dialogue. unfold calls.
  destruct (sendMessage_reaches_generation env ctx userId input cid d A R)
    as (d1 & l0 & M & O & ->).
  pose proof (generate_response_text env input userId cid _ _ h I U
                (L (mkWorld d1 l0) M)) as G.
  destruct (calls_after_generation env input userId cid _ _ _ G)
    as (l & -> & C1 & _ & C3).
  destruct (only_conversation_inserts_unseen l0 O) as (O1 & _ & _ & O4).
  cbn [log db]. unfold chat_requests in *.
  rewrite !flat_map_app, !filter_app, O1, O4, C1, C3. split; reflexivity.
Qed.

(** With a successful read, the history is the 20 oldest messages of the
    conversation, filtered to kind [text]. *)
Lemma text_request_window (env : Env) (ctx : Ctx) (userId : string)
    (input : SendMessageInput.t) (cid : string) (d : Db) :
  caller_identity ctx = Some userId ->
  conversation_resolves env input = Some cid ->
  JsString.truthy cid = true ->
  isImageGenerationRequest (SendMessageInput.message input) = false ->
  hasUploadedImage (SendMessageInput.imageBase64 input)
    (SendMessageInput.mimeType input) = false ->
  select_history env = Rows ->
  chat_requests (calls (sendMessage env (request input) ctx) d)
  = [map turn_of (filter is_text (firstn 20 (prior_messages d cid userId)))
       ++ [Content.mk "user" [SendMessageInput.message input]]].
Proof.
  intros A R T I U S.
  rewrite <- conversationParts_turns, <- select_messages_limit.
  apply (text_request_dialogue env ctx userId input cid d _ A R I U).
  intros w M. rewrite (load_history_rows env cid userId w T S).
  rewrite (select_messages_same_rows d (db w) cid userId _ M). reflexivity.
Qed.

(** ** The dialogue of a plain-text request *)

(** C3: a plain-text request on a conversation of at most 20 messages, read
    without error, passes to the text model the text messages of the
    conversation in chronological order, one turn each with [user] as
    ["user"] and [assistant] as ["model"], and then the new message as a
    ["user"] turn. *)
Theorem short_history_is_passed_in_order (env : Env) (ctx : Ctx)
    (userId : string) (input : SendMessageInput.t) (cid : string) (d : Db) :
  caller_identity ctx = Some userId ->
  conversation_resolves env input = Some cid ->
  JsString.truthy cid = true ->
  isImageGenerationRequest (SendMessageInput.message input) = false ->
  hasUploadedImage (SendMessageInput.imageBase64 input)
    (SendMessageInput.mimeType input) = false ->
  select_history env = Rows ->
  List.length (prior_messages d cid userId) <= 20 ->
  exists turns,
    chat_requests (calls (sendMessage env (request input) ctx) d)
    = [turns ++ [Content.mk "user" [SendMessageInput.message input]]]
    /\ Forall2 turn_for (prior_text_messages d cid userId) turns.
Proof.
  intros A R T I U S N.
  exists (map turn_of (prior_text_messages d cid userId)). split.
  - rewrite (text_request_window env ctx userId input cid d A R T I U S).
    rewrite (firstn_all2 _ N). reflexivity.
  - apply turn_of_turn_for.
Qed.

Lemma short_history_is_passed_in_order_witness :
  exists turns,
    chat_requests
      (calls (sendMessage fair_weather (request hello) alice)
         short_conversation)
    = [turns ++ [Content.mk "user" ["Hello, AI!"]]]
    /\ Forall2 turn_for
         [Message.mk "msg-1" "What is 2+2?" "user" "text"
            "auth0|alice" "conv-1" 1;
          Message.mk "msg-2" "2+2 equals 4." "assistant" "text"
            "auth0|alice" "conv-1" 2]
         turns.
Proof.
  apply (short_history_is_passed_in_order fair_weather alice "auth0|alice"
           hello "conv-1" short_conversation);
    try reflexivity.
  vm_compute. lia.
Defined.

Example short_conversation_dialogue :
  chat_requests
    (calls (sendMessage fair_weather (request hello) alice)
       short_conversation)
  = [[Content.mk "user" ["What is 2+2?"];
      Content.mk "model" ["2+2 equals 4."];
      Content.mk "user" ["Hello, AI!"]]].
Proof. reflexivity. Qed.

Lemma save_messages_succeeds (env : Env) (message userId cid : string)
    (g : Generated.t) (w : World) (id : string) (now : nat) :
  insert_rejects (insert_user_message env) = false ->
  insert_ai_message env = Stored id now ->
  fst (save_messages env message userId cid g w)
  = Return (SendMessageOutput.mk
              (Some (Message.mk id (Generated.aiResponseContent g)
                       "assistant" (Generated.aiMessageType g) userId cid
                       now))
              cid).
Proof.
  intros U S.
  unfold save_messages, try_catch, bind, supabase_insert_message, call.
  rewrite S.
  destruct (insert_user_message env); try discriminate; reflexivity.
Qed.

(** C10: when the read of the history answers with an error, the plain-text
    request goes on with an empty history: the one gateway call is the text
    generation with the new message as its only turn, and the request
    succeeds when the generation and the writes do. *)
Theorem history_read_error_is_swallowed (env : Env) (ctx : Ctx)
    (userId : string) (input : SendMessageInput.t) (cid : string) (d : Db)
    (error : Thrown) :
  caller_identity ctx = Some userId ->
  conversation_resolves env input = Some cid ->
  JsString.truthy cid = true ->
  isImageGenerationRequest (SendMessageInput.message input) = false ->
  hasUploadedImage (SendMessageInput.imageBase64 input)
    (SendMessageInput.mimeType input) = false ->
  select_history env = SelectRefused error ->
  filter is_gateway_call (calls (sendMessage env (request input) ctx) d)
  = [GenerateContentChat
       [Content.mk "user" [SendMessageInput.message input]]]
  /\ (forall text id now,
        generate_chat env = Fulfilled text ->
        insert_rejects (insert_user_message env) = false ->
        insert_ai_message env = Stored id now ->
        outcome (sendMessage env (request input) ctx) d
        = Return (SendMessageOutput.mk
                    (Some (Message.mk id text "assistant" "text" userId cid
                             now))
                    cid)).
Proof.
  intros A R T I U S.
  assert (L : forall w, messages (db w) = messages d ->
                load_history env cid userId w
                = (Return [],
                   mkWorld (db w)
                     (log w ++ [SelectMessages cid userId (Some 20)])))
    by (intros w _; apply (load_history_refused env cid userId w error T S)).
  split.
  - apply (text_request_dialogue env ctx userId input cid d [] A R I U L).
  - intros text id now G NU SA. unfold outcome.
    destruct (sendMessage_reaches_generation env ctx userId input cid d A R)
      as (d1 & l0 & M & _ & ->).
    unfold bind.
    rewrite (generate_response_text env input userId cid _ _ [] I U
               (L (mkWorld d1 l0) M)), G.
    apply (save_messages_succeeds env _ userId cid
             (Generated.mk text "text" "text") _ id now NU SA).
Qed.

Lemma history_read_error_is_swallowed_witness :
  filter is_gateway_call
    (calls (sendMessage history_unreadable (request hello) alice)
       short_conversation)
  = [GenerateContentChat [Content.mk "user" ["Hello, AI!"]]]
  /\ outcome (sendMessage history_unreadable (request hello) alice)
       short_conversation
     = Return (SendMessageOutput.mk
                 (Some (Message.mk "msg-a" "Hello!" "assistant" "text"
                          "auth0|alice" "conv-1" 102))
                 "conv-1").
Proof.
  destruct (history_read_error_is_swallowed history_unreadable alice
              "auth0|alice" hello "conv-1" short_conversation
              (ErrorValue "PGRST301")
              eq_refl eq_refl eq_refl eq_refl eq_refl eq_refl) as [C O].
  split; [exact C | exact (O "Hello!" "msg-a" 102 eq_refl eq_refl eq_refl)].
Defined.

(** ** The window of the history *)

Example long_conversation_has_21_text_messages :
  prior_text_messages long_conversation "conv-1" "auth0|alice"
  = map text_message (seq 1 21).
Proof. vm_compute. reflexivity. Qed.

(** C1: on a conversation of 21 text messages the context is the 20 oldest
    messages, not the 20 most recent ones: the oldest message is in it and
    the newest is not. *)
Theorem history_window_keeps_the_oldest :
  let prior := prior_text_messages long_conversation "conv-1" "auth0|alice" in
  let dialogue :=
    chat_requests
      (calls (sendMessage fair_weather (request hello) alice)
         long_conversation) in
  List.length prior = 21
  /\ dialogue = [map turn_of (firstn 20 prior)
                   ++ [Content.mk "user" ["Hello, AI!"]]]
  /\ dialogue <> [map turn_of (most_recent 20 prior)
                    ++ [Content.mk "user" ["Hello, AI!"]]]
  /\ (exists rest, dialogue = [turn_of (text_message 1) :: rest])
  /\ (forall turns, dialogue = [turns] -> ~ In (turn_of (text_message 21)) turns).
Proof.
  cbv zeta. split; [|split; [|split; [|split]]].
  - vm_compute. reflexivity.
  - vm_compute. reflexivity.
  - vm_compute. intros H. discriminate H.
  - vm_compute. eexists. reflexivity.
  - intros turns H. vm_compute in H. injection H as <-.
    vm_compute. intros F.
    repeat (destruct F as [F|F]; [discriminate F|]). exact F.
Qed.

(** ** The image branch *)

Lemma base64_char_not_white_space (c : ascii) :
  JsString.is_base64_char c = true -> JsString.is_white_space c = false.
Proof.
  destruct c as [[] [] [] [] [] [] [] []]; vm_compute; congruence.
Qed.

Lemma trimEnd_no_white_space (s : string) :
  JsString.all_chars (fun c => negb (JsString.is_white_space c)) s = true ->
  JsString.trimEnd s = s.
Proof.
  induction s as [|c s IH]; cbn; [reflexivity|].
  intros H. apply andb_prop in H as [Hc Hs]. rewrite (IH Hs).
  apply negb_true_iff in Hc. rewrite Hc. destruct s; reflexivity.
Qed.

Lemma all_chars_impl (p q : ascii -> bool) (s : string) :
  (forall c, p c = true -> q c = true) ->
  JsString.all_chars p s = true -> JsString.all_chars q s = true.
Proof.
  intros PQ. induction s as [|c s IH]; cbn; [reflexivity|].
  intros H. apply andb_prop in H as [Hc Hs].
  rewrite (PQ c Hc), (IH Hs). reflexivity.
Qed.

(** Text over the base64 alphabet has nothing to trim. *)
Lemma trim_base64 (s : string) :
  JsString.all_chars JsString.is_base64_char s = true -> JsString.trim s = s.
Proof.
  intros H. unfold JsString.trim.
  assert (S : JsString.trimStart s = s).
  { destruct s as [|c s]; [reflexivity|]. cbn in H |- *.
    apply andb_prop in H as [Hc _].
    rewrite (base64_char_not_white_space c Hc). reflexivity. }
  rewrite S. apply trimEnd_no_white_space.
  apply (all_chars_impl JsString.is_base64_char); [|exact H].
  intros c Hc. rewrite (base64_char_not_white_space c Hc). reflexivity.
Qed.

Lemma read_image_response_inline (responseData : ResponseData.t)
    (parts : list Part.t) (part : Part.t) (mime payload : string) :
  first_candidate_parts responseData = Some parts ->
  find is_image_part parts = Some part ->
  Part.inlineData part = Some (InlineData.mk (Some mime) (Some payload)) ->
  read_image_response responseData
  = (("data:" ++ mime ++ ";base64," ++ payload)%string, "image").
Proof.
  intros P F I. unfold read_image_response. rewrite P, F, I. reflexivity.
Qed.

Lemma read_image_response_base64_text (responseData : ResponseData.t)
    (parts : list Part.t) (part : Part.t) (text : string) :
  first_candidate_parts responseData = Some parts ->
  find is_image_part parts = None ->
  find (fun part => truthy (Part.text part)) parts = Some part ->
  Part.text part = Some text ->
  1000 < String.length text ->
  JsString.all_chars JsString.is_base64_char text = true ->
  read_image_response responseData
  = (("data:image/png;base64," ++ text)%string, "image").
Proof.
  intros P F T E L B. unfold read_image_response. rewrite P, F, T, E.
  rewrite (trim_base64 text B).
  apply Nat.ltb_lt in L. rewrite L.
  destruct text as [|c text]; [discriminate L|].
  unfold JsString.test_base64. rewrite B. reflexivity.
Qed.

Lemma generate_image_answered (env : Env) (prompt : string) (w : World)
    (responseData : ResponseData.t) :
  fetch_image_generation env = Ok (Fulfilled responseData) ->
  generate_image env prompt w
  = (Return (read_image_response responseData),
     mkWorld (db w) (log w ++ [FetchImageGeneration prompt])).
Proof.
  intros F. unfold generate_image, try_catch, bind, call, await.
  rewrite F. reflexivity.
Qed.

Lemma generate_image_raised (env : Env) (prompt : string) (w : World) :
  image_generation_raises (fetch_image_generation env) = true ->
  generate_image env prompt w
  = (match generate_fallback env with
     | Fulfilled text => Return (text, "text")
     | Rejected e => Throw e
     end,
     mkWorld (db w)
       (log w ++ [FetchImageGeneration prompt;
                  GenerateContentPrompt (fallback_prompt prompt)])).
Proof.
  intros F.
  unfold generate_image, try_catch, bind, call, generateContent, await.
  destruct (fetch_image_generation env) as [e|status [body|e]|[rd|e]];
    try discriminate; cbn;
    destruct (generate_fallback env); cbn; rewrite <- app_assoc; reflexivity.
Qed.

Lemma generate_response_image (env : Env) (input : SendMessageInput.t)
    (userId cid : string) (w : World) :
  isImageGenerationRequest (SendMessageInput.message input) = true ->
  generate_response env input userId cid w
  = match generate_image env (image_prompt (SendMessageInput.message input))
            w with
    | (Return r, w1) =>
        (Return (Generated.mk (fst r) (snd r) "image_prompt"), w1)
    | (Throw e, w1) =>
        (Throw (TRPCError INTERNAL_SERVER_ERROR
                  "Failed to generate AI response" (Some e)), w1)
    end.
Proof.
  intros I. unfold generate_response, try_catch, bind. rewrite I.
  destruct (generate_image env _ w) as [[r|e] w1]; reflexivity.
Qed.

(** A request whose generation stage produced [g] writes the user row and,
    unless that write rejects, the assistant row. *)
Lemma generated_response_is_saved (env : Env) (ctx : Ctx) (userId : string)
    (input : SendMessageInput.t) (cid : string) (d : Db) (g : Generated.t)
    (l : list Call) :
  caller_identity ctx = Some userId ->
  conversation_resolves env input = Some cid ->
  (forall w, generate_response env input userId cid w
             = (Return g, mkWorld (db w) (log w ++ l))) ->
  reads_only l ->
  insert_rejects (insert_user_message env) = false ->
  inserted_messages (calls (sendMessage env (request input) ctx) d)
  = [NewMessage.mk (SendMessageInput.message input) "user"
       (Generated.userMessageType g) userId cid;
     NewMessage.mk (Generated.aiResponseContent g) "assistant"
       (Generated.aiMessageType g) userId cid]
  /\ filter is_gateway_call (calls (sendMessage env (request input) ctx) d)
     = filter is_gateway_call l
  /\ (forall id now,
        insert_ai_message env = Stored id now ->
        outcome (sendMessage env (request input) ctx) d
        = Return (SendMessageOutput.mk
                    (Some (Message.mk id (Generated.aiResponseContent g)
                             "assistant" (Generated.aiMessageType g)
                             userId cid now))
                    cid)).
Proof.
  intros A R G RO NU. unfold calls, outcome.
  destruct (sendMessage_reaches_generation env ctx userId input cid d A R)
    as (d1 & l0 & M & O & ->).
  unfold bind. rewrite G.
  destruct (save_messages_effects env (SendMessageInput.message input)
              userId cid g (mkWorld (db (mkWorld d1 l0))
                              (log (mkWorld d1 l0) ++ l))) as [L _].
  rewrite L, NU. cbn [log db].
  destruct (only_conversation_inserts_unseen l0 O) as (_ & _ & O3 & O4).
  destruct (reads_only_no_inserts l RO) as [_ RM].
  repeat split.
  - rewrite !inserted_messages_app, O3, RM. reflexivity.
  - rewrite !filter_app, O4. cbn. rewrite app_nil_r. reflexivity.
  - intros id now SA. apply (save_messages_succeeds env _ userId cid g _ id
                               now NU SA).
Qed.

Lemma image_request_answered (env : Env) (ctx : Ctx) (userId : string)
    (input : SendMessageInput.t) (cid : string) (d : Db)
    (responseData : ResponseData.t) :
  caller_identity ctx = Some userId ->
  conversation_resolves env input = Some cid ->
  isImageGenerationRequest (SendMessageInput.message input) = true ->
  fetch_image_generation env = Ok (Fulfilled responseData) ->
  insert_rejects (insert_user_message env) = false ->
  image_request_persists env ctx userId input cid d
    (fst (read_image_response responseData))
    (snd (read_image_response responseData)).
Proof.
  intros A R I F NU.
  destruct (generated_response_is_saved env ctx userId input cid d
              (Generated.mk (fst (read_image_response responseData))
                 (snd (read_image_response responseData)) "image_prompt")
              [FetchImageGeneration
                 (image_prompt (SendMessageInput.message input))]
              A R) as (H1 & _ & H3); auto.
  - intros w. rewrite (generate_response_image env input userId cid w I).
    rewrite (generate_image_answered env _ w responseData F). reflexivity.
  - repeat constructor.
  - split; assumption.
Qed.

(** C7: when the image-generation response carries an inline image, the
    assistant row has the content [data:<mime>;base64,<payload>] and the kind
    [image]; when it carries no image but a text of more than 1000 code units
    over the base64 alphabet, the text is the payload of a PNG data URI. *)
Theorem image_response_becomes_data_uri (env : Env) (ctx : Ctx)
    (userId : string) (input : SendMessageInput.t) (cid : string) (d : Db)
    (responseData : ResponseData.t) (parts : list Part.t) :
  caller_identity ctx = Some userId ->
  conversation_resolves env input = Some cid ->
  isImageGenerationRequest (SendMessageInput.message input) = true ->
  fetch_image_generation env = Ok (Fulfilled responseData) ->
  first_candidate_parts responseData = Some parts ->
  insert_rejects (insert_user_message env) = false ->
  (forall part mime payload,
      find is_image_part parts = Some part ->
      Part.inlineData part = Some (InlineData.mk (Some mime) (Some payload)) ->
      image_request_persists env ctx userId input cid d
        ("data:" ++ mime ++ ";base64," ++ payload)%string "image")
  /\ (forall part text,
        find is_image_part parts = None ->
        find (fun part => truthy (Part.text part)) parts = Some part ->
        Part.text part = Some text ->
        1000 < String.length text ->
        JsString.all_chars JsString.is_base64_char text = true ->
        image_request_persists env ctx userId input cid d
          ("data:image/png;base64," ++ text)%string "image").
Proof.
  intros A R I F P NU.
  pose proof (image_request_answered env ctx userId input cid d responseData
                A R I F NU) as H.
  split.
  - intros part mime payload FI ID.
    rewrite (read_image_response_inline responseData parts part mime payload
               P FI ID) in H.
    exact H.
  - intros part text FI FT T L B.
    rewrite (read_image_response_base64_text responseData parts part text
               P FI FT T L B) in H.
    exact H.
Qed.

Lemma image_response_becomes_data_uri_witness :
  image_request_persists fair_weather alice "auth0|alice" cat_picture "conv-1"
    short_conversation "data:image/png;base64,iVBORw0KGgo=" "image"
  /\ image_request_persists answers_raw_base64 alice "auth0|alice" cat_picture
       "conv-1" short_conversation
       ("data:image/png;base64," ++ raw_base64)%string "image".
Proof.
  split.
  - apply (proj1 (image_response_becomes_data_uri fair_weather alice
                    "auth0|alice" cat_picture "conv-1" short_conversation
                    png_response _
                    eq_refl eq_refl eq_refl eq_refl eq_refl eq_refl)
             (Part.mk (Some (InlineData.mk (Some "image/png")
                               (Some "iVBORw0KGgo="))) None)
             "image/png" "iVBORw0KGgo=" eq_refl eq_refl).
  - apply (proj2 (image_response_becomes_data_uri answers_raw_base64 alice
                    "auth0|alice" cat_picture "conv-1" short_conversation
                    raw_base64_response _
                    eq_refl eq_refl eq_refl eq_refl eq_refl eq_refl)
             (Part.mk None (Some raw_base64)) raw_base64
             eq_refl eq_refl eq_refl).
    + vm_compute. lia.
    + vm_compute. reflexivity.
Defined.

(** ** The fallback of the image branch *)

(** C8: when the image-generation request raises an error, the gateway is
    called exactly twice: the failed request and one text generation whose
    prompt embeds the image prompt.  If the fallback answers, its text is the
    assistant row, of kind [text], and the request does not fail with the
    generation error; if it fails too, the request fails with it and writes
    no message. *)
Theorem failed_image_generation_falls_back_once (env : Env) (ctx : Ctx)
    (userId : string) (input : SendMessageInput.t) (cid : string) (d : Db) :
  caller_identity ctx = Some userId ->
  conversation_resolves env input = Some cid ->
  isImageGenerationRequest (SendMessageInput.message input) = true ->
  image_generation_raises (fetch_image_generation env) = true ->
  let prompt := image_prompt (SendMessageInput.message input) in
  let l := calls (sendMessage env (request input) ctx) d in
  let result := outcome (sendMessage env (request input) ctx) d in
  filter is_gateway_call l
  = [FetchImageGeneration prompt;
     GenerateContentPrompt
       ("I'm unable to generate an image right now. Here's a response to your prompt: "
          ++ prompt)%string]
  /\ (forall text,
        generate_fallback env = Fulfilled text ->
        failure_message result <> Some "Failed to generate AI response"
        /\ (insert_rejects (insert_user_message env) = false ->
            image_request_persists env ctx userId input cid d text "text"))
  /\ (forall e,
        generate_fallback env = Rejected e ->
        result = Throw (TRPCError INTERNAL_SERVER_ERROR
                          "Failed to generate AI response" (Some e))
        /\ inserted_messages l = []).
Proof.
  intros A R I F prompt l result.
  assert (G : forall w,
             generate_response env input userId cid w
             = (match generate_fallback env with
                | Fulfilled text =>
                    Return (Generated.mk text "text" "image_prompt")
                | Rejected e =>
                    Throw (TRPCError INTERNAL_SERVER_ERROR
                             "Failed to generate AI response" (Some e))
                end,
                mkWorld (db w)
                  (log w ++ [FetchImageGeneration prompt;
                             GenerateContentPrompt (fallback_prompt prompt)]))).
  { intros w. rewrite (generate_response_image env input userId cid w I).
    rewrite (generate_image_raised env _ w F).
    destruct (generate_fallback env); reflexivity. }
  assert (RO : reads_only [FetchImageGeneration prompt;
                           GenerateContentPrompt (fallback_prompt prompt)])
    by repeat constructor.
  destruct (sendMessage_reaches_generation env ctx userId input cid d A R)
    as (d1 & l0 & M & O & E).
  destruct (only_conversation_inserts_unseen l0 O) as (_ & _ & O3 & O4).
  subst l result. unfold calls, outcome. rewrite E.
  destruct (calls_after_generation env input userId cid _ _ _
              (G (mkWorld d1 l0))) as (l' & L & _ & _ & L4).
  split; [|split].
  - rewrite L. cbn [log]. rewrite !filter_app, O4, L4. reflexivity.
  - intros text FB. split.
    + unfold bind. rewrite G, FB.
      destruct (save_messages env _ userId cid _ _) as [[o|t] w2] eqn:S;
        [discriminate|].
      unfold save_messages, try_catch in S.
      match type of S with
      | (let (c, w') := ?m in _) = _ => destruct m as [[?|?] ?]
      end; injection S as <- <-; discriminate.
    + intros NU.
      assert (G' : forall w,
                 generate_response env input userId cid w
                 = (Return (Generated.mk text "text" "image_prompt"),
                    mkWorld (db w)
                      (log w ++ [FetchImageGeneration prompt;
                                 GenerateContentPrompt
                                   (fallback_prompt prompt)])))
        by (intros w; rewrite G, FB; reflexivity).
      destruct (generated_response_is_saved env ctx userId input cid d
                  _ _ A R G' RO NU) as (H1 & _ & H3).
      split; assumption.
  - intros e FB. unfold bind in *. rewrite G, FB in *. cbn [fst snd log].
    split; [reflexivity|].
    rewrite inserted_messages_app, O3. reflexivity.
Qed.

Lemma failed_image_generation_falls_back_once_witness :
  image_request_persists image_endpoint_down alice "auth0|alice" cat_picture
    "conv-1" short_conversation "Sorry, no picture." "text"
  /\ outcome (sendMessage gateway_down (request cat_picture) alice)
       short_conversation
     = Throw (TRPCError INTERNAL_SERVER_ERROR "Failed to generate AI response"
                (Some (ErrorObject "AI service error"))).
Proof.
  split.
  - destruct (failed_image_generation_falls_back_once image_endpoint_down
                alice "auth0|alice" cat_picture "conv-1" short_conversation
                eq_refl eq_refl eq_refl eq_refl) as (_ & H & _).
    exact (proj2 (H "Sorry, no picture." eq_refl) eq_refl).
  - destruct (failed_image_generation_falls_back_once gateway_down
                alice "auth0|alice" cat_picture "conv-1" short_conversation
                eq_refl eq_refl eq_refl eq_refl) as (_ & _ & H).
    exact (proj1 (H (ErrorObject "AI service error") eq_refl)).
Defined.

Example image_endpoint_down_calls :
  filter is_gateway_call
    (calls (sendMessage image_endpoint_down (request cat_picture) alice)
       short_conversation)
  = [FetchImageGeneration "a cat";
     GenerateContentPrompt
       "I'm unable to generate an image right now. Here's a response to your prompt: a cat"].
Proof. reflexivity. Qed.

(** ** Where the command is cut from the prompt *)

(** On the code units of [/image], lower-casing and the case-insensitive
    match of the regular expression agree. *)
Lemma command_char_match (c p : ascii) :
  In p command_chars ->
  (JsString.lower_char c = p
   <-> (JsString.canonicalize c =? JsString.canonicalize p) = true).
Proof.
  intros H. cbn in H.
  repeat (destruct H as [<-|H]; [|]); try contradiction;
    destruct c as [[] [] [] [] [] [] [] []]; vm_compute;
    split; congruence.
Qed.

Lemma toLowerCase_app (a b : string) :
  JsString.toLowerCase (a ++ b)
  = (JsString.toLowerCase a ++ JsString.toLowerCase b)%string.
Proof.
  induction a as [|c a IH]; cbn; [reflexivity|]. rewrite IH. reflexivity.
Qed.

Lemma prefix_app (p a b : string) :
  String.prefix p a = true -> String.prefix p (a ++ b) = true.
Proof.
  revert a. induction p as [|c p IH]; intros a.
  - intros _. destruct (a ++ b)%string; reflexivity.
  - destruct a as [|c' a]; cbn; [discriminate|].
    destruct (ascii_dec c c'); [apply IH | discriminate].
Qed.

Lemma trimEnd_prefix (s : string) :
  exists t, s = (JsString.trimEnd s ++ t)%string.
Proof.
  induction s as [|c s [t IH]]; [exists ""; reflexivity|].
  cbn. destruct (JsString.trimEnd s) as [|c' u].
  - destruct (JsString.is_white_space c).
    + exists (String c s). reflexivity.
    + exists s. reflexivity.
  - exists t. cbn. rewrite IH at 1. reflexivity.
Qed.

Lemma trimStart_idempotent (s : string) :
  JsString.trimStart (JsString.trimStart s) = JsString.trimStart s.
Proof.
  induction s as [|c s IH]; cbn; [reflexivity|].
  destruct (JsString.is_white_space c) eqn:W; [exact IH|].
  cbn. rewrite W. reflexivity.
Qed.

(** A string whose lower case starts with a word over the command's code
    units starts with a match of the case-insensitive expression. *)
Lemma match_literal_i_lower (pat s : string) :
  (forall p, In p (list_ascii_of_string pat) -> In p command_chars) ->
  String.prefix pat (JsString.toLowerCase s) = true ->
  exists cmd rest,
    s = (cmd ++ rest)%string
    /\ JsString.toLowerCase cmd = pat
    /\ JsString.match_literal_i pat s = Some rest.
Proof.
  revert s. induction pat as [|p pat IH]; intros s C P.
  - exists "", s. repeat split.
  - destruct s as [|c s]; [discriminate P|].
    cbn in P. destruct (ascii_dec p (JsString.lower_char c)) as [E|];
      [|discriminate P].
    destruct (IH s (fun q H => C q (or_intror H)) P)
      as (cmd & rest & -> & L & M).
    exists (String c cmd), rest. cbn. rewrite L, M.
    pose proof (proj1 (command_char_match c p (C p (or_introl eq_refl)))
                  (eq_sym E)) as K.
    rewrite K, <- E. repeat split.
Qed.

(** A message that starts with the command, in any case and with no white
    space in front, gives as prompt the rest of the message without the
    white space around it. *)
Lemma unindented_command_is_cut (message : string) :
  JsString.trimStart message = message ->
  isImageGenerationRequest message = true ->
  exists cmd rest,
    message = (cmd ++ rest)%string
    /\ JsString.toLowerCase cmd = "/image"
    /\ image_prompt message = JsString.trimEnd (JsString.trimStart rest).
Proof.
  intros S I. unfold isImageGenerationRequest, JsString.startsWith,
    JsString.trim in I. rewrite S in I.
  destruct (trimEnd_prefix message) as [t E].
  assert (P : String.prefix "/image" (JsString.toLowerCase message) = true).
  { rewrite E, toLowerCase_app. apply prefix_app. exact I. }
  destruct (match_literal_i_lower "/image" message (fun p H => H) P)
    as (cmd & rest & M & L & R).
  exists cmd, rest. repeat split; try assumption.
  unfold image_prompt, JsString.replace_image_command, JsString.trim.
  rewrite R, trimStart_idempotent. reflexivity.
Qed.

(** ** The prompt of an [/image] request *)

Lemma generate_image_calls (env : Env) (prompt : string) (w : World) :
  exists l,
    snd (generate_image env prompt w)
    = mkWorld (db w) (log w ++ FetchImageGeneration prompt :: l)
    /\ image_requests l = [] /\ inserted_messages l = [].
Proof.
  unfold generate_image, try_catch, bind, call, generateContent, await.
  destruct (fetch_image_generation env) as [e|status [body|e]|[rd|e]];
    cbn; (destruct (generate_fallback env) as [t|e']; cbn) || idtac;
    eexists; (split; [rewrite <- ?app_assoc; reflexivity
                     | split; reflexivity]).
Qed.

(** The user row of an [/image] request is of kind [image_prompt], and the
    prompt sent to the image endpoint is [image_prompt] of the message. *)
Lemma image_request_prompt (env : Env) (ctx : Ctx) (userId : string)
    (input : SendMessageInput.t) (cid : string) (d : Db) :
  caller_identity ctx = Some userId ->
  conversation_resolves env input = Some cid ->
  isImageGenerationRequest (SendMessageInput.message input) = true ->
  image_requests (calls (sendMessage env (request input) ctx) d)
  = [image_prompt (SendMessageInput.message input)]
  /\ Forall (fun m => NewMessage.role m = "user" ->
                      NewMessage.message_type m = "image_prompt")
       (inserted_messages (calls (sendMessage env (request input) ctx) d)).
Proof.
  intros A R I. unfold calls.
  destruct (sendMessage_reaches_generation env ctx userId input cid d A R)
    as (d1 & l0 & M & O & ->).
  destruct (only_conversation_inserts_unseen l0 O) as (_ & O2 & O3 & _).
  unfold bind.
  rewrite (generate_response_image env input userId cid _ I).
  destruct (generate_image_calls env
              (image_prompt (SendMessageInput.message input))
              (mkWorld d1 l0)) as (l & E & L2 & L3).
  destruct (generate_image env _ _) as [[r|e] w1]; cbn in E; subst w1.
  - match goal with
    | |- context [save_messages env ?m userId cid ?g ?w] =>
        destruct (save_messages_effects env m userId cid g w) as [L _]
    end.
    rewrite L. cbn [log Generated.userMessageType].
    unfold image_requests, inserted_messages in *.
    rewrite !flat_map_app. cbn [flat_map app].
    rewrite ?flat_map_app, ?O2, ?O3, ?L2, ?L3.
    destruct (insert_rejects _); cbn;
      (split; [reflexivity | repeat constructor; discriminate]).
  - cbn [snd log]. unfold image_requests, inserted_messages in *.
    rewrite !flat_map_app. cbn [flat_map app].
    rewrite ?flat_map_app, ?O2, ?O3, ?L2, ?L3.
    split; [reflexivity | constructor].
Qed.

(** Without white space in front, the command is cut from the prompt. *)
Example image_prompt_strips_command :
  image_prompt "/Image   a cat " = "a cat"
  /\ image_prompt "/IMAGE" = ""
  /\ image_prompt "/imagery of cats" = "ry of cats".
Proof. repeat split. Qed.

(** C2: the message [  /image a cat] is an image request and its user row is
    of kind [image_prompt], but the prompt sent to the image endpoint still
    starts with the command: the expression that cuts it is anchored at the
    start of the untrimmed message. *)
Theorem indented_command_stays_in_prompt :
  let l := calls (sendMessage fair_weather (request indented_cat_picture)
                    alice) short_conversation in
  isImageGenerationRequest "  /image a cat" = true
  /\ map NewMessage.message_type (inserted_messages l)
     = ["image_prompt"; "image"]
  /\ image_requests l = ["/image a cat"]
  /\ image_requests l <> ["a cat"].
Proof.
  cbv zeta. split; [|split; [|split]].
  - reflexivity.
  - reflexivity.
  - reflexivity.
  - vm_compute. discriminate.
Qed.

(** ** Failures of the two message writes *)

(** A failure of the assistant write, and a rejection of either write, fail
    the request with the cause. *)
Lemma message_write_failures_are_reported (env : Env)
    (message userId cid : string) (g : Generated.t) (w : World)
    (cause : Thrown) :
  insert_user_message env = InsertRejected cause
  \/ (insert_rejects (insert_user_message env) = false
      /\ (insert_ai_message env = Refused cause
          \/ insert_ai_message env = InsertRejected cause)) ->
  fst (save_messages env message userId cid g w)
  = Throw (TRPCError INTERNAL_SERVER_ERROR
             "Failed to save messages to the database." (Some cause)).
Proof.
  unfold save_messages, try_catch, bind, supabase_insert_message, call.
  intros [U|[NU [AI|AI]]].
  - rewrite U. reflexivity.
  - rewrite AI. destruct (insert_user_message env); try discriminate;
      reflexivity.
  - rewrite AI. destruct (insert_user_message env); try discriminate;
      reflexivity.
Qed.

(** The response of the first insert is not looked at. *)
Lemma refused_user_row_is_ignored (env : Env) (message userId cid : string)
    (g : Generated.t) (w : World) (error : Thrown) (id : string) (now : nat) :
  insert_user_message env = Refused error ->
  insert_ai_message env = Stored id now ->
  succeeded (fst (save_messages env message userId cid g w)) = true
  /\ messages (db (snd (save_messages env message userId cid g w)))
     = messages (db w)
         ++ [Message.mk id (Generated.aiResponseContent g) "assistant"
               (Generated.aiMessageType g) userId cid now].
Proof.
  intros U AI.
  unfold save_messages, try_catch, bind, supabase_insert_message, call.
  rewrite U, AI. split; reflexivity.
Qed.

(** C5: the store refuses the user row of an [/image] request and takes the
    assistant row; the request succeeds, and the conversation holds the
    assistant message without the user message it answers. *)
Theorem refused_user_row_goes_unreported :
  let r := sendMessage user_row_refused (request cat_picture) alice in
  insert_user_message user_row_refused
  = Refused (ErrorValue "violates check constraint messages_message_type_check")
  /\ outcome r short_conversation
     = Return (SendMessageOutput.mk
                 (Some (Message.mk "msg-a" "data:image/png;base64,iVBORw0KGgo="
                          "assistant" "image" "auth0|alice" "conv-1" 102))
                 "conv-1")
  /\ messages (db_after r short_conversation)
     = messages short_conversation
         ++ [Message.mk "msg-a" "data:image/png;base64,iVBORw0KGgo="
               "assistant" "image" "auth0|alice" "conv-1" 102].
Proof.
  cbv zeta. split; [|split]; reflexivity.
Qed.

(** ** The empty message *)

(** C9: the empty message passes the input schema and is handled as a
    plain-text request: a conversation titled with the empty string is
    created, the text model is called with one empty turn, and both rows
    are written. *)
Theorem empty_message_is_accepted :
  let r := sendMessage fair_weather (request empty_message) alice in
  sendMessage_input (request empty_message) = Some empty_message
  /\ succeeded (outcome r empty_db) = true
  /\ calls r empty_db
     = [InsertConversation "auth0|alice" "";
        SelectMessages "conv-9" "auth0|alice" (Some 20);
        GenerateContentChat [Content.mk "user" [""]];
        InsertMessage (NewMessage.mk "" "user" "text" "auth0|alice" "conv-9");
        InsertMessage (NewMessage.mk "Hello!" "assistant" "text"
                         "auth0|alice" "conv-9")].
Proof.
  cbv zeta. split; [|split]; reflexivity.
Qed.

(** A [try] block whose handler throws [INTERNAL_SERVER_ERROR] fails with
    no other code. *)
Lemma try_catch_code {A} (m : Async A) (message : string)
    (cause : Thrown -> option Thrown) (w : World) :
  failure_code
    (fst (try_catch m
            (fun error =>
               throw (TRPCError INTERNAL_SERVER_ERROR message (cause error)))
            w))
  <> Some BAD_REQUEST.
Proof.
  unfold try_catch. destruct (m w) as [[a|e] w']; cbn; discriminate.
Qed.

Lemma resolve_conversation_code (env : Env) (userId message : string)
    (conversationId : option string) (w : World) :
  failure_code (fst (resolve_conversation env userId message conversationId w))
  <> Some BAD_REQUEST.
Proof.
  unfold resolve_conversation.
  destruct (if truthy conversationId then conversationId else None).
  - discriminate.
  - apply try_catch_code.
Qed.

Lemma generate_response_code (env : Env) (input : SendMessageInput.t)
    (userId cid : string) (w : World) :
  failure_code (fst (generate_response env input userId cid w))
  <> Some BAD_REQUEST.
Proof. unfold generate_response. apply try_catch_code. Qed.

(** No message fails the schema, and no authenticated request fails with
    [BAD_REQUEST]. *)
Lemma no_message_is_invalid (env : Env) (ctx : Ctx) (userId : string)
    (input : SendMessageInput.t) (d : Db) :
  caller_identity ctx = Some userId ->
  failure_code (outcome (sendMessage env (request input) ctx) d)
  <> Some BAD_REQUEST.
Proof.
  intros A. unfold outcome, run.
  rewrite (sendMessage_authenticated env input ctx userId A).
  unfold bind.
  pose proof (resolve_conversation_code env userId
                (SendMessageInput.message input)
                (SendMessageInput.conversationId input) (mkWorld d [])) as RC.
  destruct (resolve_conversation env userId _ _ _) as [[c|e] w1];
    [|exact RC].
  pose proof (generate_response_code env input userId c w1) as G.
  destruct (generate_response env input userId c w1) as [[g|e] w2];
    [|exact G].
  unfold save_messages. apply try_catch_code.
Qed.

(** * Further properties of the router *)

(** ** The attachment branch *)

Lemma generate_response_attachment (env : Env) (input : SendMessageInput.t)
    (userId cid : string) (w : World) :
  isImageGenerationRequest (SendMessageInput.message input) = false ->
  hasUploadedImage (SendMessageInput.imageBase64 input)
    (SendMessageInput.mimeType input) = true ->
  generate_response env input userId cid w
  = (match generate_image_query env with
     | Fulfilled text => Return (Generated.mk text "text" "image_query")
     | Rejected e =>
         Throw (TRPCError INTERNAL_SERVER_ERROR
                  "Failed to generate AI response" (Some e))
     end,
     mkWorld (db w)
       (log w ++ [GenerateContentImage (SendMessageInput.message input)
                    (interpolate (SendMessageInput.imageBase64 input))
                    (interpolate (SendMessageInput.mimeType input))])).
Proof.
  intros I U. unfold generate_response, try_catch. rewrite I, U.
  unfold bind, generateContent, call, await.
  destruct (generate_image_query env); reflexivity.
Qed.

(** A message with an attachment and without the [/image] command goes to
    the multimodal model alone, with the text and the picture as they came;
    the history of the conversation is not read.  The answer is stored as
    [text] and the question as [image_query]; a failure of the model fails
    the request before anything is written. *)
Theorem attachment_is_asked_about (env : Env) (ctx : Ctx) (userId : string)
    (input : SendMessageInput.t) (cid data mime : string) (d : Db) :
  caller_identity ctx = Some userId ->
  conversation_resolves env input = Some cid ->
  isImageGenerationRequest (SendMessageInput.message input) = false ->
  SendMessageInput.imageBase64 input = Some data ->
  SendMessageInput.mimeType input = Some mime ->
  JsString.truthy data = true ->
  JsString.truthy mime = true ->
  let message := SendMessageInput.message input in
  let l := calls (sendMessage env (request input) ctx) d in
  let result := outcome (sendMessage env (request input) ctx) d in
  filter is_gateway_call l = [GenerateContentImage message data mime]
  /\ filter is_history_read l = []
  /\ (forall text,
        generate_image_query env = Fulfilled text ->
        insert_rejects (insert_user_message env) = false ->
        inserted_messages l
        = [NewMessage.mk message "user" "image_query" userId cid;
           NewMessage.mk text "assistant" "text" userId cid])
  /\ (forall e,
        generate_image_query env = Rejected e ->
        result = Throw (TRPCError INTERNAL_SERVER_ERROR
                          "Failed to generate AI response" (Some e))
        /\ inserted_messages l = []).
Proof.
  intros A R I B M TB TM message l result.
  assert (U : hasUploadedImage (SendMessageInput.imageBase64 input)
                (SendMessageInput.mimeType input) = true).
  { rewrite B, M. unfold hasUploadedImage. cbn. rewrite TB, TM. reflexivity. }
  assert (G : forall w,
             generate_response env input userId cid w
             = (match generate_image_query env with
                | Fulfilled text =>
                    Return (Generated.mk text "text" "image_query")
                | Rejected e =>
                    Throw (TRPCError INTERNAL_SERVER_ERROR
                             "Failed to generate AI response" (Some e))
                end,
                mkWorld (db w)
                  (log w ++ [GenerateContentImage message data mime]))).
  { intros w. rewrite (generate_response_attachment env input userId cid w I U).
    rewrite B, M. reflexivity. }
  assert (RO : reads_only [GenerateContentImage message data mime])
    by repeat constructor.
  destruct (sendMessage_reaches_generation env ctx userId input cid d A R)
    as (d1 & l0 & Md & O & E).
  destruct (only_conversation_inserts_unseen l0 O) as (_ & _ & O3 & O4).
  assert (O5 : filter is_history_read l0 = []).
  { clear - O. induction O as [|c l0 Hc _ IH]; [reflexivity|].
    destruct c; try contradiction. exact IH. }
  subst l result. unfold calls, outcome. rewrite E.
  split; [|split; [|split]].
  - destruct (calls_after_generation env input userId cid _ _ _
                (G (mkWorld d1 l0))) as (l' & L & _ & _ & L4).
    rewrite L. cbn [log]. rewrite !filter_app, O4, L4. reflexivity.
  - unfold bind. rewrite G.
    destruct (generate_image_query env) as [text|e]; cbn [snd log].
    + match goal with
      | |- context [save_messages env ?m userId cid ?g ?w] =>
          destruct (save_messages_effects env m userId cid g w) as [L _]
      end.
      rewrite L. cbn [log]. rewrite !filter_app, O5.
      destruct (insert_rejects _); reflexivity.
    + rewrite filter_app, O5. reflexivity.
  - intros text Q NU.
    assert (G' : forall w,
               generate_response env input userId cid w
               = (Return (Generated.mk text "text" "image_query"),
                  mkWorld (db w)
                    (log w ++ [GenerateContentImage message data mime])))
      by (intros w; rewrite G, Q; reflexivity).
    destruct (generated_response_is_saved env ctx userId input cid d
                _ _ A R G' RO NU) as (H1 & _ & _).
    unfold calls in H1. rewrite E in H1. exact H1.
  - intros e Q. unfold bind. rewrite G, Q. cbn [fst snd log].
    split; [reflexivity|].
    rewrite inserted_messages_app, O3. reflexivity.
Qed.

Lemma attachment_is_asked_about_witness :
  filter is_gateway_call
    (calls (sendMessage fair_weather (request what_is_this) alice)
       short_conversation)
  = [GenerateContentImage "What is in this picture?" "iVBORw0KGgo="
       "image/png"]
  /\ inserted_messages
       (calls (sendMessage fair_weather (request what_is_this) alice)
          short_conversation)
     = [NewMessage.mk "What is in this picture?" "user" "image_query"
          "auth0|alice" "conv-1";
        NewMessage.mk "It shows a cat." "assistant" "text"
          "auth0|alice" "conv-1"].
Proof.
  destruct (attachment_is_asked_about fair_weather alice "auth0|alice"
              what_is_this "conv-1" "iVBORw0KGgo=" "image/png"
              short_conversation
              eq_refl eq_refl eq_refl eq_refl eq_refl eq_refl eq_refl)
    as (G & _ & S & _).
  split; [exact G | exact (S "It shows a cat." eq_refl eq_refl)].
Defined.

(** The [/image] command wins over an attachment: the request runs exactly
    as it would without the attachment. *)
Theorem image_command_ignores_attachment (env : Env) (ctx : Ctx)
    (input : SendMessageInput.t) (w : World) :
  isImageGenerationRequest (SendMessageInput.message input) = true ->
  sendMessage env (request input) ctx w
  = sendMessage env (request (without_attachment input)) ctx w.
Proof.
  intros I. unfold sendMessage, protectedProcedure.
  rewrite !sendMessage_input_request.
  unfold enforceUserIsAuthed.
  destruct (session ctx) as [s|]; [|reflexivity].
  destruct (Session.user s) as [u|]; [|reflexivity].
  unfold sendMessage_resolver.
  destruct (caller_identity _) as [userId|]; [|reflexivity].
  cbn [without_attachment SendMessageInput.message
       SendMessageInput.conversationId].
  unfold bind at 1 3.
  destruct (resolve_conversation env userId _ _ w) as [[cid|e] w1];
    [|reflexivity].
  unfold bind.
  rewrite (generate_response_image env input userId cid w1 I).
  rewrite (generate_response_image env (without_attachment input) userId cid
             w1 I).
  reflexivity.
Qed.

Lemma image_command_ignores_attachment_witness :
  sendMessage fair_weather (request cat_picture_with_upload) alice
    (mkWorld short_conversation [])
  = sendMessage fair_weather (request cat_picture) alice
      (mkWorld short_conversation []).
Proof.
  apply (image_command_ignores_attachment fair_weather alice
           cat_picture_with_upload (mkWorld short_conversation []) eq_refl).
Defined.

(** ** Reading the image-generation response *)

Lemma first_text_truthy (parts : option (list Part.t)) (t : string) :
  first_text parts = Some t -> JsString.truthy t = true.
Proof.
  unfold first_text. destruct parts as [ps|]; [|discriminate].
  destruct (find _ ps) as [part|] eqn:F; [|discriminate].
  apply find_some in F as [_ T]. intros E. rewrite E in T. exact T.
Qed.

Lemma first_image_inlineData (parts : option (list Part.t)) (part : Part.t) :
  first_image parts = Some part -> exists i, Part.inlineData part = Some i.
Proof.
  unfold first_image. destruct parts as [ps|]; [|discriminate].
  intros F. apply find_some in F as [_ T]. unfold is_image_part in T.
  destruct (Part.inlineData part) as [i|]; [exists i; reflexivity|discriminate].
Qed.

(** The three ways the response is read, by what its first candidate
    holds. *)
Lemma read_image_response_cases (responseData : ResponseData.t) :
  let parts := first_candidate_parts responseData in
  read_image_response responseData
  = match first_image parts with
    | Some part =>
        match Part.inlineData part with
        | Some i =>
            (("data:" ++ interpolate (InlineData.mimeType i) ++ ";base64,"
                ++ interpolate (InlineData.data i))%string, "image")
        | None => (unable_to_generate, "text")
        end
    | None =>
        match first_text parts with
        | Some t =>
            if (1000 <? String.length t)
               && JsString.test_base64 (JsString.trim t)
            then (("data:image/png;base64," ++ JsString.trim t)%string,
                  "image")
            else (t, "text")
        | None => (unable_to_generate, "text")
        end
    end.
Proof.
  cbv zeta. unfold read_image_response.
  fold (first_image (first_candidate_parts responseData)).
  fold (first_text (first_candidate_parts responseData)).
  destruct (first_image _) as [part|] eqn:FI.
  - destruct (first_image_inlineData _ _ FI) as [i ->]. reflexivity.
  - destruct (first_text _) as [t|] eqn:FT; [|reflexivity].
    rewrite (first_text_truthy _ _ FT). reflexivity.
Qed.

Lemma startsWith_append (p s : string) :
  JsString.startsWith (p ++ s) p = true.
Proof.
  unfold JsString.startsWith.
  induction p as [|c p IH]; cbn; [destruct s; reflexivity|].
  destruct (ascii_dec c c); [exact IH | congruence].
Qed.


(** An answer without a picture is stored as text: the first non-empty text
    of the answer as it came when it has at most 1000 code units or, trimmed,
    leaves the base64 alphabet, and a fixed apology when there is no text. *)
Theorem answer_without_picture_is_text (env : Env) (ctx : Ctx)
    (userId : string) (input : SendMessageInput.t) (cid : string) (d : Db)
    (responseData : ResponseData.t) :
  caller_identity ctx = Some userId ->
  conversation_resolves env input = Some cid ->
  isImageGenerationRequest (SendMessageInput.message input) = true ->
  fetch_image_generation env = Ok (Fulfilled responseData) ->
  insert_rejects (insert_user_message env) = false ->
  first_image (first_candidate_parts responseData) = None ->
  (forall text,
      first_text (first_candidate_parts responseData) = Some text ->
      String.length text <= 1000
      \/ JsString.test_base64 (JsString.trim text) = false ->
      image_request_persists env ctx userId input cid d text "text")
  /\ (first_text (first_candidate_parts responseData) = None ->
      image_request_persists env ctx userId input cid d
        "I was unable to generate an image. The prompt may have been rejected. Please try again with a different prompt."
        "text").
Proof.
  intros A R I F NU FI.
  pose proof (image_request_answered env ctx userId input cid d responseData
                A R I F NU) as H.
  rewrite read_image_response_cases in H. cbv zeta in H. rewrite FI in H.
  split.
  - intros text FT C. rewrite FT in H.
    assert (E : (1000 <? String.length text)
                && JsString.test_base64 (JsString.trim text) = false).
    { destruct C as [L|B].
      - apply Nat.ltb_ge in L. rewrite L. reflexivity.
      - rewrite B. apply andb_false_r. }
    rewrite E in H. exact H.
  - intros FT. rewrite FT in H. exact H.
Qed.

Lemma answer_without_picture_is_text_witness :
  image_request_persists answers_with_refusal alice "auth0|alice" cat_picture
    "conv-1" short_conversation "I cannot draw that." "text"
  /\ image_request_persists answers_nothing alice "auth0|alice" cat_picture
       "conv-1" short_conversation
       "I was unable to generate an image. The prompt may have been rejected. Please try again with a different prompt."
       "text".
Proof.
  split.
  - apply (proj1 (answer_without_picture_is_text answers_with_refusal alice
                    "auth0|alice" cat_picture "conv-1" short_conversation
                    refusal_response
                    eq_refl eq_refl eq_refl eq_refl eq_refl eq_refl)
             "I cannot draw that." eq_refl).
    left. vm_compute. lia.
  - apply (proj2 (answer_without_picture_is_text answers_nothing alice
                    "auth0|alice" cat_picture "conv-1" short_conversation
                    (ResponseData.mk None)
                    eq_refl eq_refl eq_refl eq_refl eq_refl eq_refl)
             eq_refl).
Defined.

(** ** The two read procedures *)

Section OrderByTotal.
Context {A : Type} (leb : A -> A -> bool).
Hypothesis leb_total : forall a b, leb a b = false -> leb b a = true.

Lemma insert_sorted_permutation (x : A) (l : list A) :
  Permutation (x :: l) (insert_sorted leb x l).
Proof.
  induction l as [|y l IH]; cbn; [reflexivity|].
  destruct (leb x y); [reflexivity|].
  rewrite perm_swap. constructor. exact IH.
Qed.

Lemma order_by_permutation (l : list A) : Permutation l (order_by leb l).
Proof.
  induction l as [|x l IH]; cbn; [constructor|].
  rewrite <- insert_sorted_permutation. constructor. exact IH.
Qed.

Lemma insert_sorted_ordered (x : A) (l : list A) :
  Sorted (fun a b => leb a b = true) l ->
  Sorted (fun a b => leb a b = true) (insert_sorted leb x l).
Proof.
  induction 1 as [|y l S IH H]; cbn.
  - repeat constructor.
  - destruct (leb x y) eqn:L.
    + constructor; [constructor; assumption|]. constructor. exact L.
    + constructor; [exact IH|].
      destruct l as [|z l]; cbn.
      * constructor. apply leb_total. exact L.
      * destruct (leb x z).
        -- constructor. apply leb_total. exact L.
        -- constructor. inversion H. assumption.
Qed.

Lemma order_by_ordered (l : list A) :
  Sorted (fun a b => leb a b = true) (order_by leb l).
Proof.
  induction l as [|x l IH]; cbn; [constructor|].
  apply insert_sorted_ordered. exact IH.
Qed.

End OrderByTotal.

Lemma Permutation_in_iff {A} (x : A) {l l' : list A} :
  Permutation l l' -> (In x l <-> In x l').
Proof.
  intros P. split; intros H;
    [exact (Permutation_in x P H)
    | exact (Permutation_in x (Permutation_sym P) H)].
Qed.

Lemma Sorted_impl {A} (R S : A -> A -> Prop) (l : list A) :
  (forall a b, R a b -> S a b) -> Sorted R l -> Sorted S l.
Proof.
  intros RS. induction 1 as [|x l _ IH H]; constructor; [exact IH|].
  destruct H; constructor. apply RS. assumption.
Qed.

Lemma select_conversations_newest_first (d : Db) (userId : string) :
  Sorted (fun a b => Conversation.created_at b <= Conversation.created_at a)
    (select_conversations d userId)
  /\ Permutation
       (filter (fun c => String.eqb (Conversation.user_id c) userId)
          (conversations d))
       (select_conversations d userId).
Proof.
  unfold select_conversations. split.
  - eapply Sorted_impl; [|apply order_by_ordered].
    + intros a b H. apply Nat.leb_le. exact H.
    + intros a b H. apply Nat.leb_le. apply Nat.leb_gt in H. lia.
  - apply order_by_permutation.
Qed.

Lemma getMessages_authenticated (env : Env) (ctx : Ctx) (userId cid : string) :
  caller_identity ctx = Some userId ->
  getMessages env (JString cid) ctx
  = (r <- supabase_select_messages (select_all_messages env) cid userId None ;;
     match PostgrestResponse.error r with
     | Some _ =>
         throw (TRPCError INTERNAL_SERVER_ERROR "Could not fetch messages."
                  None)
     | None =>
         ret (match PostgrestResponse.data r with
              | Some messages => messages
              | None => []
              end)
     end).
Proof.
  intros H. unfold getMessages, protectedProcedure.
  rewrite (enforceUserIsAuthed_pass ctx userId _ H).
  cbn [getMessages_input z_string].
  unfold getMessages_resolver. rewrite H. reflexivity.
Qed.

Lemma getConversations_authenticated (env : Env) (ctx : Ctx)
    (userId : string) :
  caller_identity ctx = Some userId ->
  getConversations env tt ctx
  = (r <- supabase_select_conversations (select_all_conversations env)
            userId ;;
     match PostgrestResponse.error r with
     | Some _ =>
         throw (TRPCError INTERNAL_SERVER_ERROR
                  "Could not fetch conversations." None)
     | None =>
         ret (match PostgrestResponse.data r with
              | Some conversations => conversations
              | None => []
              end)
     end).
Proof.
  intros H. unfold getConversations, protectedProcedure.
  rewrite (enforceUserIsAuthed_pass ctx userId _ H).
  unfold getConversations_resolver. rewrite H. reflexivity.
Qed.

(** [getMessages] gives every message of the conversation that the caller
    owns, each once and none of anybody else, oldest first and without the
    limit of the context; it changes nothing. *)
Theorem getMessages_lists_the_conversation (env : Env) (ctx : Ctx)
    (userId cid : string) (d : Db) :
  caller_identity ctx = Some userId ->
  select_all_messages env = Rows ->
  exists l,
    outcome (getMessages env (JString cid) ctx) d = Return l
    /\ Sorted (fun a b => Message.created_at a <= Message.created_at b) l
    /\ Permutation
         (filter (fun m => String.eqb (Message.conversation_id m) cid
                           && String.eqb (Message.user_id m) userId)
            (messages d))
         l
    /\ (forall m, In m l <->
                  In m (messages d) /\ Message.conversation_id m = cid
                  /\ Message.user_id m = userId)
    /\ db_after (getMessages env (JString cid) ctx) d = d.
Proof.
  intros A S. exists (prior_messages d cid userId).
  unfold outcome, db_after, run.
  rewrite (getMessages_authenticated env ctx userId cid A).
  unfold bind, supabase_select_messages, call, read_db. rewrite S.
  cbn [fst snd db].
  destruct (prior_messages_sorted d cid userId) as [So P].
  split; [reflexivity|]. split; [exact So|]. split; [exact P|].
  split; [|reflexivity].
  intros m. rewrite <- (Permutation_in_iff m P). unfold messages_of.
  rewrite filter_In, andb_true_iff, !String.eqb_eq. tauto.
Qed.

Lemma getMessages_lists_the_conversation_witness :
  exists l,
    outcome (getMessages fair_weather (JString "conv-1") alice)
      short_conversation = Return l
    /\ (forall m, In m l <->
                  In m (messages short_conversation)
                  /\ Message.conversation_id m = "conv-1"
                  /\ Message.user_id m = "auth0|alice").
Proof.
  destruct (getMessages_lists_the_conversation fair_weather alice
              "auth0|alice" "conv-1" short_conversation eq_refl eq_refl)
    as (l & O & _ & _ & I & _).
  exists l. split; [exact O | exact I].
Defined.

Example getMessages_short_conversation :
  outcome (getMessages fair_weather (JString "conv-1") alice)
    short_conversation
  = Return
      [Message.mk "msg-1" "What is 2+2?" "user" "text"
         "auth0|alice" "conv-1" 1;
       Message.mk "msg-2" "2+2 equals 4." "assistant" "text"
         "auth0|alice" "conv-1" 2;
       Message.mk "msg-3" "data:image/png;base64,AAAA" "assistant" "image"
         "auth0|alice" "conv-1" 3].
Proof. reflexivity. Qed.

(** [getConversations] gives the caller's conversations, each once and none
    of anybody else, newest first; it changes nothing. *)
Theorem getConversations_lists_newest_first (env : Env) (ctx : Ctx)
    (userId : string) (d : Db) :
  caller_identity ctx = Some userId ->
  select_all_conversations env = Rows ->
  exists l,
    outcome (getConversations env tt ctx) d = Return l
    /\ Sorted (fun a b => Conversation.created_at b
                          <= Conversation.created_at a) l
    /\ (forall c, In c l <->
                  In c (conversations d) /\ Conversation.user_id c = userId)
    /\ List.length l
       = List.length
           (filter (fun c => String.eqb (Conversation.user_id c) userId)
              (conversations d))
    /\ db_after (getConversations env tt ctx) d = d.
Proof.
  intros A S. exists (select_conversations d userId).
  unfold outcome, db_after, run.
  rewrite (getConversations_authenticated env ctx userId A).
  unfold bind, supabase_select_conversations, call, read_db. rewrite S.
  cbn [fst snd db].
  destruct (select_conversations_newest_first d userId) as [So P].
  split; [reflexivity|]. split; [exact So|]. split; [|split].
  - intros c. rewrite <- (Permutation_in_iff c P).
    rewrite filter_In, String.eqb_eq. tauto.
  - symmetry. apply Permutation_length. exact P.
  - reflexivity.
Qed.

Lemma getConversations_lists_newest_first_witness :
  exists l,
    outcome (getConversations fair_weather tt alice) two_callers = Return l
    /\ Sorted (fun a b => Conversation.created_at b
                          <= Conversation.created_at a) l
    /\ List.length l = 3.
Proof.
  destruct (getConversations_lists_newest_first fair_weather alice
              "auth0|alice" two_callers eq_refl eq_refl)
    as (l & O & S & _ & L & _).
  exists l. split; [exact O | split; [exact S | exact L]].
Defined.



(** ** The shape of every request *)

Lemma read_image_response_kind (responseData : ResponseData.t) :
  snd (read_image_response responseData) = "image"
  \/ snd (read_image_response responseData) = "text".
Proof.
  rewrite read_image_response_cases. cbv zeta.
  destruct (first_image _) as [part|].
  - destruct (Part.inlineData part); cbn; auto.
  - destruct (first_text _) as [t|]; [|cbn; auto].
    destruct ((1000 <? String.length t) && _); cbn; auto.
Qed.

(** What the generation stage does, whatever the branch: at most two calls,
    none of them a write; a result of the kind the branch gives, or the
    generation failure. *)
Lemma generate_response_run (env : Env) (input : SendMessageInput.t)
    (userId cid : string) (w : World) :
  exists c l,
    generate_response env input userId cid w
    = (c, mkWorld (db w) (log w ++ l))
    /\ reads_only l
    /\ List.length l <= 2
    /\ (forall g, c = Return g ->
                  Generated.userMessageType g = userMessageType_of input
                  /\ (Generated.aiMessageType g = "image"
                      \/ Generated.aiMessageType g = "text"))
    /\ (forall e, c = Throw e ->
                  exists cause,
                    e = TRPCError INTERNAL_SERVER_ERROR
                          "Failed to generate AI response" (Some cause)).
Proof.
  unfold userMessageType_of.
  destruct (isImageGenerationRequest (SendMessageInput.message input)) eqn:I.
  - rewrite (generate_response_image env input userId cid w I).
    destruct (image_generation_raises (fetch_image_generation env)) eqn:F.
    + rewrite (generate_image_raised env _ w F).
      destruct (generate_fallback env) as [text|e]; eexists _, _;
        (split; [reflexivity|]); (split; [repeat constructor|]);
        (split; [cbn; lia|]); split; intros x E; inversion E; subst; cbn;
        eauto.
    + destruct (fetch_image_generation env) as [e|status j|[rd|e]] eqn:F';
        try discriminate F.
      rewrite (generate_image_answered env _ w rd F').
      eexists _, _. split; [reflexivity|]. split; [repeat constructor|].
      split; [cbn; lia|]. split; intros x E; inversion E; subst; cbn.
      split; [reflexivity | apply read_image_response_kind].
  - destruct (hasUploadedImage _ _) eqn:U.
    + rewrite (generate_response_attachment env input userId cid w I U).
      destruct (generate_image_query env) as [text|e]; eexists _, _;
        (split; [reflexivity|]); (split; [repeat constructor|]);
        (split; [cbn; lia|]); split; intros x E; inversion E; subst; cbn;
        eauto.
    + unfold generate_response, try_catch. rewrite I, U.
      unfold bind, load_history, bind, supabase_select_messages, call,
        generateContent, call, await, read_db.
      destruct (JsString.truthy cid).
      * destruct (select_history env) as [|e'| |e']; cbn;
          try (destruct (generate_chat env) as [text|e]; cbn);
          eexists _, _;
          (split; [rewrite <- ?app_assoc; reflexivity|]);
          (split; [repeat constructor|]);
          (split; [cbn; lia|]); split; intros x E; inversion E; subst; cbn;
          eauto.
      * destruct (generate_chat env) as [text|e]; cbn; eexists _, _;
          (split; [reflexivity|]); (split; [repeat constructor|]);
          (split; [cbn; lia|]); split; intros x E; inversion E; subst; cbn;
          eauto.
Qed.

Lemma save_messages_run (env : Env) (message userId cid : string)
    (g : Generated.t) (w : World) :
  let user_row := NewMessage.mk message "user" (Generated.userMessageType g)
                    userId cid in
  let ai_row := NewMessage.mk (Generated.aiResponseContent g) "assistant"
                  (Generated.aiMessageType g) userId cid in
  let failed e := @Throw SendMessageOutput.t
                      (TRPCError INTERNAL_SERVER_ERROR
                         "Failed to save messages to the database."
                         (Some e)) in
  save_messages env message userId cid g w
  = match insert_user_message env with
    | InsertRejected e =>
        (failed e,
         mkWorld (db w) (log w ++ [InsertMessage user_row]))
    | answer =>
        let d1 := match answer with
                  | Stored id now =>
                      mkDb (conversations (db w))
                        (messages (db w) ++ [store_message id now user_row])
                  | _ => db w
                  end in
        let l := log w ++ [InsertMessage user_row; InsertMessage ai_row] in
        match insert_ai_message env with
        | Stored id now =>
            (Return (SendMessageOutput.mk
                       (Some (store_message id now ai_row)) cid),
             mkWorld (mkDb (conversations d1)
                        (messages d1 ++ [store_message id now ai_row])) l)
        | Refused e => (failed e, mkWorld d1 l)
        | NoRow => (Return (SendMessageOutput.mk None cid), mkWorld d1 l)
        | InsertRejected e => (failed e, mkWorld d1 l)
        end
    end.
Proof.
  cbv zeta.
  unfold save_messages, try_catch, bind, supabase_insert_message, call,
    read_db, write_db.
  destruct (insert_user_message env); cbn;
    try (destruct (insert_ai_message env); cbn);
    rewrite <- ?app_assoc; reflexivity.
Qed.

(** A request whose conversation the store does not create ends with that
    failure, after the one insert. *)
Lemma sendMessage_unresolved (env : Env) (ctx : Ctx) (userId : string)
    (input : SendMessageInput.t) (d : Db) :
  caller_identity ctx = Some userId ->
  conversation_resolves env input = None ->
  exists cause,
    run (sendMessage env (request input) ctx) d
    = (Throw (TRPCError INTERNAL_SERVER_ERROR "Failed to create conversation"
                (Some cause)),
       mkWorld d [InsertConversation userId
                    (JsString.substring0 50 (SendMessageInput.message input))])
    /\ (forall s, cause <> ErrorValue s).
Proof.
  intros A R. unfold run.
  rewrite (sendMessage_authenticated env input ctx userId A).
  unfold conversation_resolves in R.
  destruct (truthy (SendMessageInput.conversationId input)) eqn:T.
  - destruct (SendMessageInput.conversationId input); discriminate.
  - unfold bind at 1. unfold resolve_conversation. rewrite T.
    unfold try_catch, bind, supabase_insert_conversation, call.
    destruct (insert_conversation env) as [id now|e| |e]; try discriminate R;
      cbn; eexists; (split; [reflexivity|]);
      try (destruct e; discriminate); discriminate.
Qed.

(** A request whose conversation is at hand: the insert of the conversation
    if it was created, the calls of the generation stage, and the writes. *)
Lemma sendMessage_run (env : Env) (ctx : Ctx) (userId : string)
    (input : SendMessageInput.t) (cid : string) (d : Db) :
  caller_identity ctx = Some userId ->
  conversation_resolves env input = Some cid ->
  exists d1 l0 c l,
    messages d1 = messages d
    /\ (truthy (SendMessageInput.conversationId input) = true
        /\ l0 = [] /\ d1 = d
        \/ exists now,
             insert_conversation env = Stored cid now
             /\ truthy (SendMessageInput.conversationId input) = false
             /\ l0 = [InsertConversation userId
                        (JsString.substring0 50
                           (SendMessageInput.message input))]
             /\ d1 = mkDb (conversations d
                             ++ [Conversation.mk cid
                                   (JsString.substring0 50
                                      (SendMessageInput.message input))
                                   userId now now])
                          (messages d))
    /\ generate_response env input userId cid (mkWorld d1 l0)
       = (c, mkWorld d1 (l0 ++ l))
    /\ reads_only l /\ List.length l <= 2
    /\ (forall g, c = Return g ->
                  Generated.userMessageType g = userMessageType_of input
                  /\ (Generated.aiMessageType g = "image"
                      \/ Generated.aiMessageType g = "text"))
    /\ (forall e, c = Throw e ->
                  exists cause,
                    e = TRPCError INTERNAL_SERVER_ERROR
                          "Failed to generate AI response" (Some cause))
    /\ run (sendMessage env (request input) ctx) d
       = match c with
         | Return g =>
             save_messages env (SendMessageInput.message input) userId cid g
               (mkWorld d1 (l0 ++ l))
         | Throw e => (Throw e, mkWorld d1 (l0 ++ l))
         end.
Proof.
  intros A R. unfold run.
  rewrite (sendMessage_authenticated env input ctx userId A).
  unfold conversation_resolves in R. unfold bind at 1.
  assert (K : forall d1 l0,
             exists c l,
               generate_response env input userId cid (mkWorld d1 l0)
               = (c, mkWorld d1 (l0 ++ l))
               /\ reads_only l /\ List.length l <= 2
               /\ (forall g, c = Return g ->
                     Generated.userMessageType g = userMessageType_of input
                     /\ (Generated.aiMessageType g = "image"
                         \/ Generated.aiMessageType g = "text"))
               /\ (forall e, c = Throw e ->
                     exists cause,
                       e = TRPCError INTERNAL_SERVER_ERROR
                             "Failed to generate AI response" (Some cause))
               /\ (g <- generate_response env input userId cid ;;
                   save_messages env (SendMessageInput.message input) userId
                     cid g) (mkWorld d1 l0)
                  = match c with
                    | Return g =>
                        save_messages env (SendMessageInput.message input)
                          userId cid g (mkWorld d1 (l0 ++ l))
                    | Throw e => (Throw e, mkWorld d1 (l0 ++ l))
                    end).
  { intros d1 l0.
    destruct (generate_response_run env input userId cid (mkWorld d1 l0))
      as (c & l & G & RO & B & KG & KE).
    exists c, l. repeat (split; [assumption|]).
    unfold bind. rewrite G. destruct c; reflexivity. }
  destruct (truthy (SendMessageInput.conversationId input)) eqn:T.
  - destruct (resolve_conversation_supplied env userId
                (SendMessageInput.message input) _ (mkWorld d []) T)
      as (cid' & E & ->).
    rewrite E in R. injection R as ->.
    destruct (K d []) as (c & l & G & RO & B & KG & KE & Eq).
    exists d, [], c, l. split; [reflexivity|].
    split; [left; auto|].
    repeat (split; [assumption|]). exact Eq.
  - destruct (insert_conversation env) as [id now|e| |e] eqn:S;
      try discriminate.
    injection R as ->.
    rewrite (resolve_conversation_created env userId _ _ cid now _ T S).
    cbn [db log app].
    match goal with
    | |- context [mkWorld ?d1 ?l0] =>
        destruct (K d1 l0) as (c & l & G & RO & B & KG & KE & Eq);
        exists d1, l0, c, l
    end.
    split; [reflexivity|]. split; [right; exists now; auto|].
    repeat (split; [assumption|]). exact Eq.
Qed.

Lemma reads_only_filter_writes (l : list Call) :
  reads_only l -> filter is_write l = [].
Proof.
  induction 1 as [|c l Hc _ IH]; [reflexivity|]. cbn. rewrite Hc. exact IH.
Qed.

Lemma filter_length_le {A} (f : A -> bool) (l : list A) :
  List.length (filter f l) <= List.length l.
Proof.
  induction l as [|x l IH]; cbn; [lia|]. destruct (f x); cbn; lia.
Qed.

(** The message rows of a request are the user row alone or the user row and
    then the assistant row.  The user row holds the message as it came, with
    the kind of the branch taken; both rows carry the caller and the
    conversation of the request. *)
Theorem message_rows_are_a_pair (env : Env) (ctx : Ctx) (userId : string)
    (input : SendMessageInput.t) (d : Db) :
  caller_identity ctx = Some userId ->
  let rows := inserted_messages (calls (sendMessage env (request input) ctx) d)
  in
  rows = []
  \/ exists cid,
       conversation_resolves env input = Some cid
       /\ let user_row :=
            NewMessage.mk (SendMessageInput.message input) "user"
              (userMessageType_of input) userId cid in
          rows = [user_row]
          \/ exists content kind,
               (kind = "image" \/ kind = "text")
               /\ rows = [user_row;
                          NewMessage.mk content "assistant" kind userId cid].
Proof.
  intros A rows. subst rows. unfold calls.
  destruct (conversation_resolves env input) as [cid|] eqn:R.
  - destruct (sendMessage_run env ctx userId input cid d A R)
      as (d1 & l0 & c & l & M & L0 & G & RO & B & KG & KE & ->).
    assert (O : inserted_messages l0 = [])
      by (destruct L0 as [(_ & -> & _)|(now & _ & _ & -> & _)]; reflexivity).
    destruct (reads_only_no_inserts l RO) as [_ RM].
    destruct c as [g|e].
    + right. exists cid. split; [reflexivity|]. cbv zeta.
      destruct (save_messages_effects env (SendMessageInput.message input)
                  userId cid g (mkWorld d1 (l0 ++ l))) as [L _].
      rewrite L. cbn [log]. rewrite !inserted_messages_app, O, RM.
      destruct (KG g eq_refl) as [KU KA]. rewrite KU.
      destruct (insert_rejects _); cbn; [left; reflexivity|].
      right. exists (Generated.aiResponseContent g),
               (Generated.aiMessageType g).
      split; [exact KA | reflexivity].
    + left. cbn [snd log]. rewrite inserted_messages_app, O, RM. reflexivity.
  - left. destruct (sendMessage_unresolved env ctx userId input d A R)
      as (cause & -> & _). reflexivity.
Qed.

Lemma message_rows_are_a_pair_witness :
  inserted_messages
    (calls (sendMessage fair_weather (request hello) alice)
       short_conversation) = []
  \/ exists cid,
       conversation_resolves fair_weather hello = Some cid
       /\ (inserted_messages
             (calls (sendMessage fair_weather (request hello) alice)
                short_conversation)
           = [NewMessage.mk "Hello, AI!" "user" "text" "auth0|alice" cid]
           \/ exists content kind,
                (kind = "image" \/ kind = "text")
                /\ inserted_messages
                     (calls (sendMessage fair_weather (request hello) alice)
                        short_conversation)
                   = [NewMessage.mk "Hello, AI!" "user" "text" "auth0|alice"
                        cid;
                      NewMessage.mk content "assistant" kind "auth0|alice"
                        cid]).
Proof.
  exact (message_rows_are_a_pair fair_weather alice "auth0|alice" hello
           short_conversation eq_refl).
Defined.

(** No request makes more than five calls: at most one insert of a
    conversation, two calls of the gateway and two inserts of messages.
    Nothing is tried twice. *)
Theorem request_makes_at_most_five_calls (env : Env) (ctx : Ctx)
    (userId : string) (input : SendMessageInput.t) (d : Db) :
  caller_identity ctx = Some userId ->
  let l := calls (sendMessage env (request input) ctx) d in
  List.length l <= 5
  /\ List.length (inserted_conversations l) <= 1
  /\ List.length (filter is_gateway_call l) <= 2
  /\ List.length (inserted_messages l) <= 2.
Proof.
  intros A l. subst l. unfold calls.
  destruct (conversation_resolves env input) as [cid|] eqn:R.
  - destruct (sendMessage_run env ctx userId input cid d A R)
      as (d1 & l0 & c & l & M & L0 & G & RO & B & KG & KE & ->).
    assert (O : List.length l0 <= 1
                /\ inserted_messages l0 = []
                /\ filter is_gateway_call l0 = []
                /\ List.length (inserted_conversations l0) <= 1)
      by (destruct L0 as [(_ & -> & _)|(now & _ & _ & -> & _)]; cbn;
          repeat split; lia).
    destruct O as (O1 & O2 & O3 & O4).
    destruct (reads_only_no_inserts l RO) as [RC RM].
    pose proof (filter_length_le is_gateway_call l) as FL.
    destruct c as [g|e].
    + destruct (save_messages_effects env (SendMessageInput.message input)
                  userId cid g (mkWorld d1 (l0 ++ l))) as [L _].
      rewrite L. cbn [log].
      rewrite !inserted_conversations_app, !inserted_messages_app,
        !filter_app, !length_app, O2, O3, RC, RM.
      destruct (insert_rejects _); cbn; repeat split; lia.
    + cbn [snd log].
      rewrite !inserted_conversations_app, !inserted_messages_app,
        !filter_app, !length_app, O2, O3, RC, RM.
      cbn. repeat split; lia.
  - destruct (sendMessage_unresolved env ctx userId input d A R)
      as (cause & -> & _). cbn. repeat split; lia.
Qed.

Lemma request_makes_at_most_five_calls_witness :
  List.length (calls (sendMessage image_endpoint_down (request new_chat) alice)
                 empty_db) <= 5.
Proof.
  exact (proj1 (request_makes_at_most_five_calls image_endpoint_down alice
                  "auth0|alice" new_chat empty_db eq_refl)).
Defined.

Example request_can_make_five_calls :
  List.length
    (calls (sendMessage image_endpoint_down
              (request (SendMessageInput.mk "/image a cat" None None None))
              alice) empty_db) = 5.
Proof. reflexivity. Qed.

(** ** Failures and what they leave behind *)

Lemma save_messages_failure_message (env : Env) (message userId cid : string)
    (g : Generated.t) (w : World) :
  failure_message (fst (save_messages env message userId cid g w))
  <> Some "Failed to generate AI response".
Proof.
  rewrite save_messages_run. cbv zeta.
  destruct (insert_user_message env); try (cbn; discriminate);
    destruct (insert_ai_message env); cbn; discriminate.
Qed.

(** A request that fails in the generation stage writes no message and
    changes no message; a conversation it created before stays in the store,
    empty. *)
Theorem failed_generation_writes_no_message (env : Env) (ctx : Ctx)
    (userId : string) (input : SendMessageInput.t) (d : Db) :
  caller_identity ctx = Some userId ->
  failure_message (outcome (sendMessage env (request input) ctx) d)
  = Some "Failed to generate AI response" ->
  let l := calls (sendMessage env (request input) ctx) d in
  let d' := db_after (sendMessage env (request input) ctx) d in
  inserted_messages l = []
  /\ messages d' = messages d
  /\ (truthy (SendMessageInput.conversationId input) = true ->
      conversations d' = conversations d)
  /\ (truthy (SendMessageInput.conversationId input) = false ->
      exists id now,
        insert_conversation env = Stored id now
        /\ conversations d'
           = conversations d
               ++ [Conversation.mk id
                     (JsString.substring0 50 (SendMessageInput.message input))
                     userId now now]).
Proof.
  intros A F l d'. subst l d'. unfold calls, db_after, outcome in *.
  destruct (conversation_resolves env input) as [cid|] eqn:R.
  - destruct (sendMessage_run env ctx userId input cid d A R)
      as (d1 & l0 & c & l & M & L0 & G & RO & B & KG & KE & E).
    rewrite E in *. destruct c as [g|e].
    + exfalso. exact (save_messages_failure_message env _ userId cid g _ F).
    + cbn [fst snd log db].
      destruct (reads_only_no_inserts l RO) as [_ RM].
      rewrite inserted_messages_app, RM, app_nil_r.
      destruct L0 as [(T & -> & ->)|(now & S & T & -> & ->)].
      * repeat split. rewrite T. discriminate.
      * cbn. repeat split.
        -- rewrite T. discriminate.
        -- intros _. exists cid, now. split; [exact S | reflexivity].
  - destruct (sendMessage_unresolved env ctx userId input d A R)
      as (cause & E & _).
    rewrite E in F. discriminate F.
Qed.

Lemma failed_generation_writes_no_message_witness :
  inserted_messages
    (calls (sendMessage chat_down (request new_chat) alice) empty_db) = []
  /\ conversations
       (db_after (sendMessage chat_down (request new_chat) alice) empty_db)
     = [Conversation.mk "conv-9"
          "Tell me a long story about a cat who sails across "
          "auth0|alice" 100 100].
Proof.
  destruct (failed_generation_writes_no_message chat_down alice "auth0|alice"
              new_chat empty_db eq_refl eq_refl) as (I & _ & _ & C).
  split; [exact I|].
  destruct (C eq_refl) as (id & now & S & E).
  injection S as <- <-. exact E.
Defined.

(** With a [conversationId] the request touches no conversation: it neither
    creates one nor looks the given one up.  Its message rows, and its
    result, carry the id as it was given. *)
Theorem supplied_conversation_is_taken_as_given (env : Env) (ctx : Ctx)
    (userId : string) (input : SendMessageInput.t) (cid : string) (d : Db) :
  caller_identity ctx = Some userId ->
  SendMessageInput.conversationId input = Some cid ->
  JsString.truthy cid = true ->
  let l := calls (sendMessage env (request input) ctx) d in
  filter is_conversation_call l = []
  /\ conversations (db_after (sendMessage env (request input) ctx) d)
     = conversations d
  /\ Forall (fun m => NewMessage.conversation_id m = cid)
       (inserted_messages l)
  /\ (forall out,
        outcome (sendMessage env (request input) ctx) d = Return out ->
        SendMessageOutput.conversationId out = cid).
Proof.
  intros A C T l. subst l. unfold calls, db_after, outcome.
  assert (R : conversation_resolves env input = Some cid).
  { unfold conversation_resolves. rewrite C. cbn. rewrite T. reflexivity. }
  destruct (sendMessage_run env ctx userId input cid d A R)
    as (d1 & l0 & c & l & M & L0 & G & RO & B & KG & KE & ->).
  destruct L0 as [(_ & -> & ->)|(now & _ & F & _)];
    [|rewrite C in F; cbn in F; rewrite T in F; discriminate F].
  assert (RC : filter is_conversation_call l = []).
  { clear - G. revert G.
    unfold generate_response, try_catch, bind, generate_image, try_catch,
      bind, load_history, bind, supabase_select_messages, call,
      generateContent, call, await, read_db.
    destruct (isImageGenerationRequest _);
      [|destruct (hasUploadedImage _ _);
        [|destruct (JsString.truthy cid); [destruct (select_history env)|]]];
      try (destruct (fetch_image_generation env) as [?|? [?|?]|[?|?]]);
      try (destruct (generate_fallback env));
      try (destruct (generate_image_query env));
      try (destruct (generate_chat env));
      cbn; intros E; injection E as _ <-; reflexivity. }
  destruct (reads_only_no_inserts l RO) as [_ RM].
  destruct c as [g|e].
  - rewrite save_messages_run. cbv zeta.
    destruct (insert_user_message env); destruct (insert_ai_message env);
      cbn [fst snd log db conversations app];
      rewrite ?filter_app, ?inserted_messages_app, ?RC, ?RM;
      (split; [reflexivity|]); (split; [reflexivity|]);
      (split; [repeat constructor|]);
      intros out E; inversion E; reflexivity.
  - cbn [fst snd log db app]. rewrite RC, RM.
    split; [reflexivity|]. split; [reflexivity|].
    split; [constructor|]. intros out E. discriminate E.
Qed.

Lemma supplied_conversation_is_taken_as_given_witness :
  filter is_conversation_call
    (calls (sendMessage fair_weather (request hello) alice) empty_db) = []
  /\ Forall (fun m => NewMessage.conversation_id m = "conv-1")
       (inserted_messages
          (calls (sendMessage fair_weather (request hello) alice) empty_db)).
Proof.
  destruct (supplied_conversation_is_taken_as_given fair_weather alice
              "auth0|alice" hello "conv-1" empty_db eq_refl eq_refl eq_refl)
    as (F & _ & I & _).
  split; [exact F | exact I].
Defined.

(** When the store does not create the conversation, the request fails with
    [INTERNAL_SERVER_ERROR] and [Failed to create conversation]; the cause
    is an instance of [Error] whatever the store gave.  The insert was the
    only call: the gateway is not asked and the store is as it was. *)
Theorem conversation_not_created_fails_the_request (env : Env) (ctx : Ctx)
    (userId : string) (input : SendMessageInput.t) (d : Db) :
  caller_identity ctx = Some userId ->
  truthy (SendMessageInput.conversationId input) = false ->
  (forall id now, insert_conversation env <> Stored id now) ->
  exists cause,
    outcome (sendMessage env (request input) ctx) d
    = Throw (TRPCError INTERNAL_SERVER_ERROR "Failed to create conversation"
               (Some cause))
    /\ (forall s, cause <> ErrorValue s)
    /\ calls (sendMessage env (request input) ctx) d
       = [InsertConversation userId
            (JsString.substring0 50 (SendMessageInput.message input))]
    /\ db_after (sendMessage env (request input) ctx) d = d.
Proof.
  intros A T S.
  assert (R : conversation_resolves env input = None).
  { unfold conversation_resolves. rewrite T.
    destruct (insert_conversation env) as [id now| | |]; try reflexivity.
    exfalso. apply (S id now). reflexivity. }
  destruct (sendMessage_unresolved env ctx userId input d A R)
    as (cause & E & C).
  exists cause. unfold outcome, calls, db_after. rewrite E.
  repeat split. exact C.
Qed.

Lemma conversation_not_created_fails_the_request_witness :
  exists cause,
    outcome (sendMessage conversation_refused (request new_chat) alice)
      empty_db
    = Throw (TRPCError INTERNAL_SERVER_ERROR "Failed to create conversation"
               (Some cause))
    /\ (forall s, cause <> ErrorValue s).
Proof.
  destruct (conversation_not_created_fails_the_request conversation_refused
              alice "auth0|alice" new_chat empty_db eq_refl eq_refl)
    as (cause & O & C & _).
  - intros id now. discriminate.
  - exists cause. split; [exact O | exact C].
Defined.

Example conversation_refused_cause :
  outcome (sendMessage conversation_refused (request new_chat) alice) empty_db
  = Throw (TRPCError INTERNAL_SERVER_ERROR "Failed to create conversation"
             (Some (ErrorObject "42501: row-level security"))).
Proof. reflexivity. Qed.

(** When the read of the history rejects, unlike when it answers with an
    error, the request fails with the rejection as cause: the model is not
    asked and nothing is written. *)
Theorem rejected_history_read_fails_the_request (env : Env) (ctx : Ctx)
    (userId : string) (input : SendMessageInput.t) (cid : string) (d : Db)
    (e : Thrown) :
  caller_identity ctx = Some userId ->
  conversation_resolves env input = Some cid ->
  JsString.truthy cid = true ->
  isImageGenerationRequest (SendMessageInput.message input) = false ->
  hasUploadedImage (SendMessageInput.imageBase64 input)
    (SendMessageInput.mimeType input) = false ->
  select_history env = SelectRejected e ->
  outcome (sendMessage env (request input) ctx) d
  = Throw (TRPCError INTERNAL_SERVER_ERROR "Failed to generate AI response"
             (Some e))
  /\ filter is_gateway_call (calls (sendMessage env (request input) ctx) d)
     = []
  /\ inserted_messages (calls (sendMessage env (request input) ctx) d) = [].
Proof.
  intros A R T I U S. unfold outcome, calls.
  destruct (sendMessage_reaches_generation env ctx userId input cid d A R)
    as (d1 & l0 & M & O & ->).
  destruct (only_conversation_inserts_unseen l0 O) as (_ & _ & O3 & O4).
  unfold generate_response, try_catch. rewrite I, U.
  unfold load_history. rewrite T.
  unfold supabase_select_messages. rewrite S.
  cbn. rewrite filter_app, inserted_messages_app, O3, O4. repeat split.
Qed.

Lemma rejected_history_read_fails_the_request_witness :
  outcome (sendMessage history_read_rejects (request hello) alice)
    short_conversation
  = Throw (TRPCError INTERNAL_SERVER_ERROR "Failed to generate AI response"
             (Some (ErrorObject "fetch failed"))).
Proof.
  exact (proj1 (rejected_history_read_fails_the_request history_read_rejects
                  alice "auth0|alice" hello "conv-1" short_conversation
                  (ErrorObject "fetch failed")
                  eq_refl eq_refl eq_refl eq_refl eq_refl eq_refl)).
Defined.



(** ** The size of the context *)

Lemma generate_response_chat (env : Env) (input : SendMessageInput.t)
    (userId cid : string) (w : World) (c : Completion Generated.t)
    (l : list Call) :
  generate_response env input userId cid w = (c, mkWorld (db w) (log w ++ l)) ->
  chat_requests l = []
  \/ exists h,
       (h = [] \/ h = select_messages (db w) cid userId (Some 20))
       /\ chat_requests l
          = [conversationParts h (SendMessageInput.message input)].
Proof.
  unfold generate_response, try_catch, bind, generate_image, try_catch,
    bind, load_history, bind, supabase_select_messages, call,
    generateContent, call, await, read_db.
  destruct (isImageGenerationRequest _);
    [|destruct (hasUploadedImage _ _);
      [|destruct (JsString.truthy cid); [destruct (select_history env)|]]];
    try (destruct (fetch_image_generation env) as [?|? [?|?]|[?|?]]);
    try (destruct (generate_fallback env));
    try (destruct (generate_image_query env));
    try (destruct (generate_chat env));
    cbn; rewrite <- ?app_assoc; intros E; injection E as _ E;
    apply app_inv_head in E; subst l;
    first [ left; reflexivity
          | right; exists []; split; [left; reflexivity | reflexivity]
          | right; eexists; split; [right; reflexivity | reflexivity] ].
Qed.

Lemma turn_of_shape (l : list Message.t) :
  Forall (fun c => (Content.role c = "user" \/ Content.role c = "model")
                   /\ exists t, Content.parts c = [t])
    (map turn_of l).
Proof.
  induction l as [|m l IH]; cbn; constructor; [|exact IH].
  unfold turn_of. cbn. split; [|eexists; reflexivity].
  destruct (String.eqb _ "user"); auto.
Qed.

(** The text model is asked at most once per request, with at most 20 turns
    of history before the new message.  Every turn has the role ["user"] or
    ["model"] and one part of text. *)
Theorem context_is_bounded (env : Env) (ctx : Ctx) (userId : string)
    (input : SendMessageInput.t) (d : Db) :
  caller_identity ctx = Some userId ->
  let asked := chat_requests (calls (sendMessage env (request input) ctx) d) in
  asked = []
  \/ exists turns,
       asked = [turns ++ [Content.mk "user" [SendMessageInput.message input]]]
       /\ List.length turns <= 20
       /\ Forall (fun c => (Content.role c = "user"
                            \/ Content.role c = "model")
                           /\ exists t, Content.parts c = [t]) turns.
Proof.
  intros A asked. subst asked. unfold calls.
  destruct (conversation_resolves env input) as [cid|] eqn:R.
  - destruct (sendMessage_run env ctx userId input cid d A R)
      as (d1 & l0 & c & l & M & L0 & G & RO & B & KG & KE & ->).
    assert (O : chat_requests l0 = [])
      by (destruct L0 as [(_ & -> & _)|(now & _ & _ & -> & _)]; reflexivity).
    assert (S : chat_requests
                  (log (snd match c with
                            | Return g =>
                                save_messages env
                                  (SendMessageInput.message input) userId cid
                                  g (mkWorld d1 (l0 ++ l))
                            | Throw e => (Throw e, mkWorld d1 (l0 ++ l))
                            end))
                = chat_requests l).
    { destruct c as [g|e].
      - destruct (save_messages_effects env (SendMessageInput.message input)
                    userId cid g (mkWorld d1 (l0 ++ l))) as [L _].
        rewrite L. cbn [log]. unfold chat_requests in *.
        rewrite !flat_map_app, O. cbn.
        destruct (insert_rejects _); cbn; rewrite app_nil_r; reflexivity.
      - cbn [snd log]. unfold chat_requests in *.
        rewrite flat_map_app, O. reflexivity. }
    rewrite S.
    destruct (generate_response_chat env input userId cid _ _ _ G)
      as [E|(h & H & E)]; [left; exact E|].
    right. rewrite E, conversationParts_turns.
    exists (map turn_of (filter is_text h)).
    split; [reflexivity|]. split; [|apply turn_of_shape].
    rewrite length_map.
    pose proof (filter_length_le is_text h) as FL.
    destruct H as [-> | ->]; [cbn in *; lia|].
    rewrite select_messages_limit in FL |- *.
    pose proof (firstn_le_length 20
                  (prior_messages (db (mkWorld d1 l0)) cid userId)).
    lia.
  - left. destruct (sendMessage_unresolved env ctx userId input d A R)
      as (cause & -> & _). reflexivity.
Qed.

Lemma context_is_bounded_witness :
  chat_requests
    (calls (sendMessage fair_weather (request hello) alice) long_conversation)
  = []
  \/ exists turns,
       chat_requests
         (calls (sendMessage fair_weather (request hello) alice)
            long_conversation)
       = [turns ++ [Content.mk "user" ["Hello, AI!"]]]
       /\ List.length turns <= 20
       /\ Forall (fun c => (Content.role c = "user"
                            \/ Content.role c = "model")
                           /\ exists t, Content.parts c = [t]) turns.
Proof.
  exact (context_is_bounded fair_weather alice "auth0|alice" hello
           long_conversation eq_refl).
Defined.

(** ** Reading back what was written *)

Section OrderBySnoc.
Context {A : Type} (key : A -> nat).

Let leb (a b : A) : bool := key a <=? key b.

Lemma insert_sorted_snoc (y x : A) (s : list A) :
  key y <= key x ->
  insert_sorted leb y (s ++ [x]) = insert_sorted leb y s ++ [x].
Proof.
  intros L. induction s as [|z s IH]; cbn.
  - unfold leb. apply Nat.leb_le in L. rewrite L. reflexivity.
  - destruct (leb y z); [reflexivity|]. rewrite IH. reflexivity.
Qed.

(** A row that is not older than any other is read last. *)
Lemma order_by_snoc (l : list A) (x : A) :
  (forall y, In y l -> key y <= key x) ->
  order_by leb (l ++ [x]) = order_by leb l ++ [x].
Proof.
  induction l as [|y l IH]; intros H; [reflexivity|].
  cbn. rewrite IH by (intros z Hz; apply H; right; exact Hz).
  apply insert_sorted_snoc. apply H. left. reflexivity.
Qed.

End OrderBySnoc.

Lemma getMessages_rows (env : Env) (ctx : Ctx) (userId cid : string) (d : Db) :
  caller_identity ctx = Some userId ->
  select_all_messages env = Rows ->
  run (getMessages env (JString cid) ctx) d
  = (Return (prior_messages d cid userId),
     mkWorld d [SelectMessages cid userId None]).
Proof.
  intros A S. unfold run.
  rewrite (getMessages_authenticated env ctx userId cid A).
  unfold bind, supabase_select_messages, call, read_db. rewrite S.
  reflexivity.
Qed.

(** A request that succeeds with both rows stored returns the assistant row
    as stored, and [getMessages] for the conversation then gives what it gave
    before, followed by the user row and the assistant row, with the content,
    role and kind they were written with. *)
Theorem written_messages_are_read_back (env env' : Env) (ctx : Ctx)
    (userId : string) (input : SendMessageInput.t) (cid : string) (d : Db)
    (user_id ai_id : string) (user_time ai_time : nat) :
  caller_identity ctx = Some userId ->
  conversation_resolves env input = Some cid ->
  insert_user_message env = Stored user_id user_time ->
  insert_ai_message env = Stored ai_id ai_time ->
  succeeded (outcome (sendMessage env (request input) ctx) d) = true ->
  select_all_messages env' = Rows ->
  (forall m, In m (messages d) -> Message.created_at m <= user_time) ->
  user_time <= ai_time ->
  exists content kind before,
    let user_row := Message.mk user_id (SendMessageInput.message input)
                      "user" (userMessageType_of input) userId cid
                      user_time in
    let ai_row := Message.mk ai_id content "assistant" kind userId cid
                    ai_time in
    outcome (sendMessage env (request input) ctx) d
    = Return (SendMessageOutput.mk (Some ai_row) cid)
    /\ outcome (getMessages env' (JString cid) ctx) d = Return before
    /\ outcome (getMessages env' (JString cid) ctx)
         (db_after (sendMessage env (request input) ctx) d)
       = Return (before ++ [user_row; ai_row]).
Proof.
  intros A R SU SA OK S' T1 T2. unfold outcome, db_after in *.
  destruct (sendMessage_run env ctx userId input cid d A R)
    as (d1 & l0 & c & l & M & L0 & G & RO & B & KG & KE & E).
  rewrite E in *. clear E. destruct c as [g|x]; [|discriminate OK].
  destruct (KG g eq_refl) as [KU _].
  exists (Generated.aiResponseContent g), (Generated.aiMessageType g),
    (prior_messages d cid userId).
  cbv zeta. rewrite save_messages_run. cbv zeta. rewrite SU, SA.
  cbn [fst snd db]. rewrite KU.
  split; [reflexivity|].
  rewrite !(getMessages_rows env' ctx userId cid _ A S').
  cbn [fst]. split; [reflexivity|]. f_equal.
  unfold prior_messages, messages_of.
  cbn [messages]. rewrite M, <- app_assoc, filter_app.
  cbn [filter store_message NewMessage.conversation_id NewMessage.user_id
       Message.conversation_id Message.user_id app].
  rewrite !String.eqb_refl. cbn [andb].
  set (own := filter _ (messages d)).
  assert (Own : forall m, In m own -> Message.created_at m <= user_time).
  { intros m H. apply T1. subst own. apply filter_In in H. tauto. }
  change (own ++ [?u; ?a]) with (own ++ [u] ++ [a]).
  rewrite app_assoc.
  rewrite (order_by_snoc Message.created_at).
  - match goal with
    | |- context [order_by _ (own ++ [?u])] =>
        rewrite (order_by_snoc Message.created_at own u Own)
    end.
    rewrite <- app_assoc. reflexivity.
  - intros y H. apply in_app_or in H as [H|[<-|[]]]; cbn.
    + specialize (Own y H). lia.
    + exact T2.
Qed.

Lemma written_messages_are_read_back_witness :
  exists content kind before,
    outcome (sendMessage fair_weather (request hello) alice)
      short_conversation
    = Return (SendMessageOutput.mk
                (Some (Message.mk "msg-a" content "assistant" kind
                         "auth0|alice" "conv-1" 102))
                "conv-1")
    /\ outcome (getMessages fair_weather (JString "conv-1") alice)
         short_conversation = Return before
    /\ outcome (getMessages fair_weather (JString "conv-1") alice)
         (db_after (sendMessage fair_weather (request hello) alice)
            short_conversation)
       = Return (before
                   ++ [Message.mk "msg-u" "Hello, AI!" "user" "text"
                         "auth0|alice" "conv-1" 101;
                       Message.mk "msg-a" content "assistant" kind
                         "auth0|alice" "conv-1" 102]).
Proof.
  apply (written_messages_are_read_back fair_weather fair_weather alice
           "auth0|alice" hello "conv-1" short_conversation
           "msg-u" "msg-a" 101 102 eq_refl eq_refl eq_refl eq_refl eq_refl
           eq_refl).
  - intros m H. cbn in H.
    repeat (destruct H as [<-|H]; [cbn; lia|]). contradiction.
  - lia.
Defined.

(** ** The title of a new conversation *)

Lemma substring0_prefix (n : nat) (s : string) :
  String.prefix (JsString.substring0 n s) s = true
  /\ String.length (JsString.substring0 n s) = Nat.min n (String.length s).
Proof.
  unfold JsString.substring0. revert s.
  induction n as [|n IH]; intros s.
  - destruct s; split; reflexivity.
  - destruct s as [|c s]; [split; reflexivity|]. cbn.
    destruct (IH s) as [P L]. rewrite L.
    destruct (ascii_dec c c); [|congruence]. split; [exact P|reflexivity].
Qed.

Lemma substring0_whole (n : nat) (s : string) :
  String.length s <= n -> JsString.substring0 n s = s.
Proof.
  unfold JsString.substring0. revert s.
  induction n as [|n IH]; intros s L.
  - destruct s; [reflexivity | cbn in L; lia].
  - destruct s as [|c s]; [reflexivity|]. cbn in *.
    rewrite IH by lia. reflexivity.
Qed.

(** The title of a conversation created by a request is the start of the
    message, 50 code units long at most; a message of up to 50 code units is
    its own title. *)
Theorem title_is_the_start_of_the_message (env : Env) (ctx : Ctx)
    (userId : string) (input : SendMessageInput.t) (d : Db) (id : string)
    (now : nat) :
  caller_identity ctx = Some userId ->
  SendMessageInput.conversationId input = None ->
  insert_conversation env = Stored id now ->
  let message := SendMessageInput.message input in
  exists title,
    conversations (db_after (sendMessage env (request input) ctx) d)
    = conversations d ++ [Conversation.mk id title userId now now]
    /\ JsString.startsWith message title = true
    /\ String.length title = Nat.min 50 (String.length message)
    /\ (String.length message <= 50 -> title = message).
Proof.
  intros A N S message.
  destruct (new_conversation_stored env ctx userId input d id now A N S)
    as (rest & _ & _ & _ & D).
  exists (JsString.substring0 50 message).
  split; [exact D|].
  destruct (substring0_prefix 50 message) as [P L].
  split; [exact P|]. split; [exact L|]. apply substring0_whole.
Qed.

Lemma title_is_the_start_of_the_message_witness :
  exists title,
    conversations
      (db_after (sendMessage fair_weather (request new_chat) alice) empty_db)
    = [Conversation.mk "conv-9" title "auth0|alice" 100 100]
    /\ String.length title = 50.
Proof.
  destruct (title_is_the_start_of_the_message fair_weather alice
              "auth0|alice" new_chat empty_db "conv-9" 100
              eq_refl eq_refl eq_refl) as (title & D & _ & L & _).
  exists title. split; [exact D | exact L].
Defined.

(** * Building the request context *)

Lemma getSession_run (answer : Awaited (option ExtendedSession.t))
    (l : list SetupCall) :
  getSession answer l
  = (Return (match answer with
             | Fulfilled s => s
             | Rejected _ => None
             end),
     l ++ [GetAuth0Session]).
Proof.
  unfold getSession, Setup.try_catch, Setup.bind, Setup.call, Setup.await.
  destruct answer; reflexivity.
Qed.

(** [refreshSession] always returns.  It asks the token endpoint at most
    once, with the refresh token of the session it has read again, and a
    session it gives is that session with the tokens of the answer; the
    refresh token is never lost. *)
Theorem refreshed_session_keeps_a_refresh_token (auth : Auth)
    (l : list SetupCall) :
  exists result asked,
    refreshSession auth l = (Return result, l ++ GetAuth0Session :: asked)
    /\ (asked = []
        \/ exists s token,
             auth0_session_again auth = Fulfilled (Some s)
             /\ ExtendedSession.refreshToken s = Some token
             /\ asked = [PostRefreshToken token])
    /\ (forall s',
          result = Some s' ->
          truthy (ExtendedSession.refreshToken s') = true
          /\ exists s data,
               auth0_session_again auth = Fulfilled (Some s)
               /\ token_endpoint auth = TokenOk (Fulfilled data)
               /\ ExtendedSession.user s' = ExtendedSession.user s
               /\ ExtendedSession.idToken s' = TokenData.id_token data
               /\ ExtendedSession.accessToken s' = TokenData.access_token data).
Proof.
  unfold refreshSession, Setup.try_catch. unfold Setup.bind at 1.
  rewrite getSession_run.
  destruct (auth0_session_again auth) as [[s|]|e].
  2,3: exists None, [];
       (split; [reflexivity|]); (split; [left; reflexivity|]);
       intros s' E; discriminate E.
  destruct (ExtendedSession.refreshToken s) as [token|] eqn:RT.
  2: { exists None, []. split; [reflexivity|].
       split; [left; reflexivity|]. intros s' E. discriminate E. }
  destruct (JsString.truthy token) eqn:T.
  2: { exists None, []. split; [reflexivity|].
       split; [left; reflexivity|]. intros s' E. discriminate E. }
  unfold Setup.bind, Setup.call, Setup.await, Setup.ret, Setup.throw.
  destruct (token_endpoint auth) as [e|[t|e]|[data|e]];
    rewrite <- app_assoc; cbn [app];
    eexists _, [PostRefreshToken token];
    (split; [reflexivity|]);
    (split; [right; exists s, token; auto|]);
    intros s' E; try discriminate E.
  injection E as <-. cbn. split.
  - unfold or_else. destruct (truthy (TokenData.refresh_token data)) eqn:D;
      [exact D | exact T].
  - exists s, data. auto.
Qed.

Example token_renewed_session :
  fst (refreshSession token_renewed [])
  = Return (Some (ExtendedSession.mk (Some (User.mk (Some "auth0|alice")))
                    (Some "new-token") (Some "access-2") (Some "refresh-1"))).
Proof. reflexivity. Qed.

Lemma refreshSession_returns (auth : Auth) (l : list SetupCall) :
  exists result asked,
    refreshSession auth l = (Return result, l ++ GetAuth0Session :: asked)
    /\ Forall (fun c => exists token, c = PostRefreshToken token) asked.
Proof.
  unfold refreshSession, Setup.try_catch. unfold Setup.bind at 1.
  rewrite getSession_run.
  destruct (auth0_session_again auth) as [[s|]|e];
    try (exists None, []; split; [reflexivity | constructor]).
  destruct (ExtendedSession.refreshToken s) as [token|];
    try (exists None, []; split; [reflexivity | constructor]).
  destruct (JsString.truthy token);
    try (exists None, []; split; [reflexivity | constructor]).
  unfold Setup.bind, Setup.call, Setup.await, Setup.ret, Setup.throw.
  destruct (token_endpoint auth) as [e|[t|e]|[data|e]];
    rewrite <- app_assoc; cbn [app];
    eexists _, [PostRefreshToken token];
    (split; [reflexivity | repeat constructor; eexists; reflexivity]).
Qed.

Lemma createTRPCContext_run (auth : Auth) :
  createTRPCContext auth []
  = match testSupabaseConnection auth (client_options (first_session auth))
            (first_session auth) [GetAuth0Session] with
    | (Return r, l) => (Return (Context.mk (snd r) (fst r)), l)
    | (Throw e, l) => (Throw e, l)
    end.
Proof.
  unfold createTRPCContext. unfold Setup.bind at 1. rewrite getSession_run.
  unfold createSupabaseClient, Setup.bind, Setup.ret. cbn [app].
  fold (first_session auth).
  destruct (testSupabaseConnection _ _ _ _) as [[r|e] l]; reflexivity.
Qed.

(** What the connection test returns: the client and session it was given,
    or a renewed session with the client made for it. *)
Lemma testSupabaseConnection_run (auth : Auth)
    (session : option ExtendedSession.t) (l : list SetupCall) :
  exists r l',
    testSupabaseConnection auth (client_options session) session l
    = (Return r, l')
    /\ fst r = client_options (snd r)
    /\ (snd r = session
        \/ truthy (session_idToken (snd r)) = true
           /\ exists l1 l2, refreshSession auth l1 = (Return (snd r), l2)).
Proof.
  unfold testSupabaseConnection.
  destruct (truthy (session_idToken session)); cbn [negb].
  2: { eexists _, _. split; [reflexivity|]. split; [reflexivity|].
       left. reflexivity. }
  unfold Setup.bind at 1. unfold Setup.try_catch, Setup.bind at 1, Setup.call.
  destruct (connection_test auth) as [|code|e];
    try (eexists _, _; split; [reflexivity|];
         split; [reflexivity | left; reflexivity]).
  destruct (is_expired_token code && truthy (session_refreshToken session));
    try (eexists _, _; split; [reflexivity|];
         split; [reflexivity | left; reflexivity]).
  unfold Setup.bind at 1.
  destruct (refreshSession_returns auth (l ++ [SelectOneConversation
                                                 (client_options session)]))
    as (result & asked & E & _).
  rewrite E.
  destruct (truthy (session_idToken result)) eqn:T.
  - eexists _, _. split; [reflexivity|]. split; [reflexivity|].
    right. split; [exact T|]. eexists _, _. exact E.
  - eexists _, _. split; [reflexivity|]. split; [reflexivity|].
    left. reflexivity.
Qed.

(** [createTRPCContext] always gives a context, and the storage client in it
    is the one made for the session in it: with a non-empty id token the
    client sends it as bearer token, and without one it sends none. *)
Theorem context_client_carries_the_session_token (auth : Auth) :
  exists c,
    context_of auth = Return c
    /\ Context.supabase c = client_options (Context.session c)
    /\ (forall token,
          session_idToken (Context.session c) = Some token ->
          JsString.truthy token = true ->
          ClientOptions.Authorization (Context.supabase c)
          = Some ("Bearer " ++ token)%string)
    /\ (truthy (session_idToken (Context.session c)) = false ->
        ClientOptions.Authorization (Context.supabase c) = None
        /\ ClientOptions.autoRefreshToken (Context.supabase c) = false).
Proof.
  unfold context_of. rewrite createTRPCContext_run.
  destruct (testSupabaseConnection_run auth (first_session auth)
              [GetAuth0Session]) as ([client session] & l' & E & C & _).
  rewrite E. cbn [fst snd] in *. subst client.
  eexists. split; [reflexivity|]. cbn [Context.supabase Context.session].
  split; [reflexivity|]. unfold client_options. split.
  - intros token S T. rewrite S, T. reflexivity.
  - intros T. destruct (session_idToken session) as [token|];
      [cbn in T; rewrite T|]; split; reflexivity.
Qed.

(** When the provider fails or knows no session, the context has no session
    and an anonymous client, the store is not asked, and the router rejects
    every procedure as unauthorized without any call. *)
Theorem missing_session_is_an_unauthenticated_request (auth : Auth)
    (env : Env) (sent : SendMessageRaw.t) (asked : Json) (w : World) :
  first_session auth = None ->
  exists c,
    context_of auth = Return c
    /\ Context.session c = None
    /\ ClientOptions.Authorization (Context.supabase c) = None
    /\ setup_calls auth = [GetAuth0Session]
    /\ sendMessage env sent (router_context c) w
       = (Throw (TRPCError UNAUTHORIZED "UNAUTHORIZED" None), w)
    /\ getConversations env tt (router_context c) w
       = (Throw (TRPCError UNAUTHORIZED "UNAUTHORIZED" None), w)
    /\ getMessages env asked (router_context c) w
       = (Throw (TRPCError UNAUTHORIZED "UNAUTHORIZED" None), w).
Proof.
  intros F. unfold context_of, setup_calls.
  rewrite createTRPCContext_run, F. cbn.
  eexists. repeat split.
Qed.

Lemma missing_session_is_an_unauthenticated_request_witness :
  exists c,
    context_of provider_down = Return c
    /\ sendMessage fair_weather (request hello) (router_context c)
         (mkWorld empty_db [])
       = (Throw (TRPCError UNAUTHORIZED "UNAUTHORIZED" None),
          mkWorld empty_db []).
Proof.
  destruct (missing_session_is_an_unauthenticated_request provider_down
              fair_weather (request hello) JNull (mkWorld empty_db [])
              eq_refl) as (c & C & _ & _ & _ & S & _).
  exists c. split; [exact C | exact S].
Defined.

(** Unless the store answers the connection test with the error code
    [PGRST301] and the session has a refresh token, the session is passed on
    as it was read and the token endpoint is not asked; a rejected
    connection test is no exception. *)
Theorem session_is_renewed_only_when_expired (auth : Auth) :
  connection_test auth <> Unreachable (Some "PGRST301")
  \/ truthy (session_refreshToken (first_session auth)) = false ->
  context_of auth
  = Return (Context.mk (first_session auth)
              (client_options (first_session auth)))
  /\ (setup_calls auth = [GetAuth0Session]
      \/ setup_calls auth
         = [GetAuth0Session;
            SelectOneConversation (client_options (first_session auth))]).
Proof.
  intros H. unfold context_of, setup_calls.
  rewrite createTRPCContext_run. unfold testSupabaseConnection.
  destruct (truthy (session_idToken (first_session auth))); cbn [negb].
  2: { split; [reflexivity | left; reflexivity]. }
  unfold Setup.bind at 1. unfold Setup.try_catch, Setup.bind at 1, Setup.call.
  destruct (connection_test auth) as [|code|e];
    try (split; [reflexivity | right; reflexivity]).
  assert (E : is_expired_token code
              && truthy (session_refreshToken (first_session auth)) = false).
  { destruct H as [H|H]; [|rewrite H; apply andb_false_r].
    destruct code as [c|]; [|reflexivity]. cbn.
    destruct (String.eqb_spec c "PGRST301") as [->|N]; [|reflexivity].
    exfalso. apply H. reflexivity. }
  rewrite E. split; [reflexivity | right; reflexivity].
Qed.

Lemma session_is_renewed_only_when_expired_witness :
  context_of store_unreachable
  = Return (Context.mk (Some expired_session)
              (ClientOptions.mk true false false
                 (Some "Bearer expired-token"))).
Proof.
  refine (proj1 (session_is_renewed_only_when_expired store_unreachable _)).
  left. discriminate.
Defined.

Lemma refreshSession_renewed (auth : Auth) (s2 : ExtendedSession.t)
    (refresh : string) (data : TokenData.t) (l : list SetupCall) :
  auth0_session_again auth = Fulfilled (Some s2) ->
  ExtendedSession.refreshToken s2 = Some refresh ->
  JsString.truthy refresh = true ->
  token_endpoint auth = TokenOk (Fulfilled data) ->
  refreshSession auth l
  = (Return (Some (ExtendedSession.mk (ExtendedSession.user s2)
                     (TokenData.id_token data) (TokenData.access_token data)
                     (or_else (TokenData.refresh_token data) (Some refresh)))),
     l ++ [GetAuth0Session; PostRefreshToken refresh]).
Proof.
  intros S2 R2 T2 TE.
  unfold refreshSession, Setup.try_catch. unfold Setup.bind at 1.
  rewrite getSession_run, S2, R2, T2, TE.
  unfold Setup.bind, Setup.call, Setup.await, Setup.ret.
  rewrite <- app_assoc. reflexivity.
Qed.

Lemma testSupabaseConnection_renewed (auth : Auth) (client : ClientOptions.t)
    (session : option ExtendedSession.t) (l : list SetupCall)
    (code : option string) (newSession : option ExtendedSession.t)
    (l2 : list SetupCall) :
  truthy (session_idToken session) = true ->
  connection_test auth = Unreachable code ->
  is_expired_token code = true ->
  truthy (session_refreshToken session) = true ->
  refreshSession auth (l ++ [SelectOneConversation client])
  = (Return newSession, l2) ->
  truthy (session_idToken newSession) = true ->
  testSupabaseConnection auth client session l
  = (Return (client_options newSession, newSession), l2).
Proof.
  intros I C X R E T. unfold testSupabaseConnection. rewrite I. cbn [negb].
  unfold Setup.bind at 1. unfold Setup.try_catch, Setup.bind at 1, Setup.call.
  rewrite C, X, R. cbn [andb]. unfold Setup.bind at 1. rewrite E, T.
  reflexivity.
Qed.

(** When the store reports the expired token and the provider renews it, the
    context holds the renewed session and a client with the new token.  The
    calls are the first read of the session, the connection test with the
    old client, the second read and the request to the token endpoint. *)
Theorem expired_token_is_replaced (auth : Auth) (s s2 : ExtendedSession.t)
    (old refresh renewed : string) (data : TokenData.t) :
  auth0_session auth = Fulfilled (Some s) ->
  ExtendedSession.idToken s = Some old -> JsString.truthy old = true ->
  truthy (ExtendedSession.refreshToken s) = true ->
  connection_test auth = Unreachable (Some "PGRST301") ->
  auth0_session_again auth = Fulfilled (Some s2) ->
  ExtendedSession.refreshToken s2 = Some refresh ->
  JsString.truthy refresh = true ->
  token_endpoint auth = TokenOk (Fulfilled data) ->
  TokenData.id_token data = Some renewed -> JsString.truthy renewed = true ->
  context_of auth
  = Return (Context.mk
              (Some (ExtendedSession.mk (ExtendedSession.user s2)
                       (Some renewed) (TokenData.access_token data)
                       (or_else (TokenData.refresh_token data)
                          (Some refresh))))
              (ClientOptions.mk true false false
                 (Some ("Bearer " ++ renewed)%string)))
  /\ setup_calls auth
     = [GetAuth0Session;
        SelectOneConversation
          (ClientOptions.mk true false false (Some ("Bearer " ++ old)%string));
        GetAuth0Session;
        PostRefreshToken refresh].
Proof.
  intros S I TI TR C S2 R2 T2 TE D TD.
  unfold context_of, setup_calls. rewrite createTRPCContext_run.
  assert (F : first_session auth = Some s)
    by (unfold first_session; rewrite S; reflexivity).
  rewrite F.
  assert (O : client_options (Some s)
              = ClientOptions.mk true false false
                  (Some ("Bearer " ++ old)%string))
    by (unfold client_options; cbn; rewrite I, TI; reflexivity).
  rewrite (testSupabaseConnection_renewed auth (client_options (Some s))
             (Some s) [GetAuth0Session] (Some "PGRST301") _ _
             ltac:(cbn; rewrite I; exact TI) C eq_refl TR
             (refreshSession_renewed auth s2 refresh data _ S2 R2 T2 TE)
             ltac:(cbn; rewrite D; exact TD)).
  cbn [fst snd app]. rewrite O. unfold client_options. cbn. rewrite D, TD.
  split; reflexivity.
Qed.

Lemma expired_token_is_replaced_witness :
  context_of token_renewed
  = Return (Context.mk
              (Some (ExtendedSession.mk (Some (User.mk (Some "auth0|alice")))
                       (Some "new-token") (Some "access-2")
                       (Some "refresh-1")))
              (ClientOptions.mk true false false (Some "Bearer new-token"))).
Proof.
  exact (proj1 (expired_token_is_replaced token_renewed expired_session
                  expired_session "expired-token" "refresh-1" "new-token"
                  (TokenData.mk (Some "new-token") (Some "access-2") None)
                  eq_refl eq_refl eq_refl eq_refl eq_refl eq_refl eq_refl
                  eq_refl eq_refl eq_refl eq_refl)).
Defined.

(** When the renewal gives no session with an id token, the context keeps
    the session it read and the client with the expired token. *)
Theorem failed_renewal_keeps_the_expired_session (auth : Auth) :
  (forall s', fst (refreshSession auth
                     [GetAuth0Session;
                      SelectOneConversation
                        (client_options (first_session auth))])
              = Return (Some s') ->
              truthy (ExtendedSession.idToken s') = false) ->
  context_of auth
  = Return (Context.mk (first_session auth)
              (client_options (first_session auth))).
Proof.
  intros H. unfold context_of. rewrite createTRPCContext_run.
  unfold testSupabaseConnection.
  destruct (truthy (session_idToken (first_session auth))); cbn [negb];
    [|reflexivity].
  unfold Setup.bind at 1. unfold Setup.try_catch, Setup.bind at 1, Setup.call.
  destruct (connection_test auth) as [|code|e]; try reflexivity.
  destruct (is_expired_token code && _); [|reflexivity].
  unfold Setup.bind at 1. cbn [app].
  destruct (refreshSession_returns auth
              [GetAuth0Session;
               SelectOneConversation (client_options (first_session auth))])
    as (result & asked & E & _).
  rewrite E in H |- *. cbn [fst] in H.
  destruct result as [s'|]; [|reflexivity].
  cbn [session_idToken]. rewrite (H s' eq_refl). reflexivity.
Qed.

Lemma failed_renewal_keeps_the_expired_session_witness :
  context_of renewal_refused
  = Return (Context.mk (Some expired_session)
              (ClientOptions.mk true false false
                 (Some "Bearer expired-token"))).
Proof.
  apply (failed_renewal_keeps_the_expired_session renewal_refused).
  intros s' H. vm_compute in H. discriminate H.
Defined.

(** * The page *)

Lemma trimEnd_cons (c : ascii) (s : string) :
  JsString.is_white_space c = false ->
  JsString.trimEnd (String c s) = String c (JsString.trimEnd s).
Proof.
  intros W. cbn. rewrite W. destruct (JsString.trimEnd s); reflexivity.
Qed.

(** The message [generateImage] builds is an image request for the router,
    and the prompt the router cuts from it is the typed prompt, trimmed. *)
Lemma command_and_prompt (prompt : string) :
  isImageGenerationRequest ("/image " ++ prompt) = true
  /\ image_prompt ("/image " ++ prompt) = JsString.trim prompt.
Proof.
  split.
  - unfold isImageGenerationRequest, JsString.trim.
    change (JsString.trimStart ("/image " ++ prompt))
      with ("/image " ++ prompt)%string.
    cbn [append].
    rewrite !trimEnd_cons by reflexivity.
    match goal with
    | |- context [JsString.trimEnd ?x] =>
        change (JsString.startsWith
                  (JsString.toLowerCase ("/image" ++ JsString.trimEnd x))
                  "/image" = true)
    end.
    rewrite toLowerCase_app. apply startsWith_append.
  - unfold image_prompt, JsString.replace_image_command, JsString.trim.
    change (JsString.match_literal_i "/image" ("/image " ++ prompt))
      with (Some (" " ++ prompt)%string).
    cbv iota. change (JsString.trimStart (" " ++ prompt))
      with (JsString.trimStart prompt).
    rewrite trimStart_idempotent. reflexivity.
Qed.

(** What is typed into the page and sent with the image button reaches the
    image endpoint trimmed and without the command, in the conversation the
    page is in; the user row holds the command and the text as typed. *)
Theorem typed_prompt_reaches_the_image_endpoint (clock : Page.Clock)
    (st : Page.State) (env : Env) (ctx : Ctx) (userId cid : string) (d : Db) :
  Page.nothing_to_send st = false ->
  caller_identity ctx = Some userId ->
  exists m,
    snd (Page.handleGenerateImage clock st) = Some m
    /\ Page.message m = ("/image " ++ Page.inputMessage st)%string
    /\ (conversation_resolves env (Page.input_of m) = Some cid ->
        image_requests
          (calls (sendMessage env (request (Page.input_of m)) ctx) d)
        = [JsString.trim (Page.inputMessage st)]
        /\ Forall (fun row => NewMessage.role row = "user" ->
                              NewMessage.message_type row = "image_prompt")
             (inserted_messages
                (calls (sendMessage env (request (Page.input_of m)) ctx) d))).
Proof.
  intros G A. unfold Page.handleGenerateImage. rewrite G.
  eexists. split; [reflexivity|]. split; [reflexivity|].
  intros R.
  destruct (command_and_prompt (Page.inputMessage st)) as [I P].
  pose proof (image_request_prompt env ctx userId _ cid d A R I) as H.
  cbn [Page.input_of Page.generateImage Page.message
       SendMessageInput.message] in H |- *.
  rewrite P in H. exact H.
Qed.

Lemma typed_prompt_reaches_the_image_endpoint_witness :
  exists m,
    snd (Page.handleGenerateImage noon typing_a_prompt) = Some m
    /\ Page.message m = "/image   a cat on a boat "
    /\ image_requests
         (calls (sendMessage fair_weather (request (Page.input_of m)) alice)
            short_conversation)
       = ["a cat on a boat"].
Proof.
  destruct (typed_prompt_reaches_the_image_endpoint noon typing_a_prompt
              fair_weather alice "auth0|alice" "conv-1" short_conversation
              eq_refl eq_refl) as (m & S & M & H).
  exists m. split; [exact S|]. split; [exact M|].
  injection S as <-. exact (proj1 (H eq_refl)).
Defined.

(** The page sends nothing for an input that is blank and nothing while a
    request is under way.  What it sends is never blank, so it never sends
    the empty message; and once it has sent, a second press sends nothing
    until the first request has ended. *)
Theorem page_sends_once_and_never_blank (clock later : Page.Clock)
    (st : Page.State) :
  (Page.nothing_to_send st = true ->
   Page.handleSendMessage clock st = (st, None)
   /\ Page.handleGenerateImage clock st = (st, None))
  /\ (forall st' m,
        Page.handleSendMessage clock st = (st', Some m) ->
        Page.message m = Page.inputMessage st
        /\ JsString.trim (Page.message m) <> ""
        /\ Page.inputMessage st' = ""
        /\ Page.handleSendMessage later st' = (st', None)
        /\ Page.handleGenerateImage later st' = (st', None)).
Proof.
  split.
  - intros G. unfold Page.handleSendMessage, Page.handleGenerateImage.
    rewrite G. split; reflexivity.
  - intros st' m. unfold Page.handleSendMessage.
    destruct (Page.nothing_to_send st) eqn:G; [discriminate|].
    intros E. injection E as <- <-. cbn [Page.message Page.inputMessage].
    split; [reflexivity|]. split.
    + unfold Page.nothing_to_send in G. apply orb_false_elim in G as [G _].
      apply negb_false_iff in G. intros E. rewrite E in G. discriminate G.
    + split; [reflexivity|]. split; reflexivity.
Qed.

Lemma page_sends_once_and_never_blank_witness :
  Page.handleSendMessage noon
    (Page.mkState [] None "   " false false)
  = (Page.mkState [] None "   " false false, None).
Proof.
  exact (proj1 (proj1 (page_sends_once_and_never_blank noon noon
                         (Page.mkState [] None "   " false false))
                  eq_refl)).
Defined.

(** * Two more facts on the input of [sendMessage] *)

Lemma unindented_command_is_cut_witness :
  exists cmd rest,
    "/Image  a cat " = (cmd ++ rest)%string
    /\ JsString.toLowerCase cmd = "/image"
    /\ image_prompt "/Image  a cat "
       = JsString.trimEnd (JsString.trimStart rest).
Proof.
  apply (unindented_command_is_cut "/Image  a cat " eq_refl eq_refl).
Defined.

Lemma no_message_is_invalid_witness :
  failure_code
    (outcome (sendMessage gateway_down (request empty_message) alice)
       empty_db)
  <> Some BAD_REQUEST.
Proof.
  apply (no_message_is_invalid gateway_down alice "auth0|alice" empty_message
           empty_db eq_refl).
Defined.
